(* ===== verification/_CoqProject ===== *)
-Q . S2P
Prelude.v
Events.v
Rolling.v
Dataset.v
Extra.v
Table.v
Clean.v
Asof.v
Merge.v
Storage.v
Features.v
Train.v
Predict.v
Config.v
Pipeline.v
Imports.v
Setup.v
