(* ===== verification/Prelude.v ===== *)
(** * A verification of the wemoms-homework feed-recommendation pipeline

    The program (src/src/wemoms_homework) turns a log of (post, user,
    time) interactions into time-ordered train/eval/test splits, builds
    per-row features from the log, merges them into one wide table,
    binds the features to the splits with backward as-of joins and ranks
    a model's scores.  Its parts, and the file of this development that
    models each of them:

    - Prelude.v (this file): the generic frame operations the components
      share, on lists of rows: [dedup_by] (drop_duplicates, keep first),
      [sort_by] (a stable insertion sort: sort_index / sort_values),
      [count_if] (len of a boolean selection), [open_ratio] (sum/len), with
      their lemmas, the notation [x in_window [lo, hi)] (scope
      [wemoms_scope]), the hint database [wemoms] and the tactics
      [elem_at] and [count_case].
    - Events.v: the record [Event] of the raw log and
      [utils.load_data] ([load_data], the deduplication on the key
      (trackable_id, user_id, tracker_created_at)); the [Config] of the
      six boundary dates; the four-column [SplitRow] of the splits.
    - Rolling.v: the Windowed Feature Engine, [PostPopularity] and
      [UserPostPopularity] of features/post_popularity.py and
      features/user_post_popularity.py.  [rolling key w df] is the
      pandas chain set_index/sort_index/groupby(sort=False)/
      rolling(w, closed='left')/agg(len, sum, sum/len)/fillna(0) for an
      entity key; [post_popularity] and [user_post_popularity] stack it
      over the windows 1d, 7d, 28d.  [rolling_stream] is the single-pass
      queue-and-counters algorithm, proved to compute the same table.
    - Dataset.v: data/make_dataset.py's [make_dataset]: the train split
      without the users with few and only negative signals
      ([make_trainset]), the eval split ([make_evalset]) and the
      synthesised test split ([make_testset]: each opened view of a post
      created the day before, plus an unopened row for every post created
      that day before).
    - Extra.v: features/extra_features.py, the three booleans comparing
      the children's ages of author and user ([extra_row]).
    - Table.v: DataFrames as named columns over rows of cells [Val]
      (NaN is [VNull]), with [df[cols]] ([project], KeyError as [None])
      and [pd.merge] how='left' ([left_merge]) and how='inner'
      ([inner_merge]), suffixes _x/_y included.
    - Clean.v: the cleanup both models/train_model.py and
      models/predict_model.py apply to the feature matrix,
      [replace({False: 0, True: 1}).select_dtypes(['number']).fillna(0)]
      ([clean]; a column's dtype is read from its cells, and
      [tracker_created_at] is a datetime column because [pd.read_json]
      converts "_at" names, [date_col]), [set_index] and [pop].
    - Asof.v: [pd.merge_asof(direction='backward')] of
      models/predict_model.py as the declarative join ([merge_asof]:
      the last right row of the key group at or before the left row's
      time; KeyError and the ValueError of an unsorted [on] column are
      [None]), and the [sort_values] that precedes it ([sort_table]).
    - Merge.v: features/base_features.py (the column lists and the
      projection [base_features]) and features/merge_features.py
      ([merge_features]: the nested loop over the configured groups,
      seeding with the first table and left-merging the others, with its
      [len(df) == 0] replacement).
    - Storage.v: the parquet files through which the stages
      communicate: a directory is a [Files] list of (name, table) in
      write order ([to_parquet], [read_parquet]); make_dataset's writes
      of the three split frames ([save_splits], with the test frame's
      mixed boolean/integer labels, [test_frame]) and its read-back
      sanity check ([sanity_check]); utils.py's [load_datasets] and
      [load_features].
    - Features.v: features/build_features.py and the extractor
      interface.  The base class [Feature] of the four extractor classes
      (features/feature.py, not among the sources) is the type class
      [Feature] with its laws [FeatureLaws]; [BaseFeatures],
      [ExtraFeatures], [PostPopularity] and [UserPostPopularity] are
      instances writing their parquet files as tables ([extra_table],
      [post_table], [user_post_table]); [build_features] runs the
      registry [FEATURE_DICT] threading the shared DataFrame, which
      [ExtraFeatures] changes in place; [wide_table] merges the written
      files under config.yml's [FEATURE_DEFINITIONS] and [FEATURES]
      (taken from the spec: config.yml is not in the sources).
    - Train.v: models/train_model.py up to the network
      ([train_inputs]): the splits read back, labels popped and cast to
      int ([astype_int]), the feature columns of the selected groups
      ([feature_cols]), the inner merges with [data[cols]] on the three
      ids, cleaned.
    - Predict.v: models/predict_model.py's [make_predictions]: the test
      frame read back, the three chained binds after [sort_values]
      ([bind_features]), [X_test[cols]] with the ids moved to the index
      and cleaned, the labels re-attached by position, the average
      descending rank in each (user, time) group ([rank_desc], [ranks])
      and the mean rank ([mean_rank]), with the network's scores as an
      input function.
    - Config.v: config.py's [load_config] (a missing config.yml is a
      [FileNotFoundError], a YAMLError surfaces as [UnboundLocalError]),
      the parsed document [Yaml] and [CONF[k1][k2]] ([getpath]: a
      [KeyError] or a [TypeError]), the exceptions [Exc] in a result
      monad, the module-level constants of every module (one record
      per module) and [startup]: the module bodies in the order the
      imports of __main__.py run them on the source tree completed with
      the two files it lacks (on the tree as given the imports stop
      earlier, see Imports.v).
    - Pipeline.v: the command line of __main__.py over the disk
      ([Disk]: the logs, the parquet directories as [Files], the saved
      models).  Each command with its click options and their defaults
      is one function from the disk to the disk and the exception
      raised ([exec]; the effects made before an exception stay); [run]
      is a sequence of invocations.  The network ([fit], fallible, and
      [predict]) and [USER_POST_FEATURES] are parameters of the section.
    - Imports.v: what [python -m wemoms_homework] runs before the
      command.  Every file's top-level statements are a list of [Stmt]
      (imports of the package's modules, of installed libraries,
      definitions, __init__.py's logging calls as effects, and the
      [CONF = load_config()] block); the source tree is a [Tree] of
      files ([src_tree] as the sources are, [complete_tree] with the two
      files they lack); Python's import system is [import_module]
      (importlib's _find_and_load: sys.modules, parent packages first,
      namespace packages, [_handle_fromlist] and [IMPORT_FROM]) and
      runpy's [python -m] is [run_main]; [run_python] is the whole
      process, the imports then [cli()].
    - Setup.v: setup.py's [load_requirements] (str.strip and the
      filter on the lines of requirements.txt), the [setup(...)] call
      ([setup_args]) with setuptools' [find_packages] and the files a
      regular install copies ([installed]).

    The components interact as the program does: [load_data] feeds
    [make_dataset] and the feature extractors; make_dataset writes the
    splits to the output directory ([save_train_eval], [save_splits]);
    the feature tables are written by [build_features] to the interim
    directory and merged by [merge_features] ([wide_table]);
    [train_model] reads the splits and features.parquet back and joins
    them ([train_inputs]), and [make_predictions] binds the features to
    the test frame.  The registry's theorems are proved against the
    [Feature] interface, whose laws each extractor discharges.  The
    theorems about a composition are proved from the component lemmas:
    Rolling.v's theorems are about [rolling] applied to [load_data raw],
    Dataset.v's about [make_testset] built from [pos_testset] and
    [pos_and_neg], Storage.v's about the files [save_splits] writes, and
    Predict.v's last theorems about [make_predictions] on those files.
    Pipeline.v composes the commands through the disk, and Imports.v
    composes the module constants of Config.v with the command line of
    Pipeline.v: the imports evaluate each module's [CONF] block through
    [run_conf], and [run_python] runs the command on the [Modules] they
    produce.

    What the theorems show, by group:
    - no leakage of the future into a popularity feature: a row at time
      t counts exactly the entity's views in [t - w, t) (Rolling.v); the
      values are well-formed ratios, zero without history; there is one
      row per event; the features are monotone in the window; the
      streaming algorithm computes the reference table; and the rows of
      k views at the same second see 0, 1, ..., k - 1 of each other;
    - the splits: the train filter is exactly "drop sparse-negative
      users", every opened test row has an unopened copy, and the three
      splits are ordered in time (Dataset.v); make_dataset raises
      [TypeError] exactly when the lookback frame is empty, after writing
      train and eval, and otherwise passes its sanity check (Pipeline.v);
      load_data keeps exactly the first row of each key (Events.v);
    - the features and their merge: a left merge keeps each left row
      once, extended by its matching right row or by NaN, when the right
      table is key-unique (Table.v); features.parquet has exactly one
      row per event when no two events show a post at the same second,
      and strictly more rows than events when two views of a post share
      a second (Features.v);
    - the binder: the row bound by merge_asof is the latest one at or
      before the row's time within its key group (Asof.v);
    - prediction and cleanup: the cleanup keeps exactly the
      non-datetime columns of booleans, numbers and NaN (Clean.v); a
      positive test row always ties with its unopened copy in the ranks
      of [make_predictions], whatever the network's scores; the
      prediction labels are the stored test labels while the index is
      the test ids re-sorted by time, so they are misaligned on a test
      frame not sorted by time; the training matrix has the id columns
      the prediction matrix lacks (Predict.v); install requirements are
      stripped, non-empty, not options, and [load_requirements] is
      idempotent (Setup.v);
    - the command line: two invocations of a command that differ only
      in the options the code never reads ([--data-path], the dates,
      [--output-root] of every command but make_dataset,
      [--testset-path]) do the same; train_model fails after any
      invocations none of which wrote the splits where it reads them,
      whatever make_dataset's [--output-root]; make_predictions raises
      until a train_model has saved a model under its [--models-root]
      (Pipeline.v);
    - the imports: with the sources as given every invocation raises at
      import ([ModuleNotFoundError] for features/feature.py, or the
      exception of config.yml before it); on the completed tree the
      imports run the module bodies exactly as [startup] does (a
      refinement, Imports.v); a regular install lacks the command
      modules, because [find_packages] skips directories without
      __init__.py (Setup.v).

    Modelling choices.  Timestamps are integers (seconds, [Z]) and days
    are [t / 86400]; ids are integers; pandas' float ratio is an exact
    rational ([Q]); a sort is stable (pandas' default quicksort is not,
    so rows with equal timestamps may be ordered differently there; no
    theorem depends on the order among equal timestamps except through
    [sort_by]'s stability).  Fallible pandas calls return [option].
    Every loop of the program is a loop over a finite frame or list
    (iterrows, groupby, the registry, the merges), modelled by
    structural recursion, so termination is given by the definitions.
    The one recursion that is not structural is the import of modules,
    which calls itself through the import statements of the module it
    loads; [import_module] takes a fuel, and [import_fuel tree], the
    depth of the tree's import names times one more than its number of
    module names, is enough on the package's trees: the theorems of
    Imports.v and Setup.v evaluate the imports to a result, never the
    out-of-fuel [None].  The command line runs each command to
    completion or to its first exception; the pipeline is a batch
    computation with no reactive part.

    Not modelled: the parquet encoding (a written file is a table of
    cells; test.parquet's column mixing booleans and integers is
    written as such, while pyarrow may refuse it); the record [Event]
    is typed, so the log's missing or NaN values (children's ages
    among them, on which extra_features.py can fail) are not
    represented; the YAML parser (a parameter of [load_config]) and
    the conversion of config.yml's date strings to timestamps (the
    dates are a [Config]); a path of config.yml that is not a string
    (reported before the command instead of at its first use); click's
    parsing of the command line (a command is given with its options);
    the log messages and the TensorBoard logs (__init__.py's logging
    set-up calls are recorded in order, not interpreted); the imports of
    installed libraries, which succeed; the contents of
    features/__init__.py and features/feature.py, which the sources
    lack ([complete_tree] adds the smallest files the imports need);
    setuptools' build beyond which files a regular install copies; the
    Keras model (its training and scores are the parameters [fit] and
    [predict]); pandas' compiled merge_asof scan (its result is
    specified by [merge_asof]); the exceptions of the pandas calls,
    which are one [PandasError]; and the order of the Python set of
    feature columns (first appearance is used). *)

From stdpp Require Export base list decidable sets sorting.
From Stdlib Require Export ZArith QArith Lqa Sorting.Sorted.

Declare Scope wemoms_scope.
Delimit Scope wemoms_scope with wm.

(** [x in_window [lo, hi)]: [x] lies in the half-open interval
    [lo, hi), the shape of a [closed='left'] rolling window. *)
#[warnings="-postfix-notation-not-level-1"]
Notation "x 'in_window' [ lo , hi )" := (lo <= x < hi)%Z
  (at level 70, no associativity, lo at level 50, hi at level 50) : wemoms_scope.
Open Scope Z_scope.

Create HintDb wemoms.
Create Rewrite HintDb wemoms.

(** ** Generic operations on data frames seen as lists of rows *)

(** [dedup_by f l] keeps, for every value of the key [f], the first
    element of [l] that has it, in the order of [l]: pandas'
    [drop_duplicates(subset=..., keep="first")] when [f] projects the
    subset columns. *)
Fixpoint dedup_by_aux {A K} `{EqDecision K} (f : A -> K) (seen : list K) (l : list A) : list A :=
  match l with
  | [] => []
  | x :: l' =>
      if decide (f x ∈ seen) then dedup_by_aux f seen l'
      else x :: dedup_by_aux f (f x :: seen) l'
  end.

Definition dedup_by {A K} `{EqDecision K} (f : A -> K) (l : list A) : list A :=
  dedup_by_aux f [] l.

(** pandas' [Series.unique()]: distinct values in order of first
    appearance; also the group order of [groupby(..., sort=False)]. *)
Definition unique {A} `{EqDecision A} (l : list A) : list A := dedup_by id l.

(** pandas' [sort_index()] / [sort_values(by=...)] on one integer column,
    modelled as a stable insertion sort: rows with equal keys keep their
    input order. *)
Fixpoint insert_by {A} (f : A -> Z) (x : A) (l : list A) : list A :=
  match l with
  | [] => [x]
  | y :: l' => if decide (f x <= f y) then x :: l else y :: insert_by f x l'
  end.

Fixpoint sort_by {A} (f : A -> Z) (l : list A) : list A :=
  match l with
  | [] => []
  | x :: l' => insert_by f x (sort_by f l')
  end.

Definition sorted_by {A} (f : A -> Z) : list A -> Prop := Sorted (fun a b => f a <= f b).

(** [len] of the rows of [l] satisfying [P]. *)
Definition count_if {A} (P : A -> Prop) `{!∀ x, Decision (P x)} (l : list A) : nat :=
  length (filter P l).

(** [sum(x)/len(x)] on a window of [views] rows of which [clicks] were
    opened, as an exact rational. *)
Definition open_ratio (clicks views : nat) : Q :=
  inject_Z (Z.of_nat clicks) / inject_Z (Z.of_nat views).

(** Case analysis on every [decide] of the goal, then arithmetic. *)

(** Membership in a computed table, by its position. *)
Ltac elem_at n := apply list_elem_of_lookup; exists n; vm_compute; reflexivity.

(** ** Deduplication *)

Section DedupByFacts.
Context {A K : Type} `{EqDecision K} (f : A -> K).

Lemma dedup_by_aux_sublist seen l : dedup_by_aux f seen l `sublist_of` l.
Proof.
  revert seen; induction l as [|x l IH]; intros seen; simpl; [done|].
  case_decide; [by apply sublist_cons| by apply sublist_skip].
Qed.

Lemma dedup_by_aux_fresh seen l y :
  y ∈ dedup_by_aux f seen l -> f y ∉ seen.
Proof.
  revert seen; induction l as [|x l IH]; intros seen; simpl; [set_solver|].
  case_decide as Hx; [by apply IH|].
  rewrite elem_of_cons; intros [->|Hy]; [done|].
  apply IH in Hy. set_solver.
Qed.

Lemma dedup_by_aux_NoDup seen l : NoDup (f <$> dedup_by_aux f seen l).
Proof.
  revert seen; induction l as [|x l IH]; intros seen; simpl; [constructor|].
  case_decide; [done|]. simpl. constructor; [|done].
  intros (y & Hy & Hin)%list_elem_of_fmap.
  apply dedup_by_aux_fresh in Hin. set_solver.
Qed.

Lemma dedup_by_aux_keys seen l k :
  k ∈ f <$> dedup_by_aux f seen l <-> k ∈ f <$> l /\ k ∉ seen.
Proof.
  revert seen; induction l as [|x l IH]; intros seen; simpl.
  - set_solver.
  - case_decide as Hx.
    + rewrite IH. set_solver.
    + simpl. rewrite !elem_of_cons, IH.
      destruct (decide (k = f x)); set_solver.
Qed.

(** Keep-first semantics: an element survives exactly when no element
    before it in the input has the same key. *)
Lemma dedup_by_aux_first seen l x :
  x ∈ dedup_by_aux f seen l <->
  exists l1 l2, l = l1 ++ x :: l2 /\ f x ∉ seen /\ f x ∉ f <$> l1.
Proof.
  revert seen; induction l as [|y l IH]; intros seen; simpl.
  - split; [set_solver|]. intros (l1 & l2 & Hl & _). by destruct l1.
  - case_decide as Hy.
    + rewrite IH. split.
      * intros (l1 & l2 & -> & H1 & H2). exists (y :: l1), l2.
        do 2 (split; [done|]). simpl. rewrite elem_of_cons.
        intros [E|E]; [rewrite E in H1|]; done.
      * intros ([|z l1] & l2 & Hl & H1 & H2); simplify_eq/=; [done|].
        exists l1, l2. set_solver.
    + rewrite elem_of_cons, IH. split.
      * intros [->|(l1 & l2 & -> & H1 & H2)].
        -- exists [], l. split_and!; [done|exact Hy|]. simpl. apply not_elem_of_nil.
        -- exists (y :: l1), l2. split; [done|]. split; [set_solver|].
           simpl. rewrite elem_of_cons. intros [E|E]; [|done].
           apply H1. rewrite E. by left.
      * intros ([|z l1] & l2 & Hl & H1 & H2); simplify_eq/=; [by left|].
        right. exists l1, l2. set_solver.
Qed.

Lemma dedup_by_sublist l : dedup_by f l `sublist_of` l.
Proof. apply dedup_by_aux_sublist. Qed.

Lemma dedup_by_NoDup l : NoDup (f <$> dedup_by f l).
Proof. apply dedup_by_aux_NoDup. Qed.

Lemma dedup_by_keys l k : k ∈ f <$> dedup_by f l <-> k ∈ f <$> l.
Proof. unfold dedup_by. rewrite dedup_by_aux_keys. set_solver. Qed.

Lemma dedup_by_first l x :
  x ∈ dedup_by f l <-> exists l1 l2, l = l1 ++ x :: l2 /\ f x ∉ f <$> l1.
Proof. unfold dedup_by. rewrite dedup_by_aux_first. set_solver. Qed.

Lemma dedup_by_aux_nodup_id seen l :
  NoDup (f <$> l) -> Forall (fun x => f x ∉ seen) l -> dedup_by_aux f seen l = l.
Proof.
  revert seen; induction l as [|x l IH]; intros seen Hnd Hs; simpl; [done|].
  inversion Hnd as [|? ? Hx Hnd']; subst. inversion Hs; subst.
  rewrite decide_False by done. f_equal. apply IH; [done|].
  apply Forall_forall. intros y Hy. rewrite elem_of_cons.
  intros [Heq|?]; [|by eapply (Forall_forall _ l) in Hy; eauto].
  apply Hx. rewrite <- Heq. by apply list_elem_of_fmap_2.
Qed.

Lemma dedup_by_idem l : dedup_by f (dedup_by f l) = dedup_by f l.
Proof.
  apply dedup_by_aux_nodup_id; [apply dedup_by_NoDup|].
  apply Forall_forall. set_solver.
Qed.
End DedupByFacts.

Lemma unique_elem {A} `{EqDecision A} (l : list A) x : x ∈ unique l <-> x ∈ l.
Proof. unfold unique. pose proof (dedup_by_keys id l x). by rewrite !list_fmap_id in H. Qed.

Lemma unique_NoDup {A} `{EqDecision A} (l : list A) : NoDup (unique l).
Proof. pose proof (dedup_by_NoDup id l). by rewrite list_fmap_id in H. Qed.

#[export] Hint Resolve dedup_by_sublist dedup_by_NoDup unique_NoDup : wemoms.

(** ** The stable sort *)

Section SortByFacts.
Context {A : Type} (f : A -> Z).

Lemma insert_by_perm x l : insert_by f x l ≡ₚ x :: l.
Proof.
  induction l as [|y l IH]; simpl; [done|].
  case_decide; [done|]. rewrite IH. by constructor.
Qed.

Lemma sort_by_perm l : sort_by f l ≡ₚ l.
Proof.
  induction l as [|x l IH]; simpl; [done|].
  by rewrite insert_by_perm, IH.
Qed.

Lemma insert_by_sorted x l : sorted_by f l -> sorted_by f (insert_by f x l).
Proof.
  unfold sorted_by. induction 1 as [|y l Hs IH Hhd]; simpl; [by repeat constructor|].
  case_decide as Hxy; [by repeat constructor|].
  constructor; [done|].
  destruct l as [|z l]; simpl in *; [constructor; lia|].
  inversion Hhd; subst. case_decide; constructor; [lia|done].
Qed.

Lemma sort_by_sorted l : sorted_by f (sort_by f l).
Proof. induction l; simpl; [constructor|]. by apply insert_by_sorted. Qed.

Lemma insert_by_head x l :
  sorted_by f (x :: l) -> insert_by f x l = x :: l.
Proof.
  intros Hs. destruct l as [|y l]; simpl; [done|].
  inversion Hs as [|? ? _ Hhd]; subst. inversion Hhd; subst.
  by rewrite decide_True.
Qed.

(** Sorting rows that are already in order leaves them untouched. *)
Lemma sort_by_sorted_id l : sorted_by f l -> sort_by f l = l.
Proof.
  induction l as [|x l IH]; intros Hs; simpl; [done|].
  inversion Hs as [|? ? Hs' _]; subst.
  rewrite IH by done. by apply insert_by_head.
Qed.

Lemma sort_by_idem l : sort_by f (sort_by f l) = sort_by f l.
Proof. apply sort_by_sorted_id, sort_by_sorted. Qed.

Lemma sort_by_length l : length (sort_by f l) = length l.
Proof. apply Permutation_length, sort_by_perm. Qed.

Lemma sort_by_elem l x : x ∈ sort_by f l <-> x ∈ l.
Proof. apply elem_of_Permutation_proper, sort_by_perm. Qed.
End SortByFacts.

(** Sortedness through a map that keeps the sort key of every element,
    and back. *)
Lemma sorted_by_fmap_key {A B} (k1 : A -> Z) (k2 : B -> Z) (g : A -> B) l :
  Forall (fun x => k2 (g x) = k1 x) l -> sorted_by k1 l -> sorted_by k2 (g <$> l).
Proof.
  intros HF Hs. induction Hs as [|x l Hs IH Hhd]; [constructor|].
  apply Forall_cons in HF as [Hx HF]. simpl. constructor; [by apply IH|].
  inversion Hhd as [|y l' Hxy]; subst; simpl; constructor.
  apply Forall_cons in HF as [Hy _]. rewrite Hx, Hy. exact Hxy.
Qed.

Lemma sorted_by_fmap_inv {A B} (k : B -> Z) (g : A -> B) l :
  sorted_by k (g <$> l) -> sorted_by (k ∘ g) l.
Proof.
  induction l as [|x l IH]; intros Hs; [constructor|]. simpl in Hs.
  inversion Hs as [|? ? Hs' Hhd]; subst. constructor; [by apply IH|].
  destruct l as [|y l]; constructor. by inversion Hhd.
Qed.

#[export] Hint Resolve sort_by_perm sort_by_sorted : wemoms.
#[export] Hint Rewrite @sort_by_idem @sort_by_length : wemoms.

(** ** Counting and the open ratio *)

Lemma open_ratio_bounds c v :
  (c <= v)%nat -> (0 < v)%nat -> (0 <= open_ratio c v <= 1)%Q.
Proof.
  intros Hcv Hv. unfold open_ratio. split.
  - apply Qle_shift_div_l; [unfold Qlt; simpl; lia|].
    rewrite Qmult_0_l. unfold Qle; simpl; lia.
  - apply Qle_shift_div_r; [unfold Qlt; simpl; lia|].
    rewrite Qmult_1_l. unfold Qle; simpl; lia.
Qed.

Lemma open_ratio_mult c v :
  (0 < v)%nat -> (open_ratio c v * inject_Z (Z.of_nat v) == inject_Z (Z.of_nat c))%Q.
Proof.
  intros Hv. unfold open_ratio. field.
  unfold Qeq; simpl; lia.
Qed.

Lemma count_if_le {A} (P : A -> Prop) `{!∀ x, Decision (P x)} l :
  (count_if P l <= length l)%nat.
Proof. apply length_filter. Qed.

Lemma count_if_app {A} (P : A -> Prop) `{!∀ x, Decision (P x)} l1 l2 :
  count_if P (l1 ++ l2) = (count_if P l1 + count_if P l2)%nat.
Proof. unfold count_if. by rewrite filter_app, length_app. Qed.

Lemma count_if_singleton {A} (P : A -> Prop) `{!∀ x, Decision (P x)} x :
  count_if P [x] = if decide (P x) then 1%nat else 0%nat.
Proof. unfold count_if. rewrite filter_cons, filter_nil. by case_decide. Qed.

(** Counting is monotone in the predicate on the list's elements, and strictly so when one
    element of the list satisfies the larger predicate only. *)
Lemma count_if_mono_in {A} (P Q : A -> Prop) `{!∀ x, Decision (P x)} `{!∀ x, Decision (Q x)} l :
  (∀ x, x ∈ l -> P x -> Q x) -> (count_if P l <= count_if Q l)%nat.
Proof.
  unfold count_if. induction l as [|x l IH]; intros Himp; [done|].
  assert (IH' := IH (λ y Hy, Himp y (list_elem_of_further _ _ _ Hy))).
  assert (Hx := Himp x (list_elem_of_here _ _)).
  rewrite !filter_cons. repeat case_decide; simpl; tauto || lia.
Qed.

Lemma count_if_lt_in {A} (P Q : A -> Prop) `{!∀ x, Decision (P x)} `{!∀ x, Decision (Q x)} l x :
  (∀ y, y ∈ l -> P y -> Q y) -> x ∈ l -> Q x -> ¬ P x ->
  (count_if P l < count_if Q l)%nat.
Proof.
  unfold count_if. induction l as [|y l IH]; intros Himp Hx HQ HP; [by apply elem_of_nil in Hx|].
  assert (Hl := count_if_mono_in P Q l (λ z Hz, Himp z (list_elem_of_further _ _ _ Hz))).
  unfold count_if in Hl. assert (Hy := Himp y (list_elem_of_here _ _)).
  rewrite !filter_cons. apply elem_of_cons in Hx as [->|Hx].
  - repeat case_decide; simpl; tauto || lia.
  - specialize (IH (λ z Hz, Himp z (list_elem_of_further _ _ _ Hz)) Hx HQ HP).
    repeat case_decide; simpl; tauto || lia.
Qed.

#[export] Hint Resolve count_if_le : wemoms.
#[export] Hint Rewrite @count_if_app @count_if_singleton : wemoms.

(** ** Sorted lists, filters and positions *)

Lemma filter_all_true {A} (P : A -> Prop) `{!∀ x, Decision (P x)} (l : list A) :
  Forall P l -> filter P l = l.
Proof. induction 1; [done|]. rewrite filter_cons_True by done. by f_equal. Qed.

Lemma Forall_filter {A} (Q : A -> Prop) (P : A -> Prop) `{!∀ x, Decision (P x)} l :
  Forall Q l -> Forall Q (filter P l).
Proof.
  rewrite !Forall_forall. intros HQ x Hx.
  apply list_elem_of_filter in Hx as [_ Hx]. by apply HQ.
Qed.

Lemma filter_all_false {A} (P : A -> Prop) `{!∀ x, Decision (P x)} l :
  Forall (fun x => ~ P x) l -> filter P l = [].
Proof. induction 1; [done|]. by rewrite filter_cons_False. Qed.

Section SortedFacts.
Context {A : Type}.

Lemma StronglySorted_filter (R : A -> A -> Prop) (P : A -> Prop)
    `{!∀ x, Decision (P x)} l :
  StronglySorted R l -> StronglySorted R (filter P l).
Proof.
  induction 1 as [|x l Hs IH Hx]; [constructor|]. rewrite filter_cons.
  case_decide; [|done]. constructor; [done|].
  apply Forall_filter. by apply Forall_impl with (R x).
Qed.

Context (f : A -> Z).

(** A non-decreasing list whose keys are pairwise distinct is strictly
    increasing. *)
Lemma StronglySorted_strict l :
  StronglySorted (fun a b => f a <= f b) l -> NoDup (f <$> l) ->
  StronglySorted (fun a b => f a < f b) l.
Proof.
  induction 1 as [|x l Hs IH Hx]; intros Hnd; [constructor|].
  inversion Hnd as [|? ? Hnin Hnd']; subst. constructor; [by apply IH|].
  apply Forall_forall. intros y Hy.
  eapply (Forall_forall _ l) in Hy as Hle; [|exact Hx].
  destruct (decide (f x = f y)) as [Heq|]; [|simpl in *; lia].
  exfalso. apply Hnin. rewrite Heq. by apply list_elem_of_fmap_2.
Qed.

(** In a strictly increasing list, the rows before position [i] are
    exactly the rows with a smaller key. *)
Lemma take_strict_sorted l i x :
  StronglySorted (fun a b => f a < f b) l -> l !! i = Some x ->
  take i l = filter (fun y => f y < f x) l.
Proof.
  intros Hs. revert i. induction Hs as [|y l Hs IH Hy]; intros [|i] Hi; simplify_eq/=.
  - rewrite filter_cons_False by lia. symmetry. apply filter_all_false.
    apply Forall_forall. intros z Hz. eapply (Forall_forall _ l) in Hz; [|exact Hy]. cbn in *. lia.
  - rewrite filter_cons_True; [by erewrite IH|].
    apply list_elem_of_lookup_2 in Hi.
    eapply (Forall_forall _ l) in Hi; [|exact Hy]. done.
Qed.

(** A non-decreasing list is its rows before [t], then those at [t],
    then those after [t]. *)
Lemma sorted_split3 l t :
  StronglySorted (fun a b => f a <= f b) l ->
  l = filter (fun a => f a < t) l ++ filter (fun a => f a = t) l ++ filter (fun a => t < f a) l.
Proof.
  induction 1 as [|a l Hs IH Ha]; [done|]. rewrite !filter_cons.
  assert (Hge : forall P `{!∀ x, Decision (P x)}, (forall b, f a <= f b -> ~ P b) -> filter P l = []).
  { intros P ? HP. apply filter_all_false. eapply Forall_impl; [exact Ha|]. exact HP. }
  repeat case_decide; try lia; simpl.
  - by f_equal.
  - rewrite (Hge (fun b => f b < t)) by (intros; lia). simpl. f_equal.
    rewrite (Hge (fun b => f b < t)) in IH by (intros; lia). exact IH.
  - rewrite (Hge (fun b => f b < t)), (Hge (fun b => f b = t)) by (intros; lia). simpl.
    f_equal. symmetry. apply filter_all_true. eapply Forall_impl; [exact Ha|]. simpl; lia.
Qed.
End SortedFacts.

Lemma filter_fmap_comm {A B} (g : A -> B) (P : B -> Prop) `{!∀ x, Decision (P x)} (l : list A) :
  filter P (g <$> l) = g <$> filter (fun x => P (g x)) l.
Proof.
  induction l as [|x l IH]; [done|]. rewrite fmap_cons, !filter_cons.
  case_decide; by rewrite IH, ?fmap_cons.
Qed.

(** Joining the blocks of a list of distinct keys of which only the
    block of [k] is non-empty gives that block. *)
Lemma list_filter_mjoin {A} (P : A -> Prop) `{!∀ x, Decision (P x)} (L : list (list A)) :
  filter P (mjoin L) = mjoin (filter P <$> L).
Proof. induction L as [|l L IH]; [done|]. simpl. by rewrite filter_app, IH. Qed.

Lemma mjoin_fmap_nil {A B} (F : A -> list B) (U : list A) :
  (forall x, x ∈ U -> F x = []) -> mjoin (F <$> U) = [].
Proof.
  induction U as [|x U IH]; intros HF; [done|]. simpl.
  rewrite HF by (apply elem_of_cons; by left). apply IH. intros y Hy. apply HF, elem_of_cons. by right.
Qed.

Lemma mjoin_fmap_single {A B} `{EqDecision A} (F : A -> list B) (U : list A) (k : A) :
  NoDup U -> (forall k', k' <> k -> F k' = []) -> (k ∉ U -> F k = []) ->
  mjoin (F <$> U) = F k.
Proof.
  intros Hnd HF. induction Hnd as [|k0 U Hk0 Hnd IH]; intros Hk.
  - symmetry. apply Hk, not_elem_of_nil.
  - simpl. destruct (decide (k0 = k)) as [->|Hne].
    + rewrite mjoin_fmap_nil, app_nil_r; [done|]. intros x Hx. apply HF. by intros ->.
    + rewrite HF by done. apply IH. intros Hu. apply Hk. intros [->|?]%elem_of_cons; done.
Qed.

Lemma count_if_perm {A} (P : A -> Prop) `{!∀ x, Decision (P x)} (l1 l2 : list A) :
  l1 ≡ₚ l2 -> count_if P l1 = count_if P l2.
Proof. intros Hp. unfold count_if. by rewrite Hp. Qed.

(** Pairs [(a e, b e)] that are distinct stay distinct on [b] among the
  rows sharing one value of [a]. *)
Lemma NoDup_pair_fixed {A K V} (a : A -> K) (b : A -> V) (k : K) (l : list A) :
  NoDup ((fun e => (a e, b e)) <$> l) -> Forall (fun e => a e = k) l -> NoDup (b <$> l).
Proof.
  induction l as [|x l IH]; intros Hnd Hk; simpl; [constructor|].
  inversion Hnd as [|? ? Hnin Hnd']; subst. inversion Hk as [|? ? Hx Hk']; subst.
  constructor; [|by apply IH].
  intros (y & Hy & Hin)%list_elem_of_fmap. apply Hnin, list_elem_of_fmap.
  exists y. split; [|done]. eapply (Forall_forall _ l) in Hin; [|exact Hk']. simpl in *. congruence.
Qed.

#[export] Hint Resolve StronglySorted_filter : wemoms.

(** ** Groups of a [groupby] *)

(** Concatenating the groups of a list, one per distinct key, gives the
    list back up to order. *)
Lemma group_partition {A B K} `{EqDecision K} (key : A -> K) (g : A -> B)
    (ks : list K) (l : list A) :
  NoDup ks -> Forall (fun x => key x ∈ ks) l ->
  mjoin ((fun k => g <$> filter (fun x => key x = k) l) <$> ks) ≡ₚ g <$> l.
Proof.
  revert l. induction ks as [|k ks IH]; intros l Hnd Hin.
  - destruct l as [|x l]; [done|]. inversion Hin as [|? ? Hx]; subst.
    by apply not_elem_of_nil in Hx.
  - inversion Hnd as [|? ? Hk Hnd']; subst. simpl.
    assert (Hc : g <$> l ≡ₚ (g <$> filter (fun x => key x = k) l) ++
                             (g <$> filter (fun x => key x ≠ k) l)).
    { rewrite <- fmap_app. apply fmap_Permutation. symmetry.
      apply (filter_app_complement (fun x => key x = k) l). }
    rewrite Hc. f_equiv.
    rewrite <- (IH (filter (fun x => key x ≠ k) l)); [|done|].
    + match goal with |- mjoin ?L1 ≡ₚ mjoin ?L2 => enough (L1 = L2) as -> by done end.
      apply Forall_fmap_ext_1, Forall_forall. intros k' Hk'.
      rewrite list_filter_filter. f_equal. apply list_filter_iff.
      intros x. split; [|tauto]. intros ->. split; [done|]. intros ->. done.
    + apply Forall_forall. intros x (Hx & Hxl)%list_elem_of_filter.
      eapply (Forall_forall _ l) in Hxl; [|exact Hin]. apply elem_of_cons in Hxl. tauto.
Qed.

Lemma fmap_mjoin {A B} (f : A -> B) (L : list (list A)) :
  f <$> mjoin L = mjoin (fmap f <$> L).
Proof. induction L as [|l L IH]; simpl; [done|]. by rewrite fmap_app, IH. Qed.

Lemma mjoin_fmap_singleton {A B} (f : A -> B) (l : list A) :
  mjoin ((fun x => [f x]) <$> l) = f <$> l.
Proof. induction l as [|x l IH]; [done|]. simpl. f_equal. exact IH. Qed.

(** In a strongly sorted list, the last element is above every other. *)
Lemma StronglySorted_last {A} (R : A -> A -> Prop) (l : list A) x :
  StronglySorted R l -> last l = Some x -> forall y, y ∈ l -> y = x \/ R y x.
Proof.
  induction 1 as [|z l Hs IH Hz]; [discriminate|]. intros Hx y Hy.
  destruct l as [|w l].
  - simpl in Hx. simplify_eq. apply list_elem_of_singleton in Hy. by left.
  - rewrite last_cons_cons in Hx. apply elem_of_cons in Hy as [->|Hy]; [|by apply IH].
    right. eapply (Forall_forall _ (w :: l)); [exact Hz|]. by apply last_Some_elem_of.
Qed.

(** Case analysis on the head of a list counted by [count_if]. *)
Ltac count_case := repeat case_decide; cbn [length]; tauto || lia.

(** Counting with two disjoint predicates, and under an implication. *)
Lemma count_if_disjoint {A} (P Q : A -> Prop) `{!∀ x, Decision (P x)} `{!∀ x, Decision (Q x)}
    (l : list A) :
  (forall x, P x -> ~ Q x) -> (count_if P l + count_if Q l <= length l)%nat.
Proof.
  intros Hd. induction l as [|x l IH]; [exact (le_n 0)|]. unfold count_if in *.
  rewrite !filter_cons. specialize (Hd x). count_case.
Qed.

Lemma count_if_or {A} (P Q : A -> Prop) `{!∀ x, Decision (P x)} `{!∀ x, Decision (Q x)}
    (l : list A) :
  (forall x, P x -> ~ Q x) -> count_if (fun x => P x \/ Q x) l = (count_if P l + count_if Q l)%nat.
Proof.
  intros Hd. induction l as [|x l IH]; [done|]. unfold count_if in *.
  rewrite !filter_cons. specialize (Hd x). count_case.
Qed.

Lemma count_if_mono {A} (P Q : A -> Prop) `{!∀ x, Decision (P x)} `{!∀ x, Decision (Q x)}
    (l : list A) :
  (forall x, P x -> Q x) -> (count_if P l <= count_if Q l)%nat.
Proof.
  intros Hi. induction l as [|x l IH]; [done|]. unfold count_if in *.
  rewrite !filter_cons. specialize (Hi x). count_case.
Qed.

Lemma count_if_pos {A} (P : A -> Prop) `{!∀ x, Decision (P x)} (l : list A) x :
  x ∈ l -> P x -> (1 <= count_if P l)%nat.
Proof.
  intros Hx HP. unfold count_if. destruct (filter P l) as [|y k] eqn:E; simpl; [|lia].
  exfalso. eapply filter_nil_not_elem_of; eauto.
Qed.

(** Every element of a list mapped by a successful [mapM] has an image. *)
Lemma mapM_elem {A B} (f : A -> option B) (l : list A) ys x :
  mapM f l = Some ys -> x ∈ l -> exists y, f x = Some y /\ y ∈ ys.
Proof.
  intros Hm%mapM_Some_1 Hx. induction Hm as [|a y l ys Ha Hm IH]; [by apply not_elem_of_nil in Hx|].
  apply elem_of_cons in Hx as [->|Hx].
  - exists y. split; [done|]. apply elem_of_cons. by left.
  - destruct (IH Hx) as (z & Hz & Hin). exists z. split; [done|]. apply elem_of_cons. by right.
Qed.

(** A list mapped by [f] has no duplicate when its image by a coarser
    [g] has none. *)
Lemma NoDup_fmap_coarser {A B C} (f : A -> B) (g : A -> C) (l : list A) :
  NoDup (g <$> l) -> (forall x y, f x = f y -> g x = g y) -> NoDup (f <$> l).
Proof.
  intros Hnd Hfg. induction l as [|x l IH]; [constructor|].
  change (g <$> x :: l) with (g x :: (g <$> l)) in Hnd.
  change (f <$> x :: l) with (f x :: (f <$> l)). apply NoDup_cons in Hnd as [Hx Hnd].
  constructor; [|by apply IH]. intros (y & Hy & Hyl)%list_elem_of_fmap.
  apply Hx, list_elem_of_fmap. exists y. split; [by apply Hfg|done].
Qed.

Lemma StronglySorted_impl {A} (R R' : A -> A -> Prop) (l : list A) :
  (forall a b, R a b -> R' a b) -> StronglySorted R l -> StronglySorted R' l.
Proof.
  intros HR. induction 1 as [|x l _ IH Hx]; constructor; [done|].
  eapply Forall_impl; [exact Hx|]. exact (HR x).
Qed.

(** Filters that agree on the elements of the list agree. *)
Lemma list_filter_iff_elem {A} (P Q : A -> Prop) `{!∀ x, Decision (P x)} `{!∀ x, Decision (Q x)}
    (l : list A) :
  (forall x, x ∈ l -> P x <-> Q x) -> filter P l = filter Q l.
Proof.
  intros HPQ. induction l as [|x l IH]; [done|]. rewrite !filter_cons.
  assert (Hx : P x <-> Q x) by (apply HPQ; by left).
  rewrite IH by (intros y Hy; apply HPQ; by right).
  repeat case_decide; tauto || done.
Qed.

(** Reading every position of a list in order gives the list back. *)
Lemma fmap_lookup_seq {A} (d : A) (l : list A) :
  (fun i => default d (l !! i)) <$> seq 0 (length l) = l.
Proof.
  apply list_eq. intros i. rewrite list_lookup_fmap.
  destruct (l !! i) eqn:Hi.
  - rewrite lookup_seq_lt by (eapply lookup_lt_Some; eauto). simpl. by rewrite Hi.
  - rewrite lookup_seq_ge; [done|]. by apply lookup_ge_None.
Qed.

(** A map that fixes every element of a list fixes the list. *)
Lemma fmap_id_Forall {A} (f : A -> A) (P : A -> Prop) (l : list A) :
  (forall x, P x -> f x = x) -> Forall P l -> f <$> l = l.
Proof. intros Hf Hl. rewrite <-(list_fmap_id l) at 2. apply Forall_fmap_ext_1. by eapply Forall_impl. Qed.

(** Two distinct elements that satisfy [P] count twice. *)
Lemma count_if_two {A} (P : A -> Prop) `{!∀ x, Decision (P x)} (l : list A) a b :
  a ∈ l -> b ∈ l -> a <> b -> P a -> P b -> (2 <= count_if P l)%nat.
Proof.
  intros Ha Hb Hab HPa HPb. unfold count_if.
  change 2%nat with (length [a; b]). apply submseteq_length, NoDup_submseteq.
  - apply NoDup_cons. split; [|apply NoDup_singleton]. by rewrite list_elem_of_singleton.
  - intros x Hx. apply list_elem_of_filter.
    apply elem_of_cons in Hx as [->|Hx]; [done|]. by apply list_elem_of_singleton in Hx as ->.
Qed.

Lemma count_if_fmap {A B} (P : B -> Prop) `{!∀ x, Decision (P x)} (f : A -> B) (l : list A) :
  count_if P (f <$> l) = count_if (fun x => P (f x)) l.
Proof. unfold count_if. by rewrite filter_fmap_comm, length_fmap. Qed.

Lemma zip_fmap_same {A B C} (f : A -> B) (g : A -> C) (l : list A) :
  zip (f <$> l) (g <$> l) = (fun x => (f x, g x)) <$> l.
Proof. induction l as [|x l IH]; [done|]. cbn. by rewrite IH. Qed.

(** The [n]th result of a successful [mapM] is [f] of the [n]th input. *)
Lemma mapM_lookup {A B} (f : A -> option B) (l : list A) k n a :
  mapM f l = Some k -> l !! n = Some a -> exists b, k !! n = Some b /\ f a = Some b.
Proof.
  intros Hm%mapM_Some_1 Ha. destruct (Forall2_lookup_l _ _ _ _ _ Hm Ha) as (b & Hb & Hf).
  by exists b.
Qed.

(** A successful [mapM] stays successful, with the same results, under a
    function that agrees with [f] wherever [f] succeeds. *)
Lemma mapM_Some_mono {A B} (f g : A -> option B) (l : list A) k :
  (forall a b, a ∈ l -> f a = Some b -> g a = Some b) -> mapM f l = Some k -> mapM g l = Some k.
Proof.
  revert k. induction l as [|a l IH]; intros k Hfg; simpl; [done|].
  destruct (f a) as [b|] eqn:Ha; simpl; [|discriminate].
  rewrite (Hfg a b) by (done || by left). simpl.
  destruct (mapM f l) as [k'|] eqn:Hl; simpl; [|discriminate]. intros [= <-].
  rewrite (IH k'); [done| |done]. intros a' b' Ha'. apply Hfg. by right.
Qed.

Lemma mapM_Some_pointwise {A B} (f : A -> option B) (g : A -> B) (l : list A) :
  (forall x, x ∈ l -> f x = Some (g x)) -> mapM f l = Some (g <$> l).
Proof.
  induction l as [|x l IH]; intros H; simpl; [done|].
  rewrite H by (by left). simpl. rewrite IH; [done|]. intros y Hy. apply H. by right.
Qed.

Lemma mapM_app {A B} (f : A -> option B) (l1 l2 : list A) :
  mapM f (l1 ++ l2) = (k1 ← mapM f l1; k2 ← mapM f l2; Some (k1 ++ k2)).
Proof.
  induction l1 as [|x l1 IH]; simpl; [by destruct (mapM f l2)|].
  destruct (f x); simpl; [|done]. rewrite IH.
  destruct (mapM f l1); simpl; [|done]. by destruct (mapM f l2).
Qed.

(** A list with a repeated element has an element counted twice. *)
Lemma not_NoDup_count {A} `{EqDecision A} (l : list A) :
  ~ NoDup l -> exists x, (2 <= count_if (fun y => y = x) l)%nat.
Proof.
  induction l as [|a l IH]; intros Hn; [by destruct Hn; constructor|].
  destruct (decide (a ∈ l)) as [Ha|Ha].
  - exists a. unfold count_if. rewrite filter_cons_True by done. cbn [length].
    pose proof (count_if_pos (fun y => y = a) l a Ha eq_refl) as H. unfold count_if in H. lia.
  - destruct IH as [x Hx]; [intros Hl; apply Hn; by constructor|].
    exists x. etrans; [exact Hx|]. unfold count_if. rewrite filter_cons. case_decide; simpl; lia.
Qed.

Lemma count_if_exists {A} (P : A -> Prop) `{!∀ x, Decision (P x)} (l : list A) :
  (1 <= count_if P l)%nat -> exists x, x ∈ l /\ P x.
Proof.
  unfold count_if. destruct (filter P l) as [|x k] eqn:E; simpl; [lia|]. intros _.
  exists x. assert (Hx : x ∈ filter P l) by (rewrite E; apply elem_of_cons; by left).
  apply list_elem_of_filter in Hx. tauto.
Qed.
