(* ===== verification/Events.v ===== *)
(** * Events: the raw interaction log and its loading

    The record [Event] is one line of the gzip'ed JSON log read by
    [utils.load_data] (src/src/wemoms_homework/utils.py), restricted to
    the columns the pipeline computes with.  Timestamps are integers in
    seconds; [date] is pandas' [.dt.date] (floor to the calendar day).
    [load_data] is the deduplication on (trackable_id, user_id,
    tracker_created_at) that keeps the first row of each triple. *)

From S2P Require Import Prelude.

Open Scope Z_scope.

(** Seconds in a day and in a minute. *)
Definition DAY : Z := 86400.
Definition MINUTE : Z := 60.

(** [Timestamp.date()]: the calendar day of a timestamp, as a day number. *)
Definition date (t : Z) : Z := t / DAY.

(** Midnight of a day: how pandas reads a "YYYY-MM-DD" string compared
    with a timestamp column. *)
Definition midnight (d : Z) : Z := d * DAY.

Record Event := mkEvent {
  trackable_id : Z;
  user_id : Z;
  tracker_created_at : Z;
  has_been_opened : bool;
  post_age_in_minutes : Z;
  user_children_age_month : list Z;
  author_children_age_year : list Z;
  author_children_age_month : list Z
}.

(** The deduplication key of [load_data]. *)
Definition event_key (e : Event) : Z * Z * Z :=
  (trackable_id e, user_id e, tracker_created_at e).

(** [load_data]: [read_json(...).drop_duplicates(subset=[trackable_id,
    user_id, tracker_created_at])], keep="first". *)
Definition load_data (raw : list Event) : list Event := dedup_by event_key raw.

(** The six boundary dates of config.yml ([dataset] section), each the
    midnight timestamp of its "YYYY-MM-DD" string. *)
Record Config := mkConfig {
  train_start_date : Z;
  train_end_date : Z;
  eval_start_date : Z;
  eval_end_date : Z;
  test_start_date : Z;
  test_end_date : Z
}.

(** [(df.tracker_created_at >= lo) & (df.tracker_created_at <= hi)]. *)
Definition in_range (lo hi : Z) (e : Event) : Prop :=
  lo <= tracker_created_at e <= hi.

#[export] Instance in_range_dec lo hi : ∀ e, Decision (in_range lo hi e).
Proof. intros e. unfold in_range. apply _. Defined.

(** The four columns [col_to_keep] of every split. *)
Record SplitRow := mkSplitRow {
  row_trackable_id : Z;
  row_user_id : Z;
  row_tracker_created_at : Z;
  row_has_been_opened : bool
}.

#[export] Instance SplitRow_eq_dec : EqDecision SplitRow.
Proof. solve_decision. Defined.

Definition keep_cols (e : Event) : SplitRow :=
  mkSplitRow (trackable_id e) (user_id e) (tracker_created_at e) (has_been_opened e).

(** Sorting by [tracker_created_at]. *)
Definition sort_by_time : list Event -> list Event := sort_by tracker_created_at.

(** A log line with only the identifiers, the label and the post age
    (the shape of the concrete inputs of the examples). *)
Definition view_aged (p u t : Z) (o : bool) (age : Z) : Event := mkEvent p u t o age [] [] [].
Definition view (p u t : Z) (o : bool) : Event := view_aged p u t o 0.

(** ** Properties of loading *)

Lemma date_midnight d : date (midnight d) = d.
Proof. unfold date, midnight, DAY. apply Z.div_mul. lia. Qed.

Lemma date_spec t : midnight (date t) <= t < midnight (date t) + DAY.
Proof.
  unfold date, midnight, DAY.
  pose proof (Z.div_mod t 86400 ltac:(lia)). pose proof (Z.mod_pos_bound t 86400 ltac:(lia)).
  lia.
Qed.

#[export] Hint Rewrite date_midnight : wemoms.

(** C10 (deduplication, keep='first' on the three columns): [load_data]
    is [drop_duplicates(subset=[trackable_id, user_id,
    tracker_created_at], keep='first')]: its result keeps the log's
    order (a sublist of the log), no two of its rows share the
    (trackable_id, user_id, tracker_created_at) key, and a row of the log
    is kept exactly when no earlier row has its key, so every key
    survives, carried by its first row.  A key of two columns (two
    views of a post by a user at different times would collapse) or
    keep='last' (the later duplicate would be kept) fail the third
    conjunct. *)
Theorem load_data_key_unique raw :
  load_data raw `sublist_of` raw /\
  NoDup (event_key <$> load_data raw) /\
  (forall e, e ∈ load_data raw <->
     exists l1 l2, raw = l1 ++ e :: l2 /\ event_key e ∉ event_key <$> l1).
Proof.
  split_and!; [apply dedup_by_sublist | apply dedup_by_NoDup |].
  intros e. apply dedup_by_first.
Qed.

Lemma load_data_keys raw k : k ∈ event_key <$> load_data raw <-> k ∈ event_key <$> raw.
Proof. apply dedup_by_keys. Qed.

Lemma load_data_idem raw : load_data (load_data raw) = load_data raw.
Proof. apply dedup_by_idem. Qed.
