(* ===== verification/Rolling.v ===== *)
(** * Windowed Feature Engine: [PostPopularity] and [UserPostPopularity]

    Models features/post_popularity.py and features/user_post_popularity.py:

      df[[tracker_created_at, <key columns>, has_been_opened]]
        .set_index('tracker_created_at').sort_index()
        .groupby(<key columns>, sort=False).has_been_opened
        .rolling(window, closed='left')
        .agg({views: len, clicks: sum, ratio: lambda x: sum(x)/len(x)})
        .fillna(0)

    The Section [RollingFacts] is generic in the entity key ([Context key]);
    [post_key] and [user_post_key] instantiate it.  A time-based window
    with [closed='left'] gives row [i] of a group the rows [j < i] of the
    same group (in the time-sorted order) with [t_i - w <= t_j]: the
    left end is closed, the right end excludes row [i] itself but not
    earlier rows that carry the same timestamp.  An empty window is
    below [min_periods = 1], so pandas yields NaN for the three columns
    and [fillna(0)] turns them into 0.

    [stream_roll] is the single-pass sliding-window algorithm the spec
    asks for (a queue per group with running counts); it is proved equal
    to the reference [roll_group] on time-sorted input. *)

From S2P Require Import Prelude Events.

Open Scope Z_scope.
Open Scope wemoms_scope.

(** One value of the rolling series: its time index and [has_been_opened]. *)
Definition Obs : Type := Z * bool.

Definition obs (e : Event) : Obs := (tracker_created_at e, has_been_opened e).

Definition obs_opened (o : Obs) : Prop := o.2 = true.

#[export] Instance obs_opened_dec : ∀ o, Decision (obs_opened o).
Proof. intros o. unfold obs_opened. apply _. Defined.

(** The three aggregated columns of one output row. *)
Record Stats := mkStats {
  views_count : nat;
  clicks_count : nat;
  ratio : Q
}.

Definition zero_stats : Stats := mkStats 0 0 0.

(** The rows of the window of a row at time [t]: the earlier rows of the
    group with time at least [t - w] ([closed='left']). *)
Definition window (w t : Z) (prior : list Obs) : list Obs :=
  filter (fun o => t - w <= o.1) prior.

(** [.agg({len, sum, sum/len})] then [.fillna(0)]. *)
Definition agg (win : list Obs) : Stats :=
  match win with
  | [] => zero_stats
  | _ :: _ =>
      let v := length win in
      let c := count_if obs_opened win in
      mkStats v c (open_ratio c v)
  end.

(** Rolling over one group, in its (time-sorted) order. *)
Fixpoint roll_aux (w : Z) (prior : list Obs) (l : list Obs) : list Stats :=
  match l with
  | [] => []
  | o :: l' => agg (window w o.1 prior) :: roll_aux w (prior ++ [o]) l'
  end.

Definition roll_group (w : Z) (l : list Obs) : list Stats := roll_aux w [] l.

(** The rows of one group of [groupby(key)], in frame order. *)
Definition group_of {K} `{EqDecision K} (key : Event -> K) (k : K) (df : list Event)
  : list Event :=
  filter (fun e => key e = k) df.

(** One output table: rows [(key, tracker_created_at, stats)], groups in
    order of first appearance ([sort=False]) of the time-sorted frame. *)
Definition rolling {K} `{EqDecision K} (key : Event -> K) (w : Z) (df : list Event)
  : list (K * Z * Stats) :=
  let sdf := sort_by_time df in
  mjoin ((fun k =>
            let g := group_of key k sdf in
            zip_with (fun e s => (k, tracker_created_at e, s)) g (roll_group w (obs <$> g)))
         <$> unique (key <$> sdf)).

(** ** The single-pass sliding window *)

Record WinState := mkWin {
  win_queue : list Obs;
  win_views : nat;
  win_clicks : nat
}.

Definition win_init : WinState := mkWin [] 0 0.

(** Drop from the front of the queue the rows older than [lo], updating
    the running counts. *)
Fixpoint evict (lo : Z) (q : list Obs) (v c : nat) : list Obs * nat * nat :=
  match q with
  | [] => ([], v, c)
  | o :: q' =>
      if decide (lo <= o.1) then (q, v, c)
      else evict lo q' (v - 1)%nat (if decide (obs_opened o) then (c - 1)%nat else c)
  end.

Definition stream_step (w : Z) (s : WinState) (o : Obs) : WinState * Stats :=
  let '(q, v, c) := evict (o.1 - w) (win_queue s) (win_views s) (win_clicks s) in
  let st := match v with O => zero_stats | _ => mkStats v c (open_ratio c v) end in
  (mkWin (q ++ [o]) (S v) (if decide (obs_opened o) then S c else c), st).

Fixpoint stream_roll (w : Z) (s : WinState) (l : list Obs) : list Stats :=
  match l with
  | [] => []
  | o :: l' => let '(s', st) := stream_step w s o in st :: stream_roll w s' l'
  end.

(** ** The two feature extractors *)

(** The [windows=["1d", "7d", "28d"]] default argument, in seconds. *)
Definition WINDOWS : list Z := [1 * DAY; 7 * DAY; 28 * DAY].

Definition post_key (e : Event) : Z := trackable_id e.
Definition user_post_key (e : Event) : Z * Z := (trackable_id e, user_id e).

(** [PostPopularity.extract_feature]: one table per window, stacked
    ([pd.concat(axis=0)]) in the order of [windows]; each row carries the
    window whose columns it fills. *)
Definition post_popularity (windows : list Z) (df : list Event)
  : list (Z * (Z * Z * Stats)) :=
  mjoin ((fun w => (fun r => (w, r)) <$> rolling post_key w df) <$> windows).

Definition user_post_popularity (windows : list Z) (df : list Event)
  : list (Z * ((Z * Z) * Z * Stats)) :=
  mjoin ((fun w => (fun r => (w, r)) <$> rolling user_post_key w df) <$> windows).

(** The same table computed group by group with the single-pass engine. *)
Definition rolling_stream {K} `{EqDecision K} (key : Event -> K) (w : Z) (df : list Event)
  : list (K * Z * Stats) :=
  let sdf := sort_by_time df in
  mjoin ((fun k =>
            let g := group_of key k sdf in
            zip_with (fun e s => (k, tracker_created_at e, s)) g
                     (stream_roll w win_init (obs <$> g)))
         <$> unique (key <$> sdf)).

(** Every aggregated row satisfies the column invariant of the output
    table: clicks never exceed views, the ratio is in [0, 1] and is
    clicks / views, and an empty window gives three zeros. *)
Definition stats_ok (s : Stats) : Prop :=
  (clicks_count s <= views_count s)%nat /\
  (0 <= ratio s <= 1)%Q /\
  ((0 < views_count s)%nat ->
     ratio s * inject_Z (Z.of_nat (views_count s)) == inject_Z (Z.of_nat (clicks_count s)))%Q /\
  (views_count s = 0%nat -> clicks_count s = 0%nat /\ ratio s = 0%Q).


Definition obs_le (a b : Obs) : Prop := a.1 <= b.1.

(** ** Shared lemmas of the engine *)

Lemma agg_views win : views_count (agg win) = length win.
Proof. by destruct win. Qed.

Lemma agg_clicks win : clicks_count (agg win) = count_if obs_opened win.
Proof. by destruct win. Qed.

#[export] Hint Rewrite agg_views agg_clicks : wemoms.

Lemma agg_ok win : stats_ok (agg win).
Proof.
  destruct win as [|o win]; [repeat split; simpl; try lia; discriminate|].
  assert (Hc := count_if_le obs_opened (o :: win)).
  split_and!; simpl.
  - exact Hc.
  - apply open_ratio_bounds; simpl in *; lia.
  - apply open_ratio_bounds; simpl in *; lia.
  - intros _. apply open_ratio_mult. simpl; lia.
  - discriminate.
Qed.

Lemma roll_aux_length w prior l : length (roll_aux w prior l) = length l.
Proof. revert prior; induction l; intros; simpl; auto. Qed.

(** Row [i] of a group is the aggregate of the window over the rows
    before it. *)
Lemma roll_aux_lookup w prior l i s :
  roll_aux w prior l !! i = Some s <->
  exists o, l !! i = Some o /\ s = agg (window w o.1 (prior ++ take i l)).
Proof.
  revert prior i; induction l as [|o l IH]; intros prior [|i]; simpl.
  1,2: split; [discriminate|intros (? & ? & _); discriminate].
  - rewrite app_nil_r. naive_solver.
  - rewrite IH, <- app_assoc. done.
Qed.

Lemma roll_aux_app w prior l1 l2 :
  roll_aux w prior (l1 ++ l2) = roll_aux w prior l1 ++ roll_aux w (prior ++ l1) l2.
Proof.
  revert prior; induction l1 as [|o l1 IH]; intros prior; simpl; [by rewrite app_nil_r|].
  by rewrite IH, <- app_assoc.
Qed.

(** Rows that share the timestamp [t]: each one sees the earlier rows
    of its block in its window, so their view counts go up by one. *)
Lemma roll_aux_same_time_views w t prior l :
  0 <= w -> Forall (fun o : Obs => o.1 = t) l ->
  views_count <$> roll_aux w prior l = seq (length (window w t prior)) (length l).
Proof.
  intros Hw Hl. revert prior. induction Hl as [|o l Ho Hl IH]; intros prior; [done|]. simpl in Ho.
  cbn [roll_aux fmap list_fmap length seq]. rewrite agg_views, Ho, IH. do 2 f_equal.
  unfold window. rewrite filter_app, filter_cons_True, filter_nil, length_app by lia. cbn [length]. apply Nat.add_1_r.
Qed.

Lemma zip_rows_filter_nil {K} `{EqDecision K} (k' k : K) t (l : list Event) (ss : list Stats) :
  (forall e, e ∈ l -> (k', tracker_created_at e) <> (k, t)) ->
  filter (fun r : K * Z * Stats => r.1 = (k, t))
         (zip_with (fun e s => (k', tracker_created_at e, s)) l ss) = [].
Proof.
  revert ss; induction l as [|e l IH]; intros [|s ss] H; simpl; try done.
  rewrite filter_cons_False by (apply H, elem_of_cons; by left).
  apply IH. intros e' He'. apply H, elem_of_cons. by right.
Qed.

Lemma zip_rows_filter_views {K} `{EqDecision K} (k : K) t (l : list Event) (ss : list Stats) :
  Forall (fun e => tracker_created_at e = t) l -> length ss = length l ->
  (fun r : K * Z * Stats => views_count r.2) <$>
    filter (fun r : K * Z * Stats => r.1 = (k, t))
           (zip_with (fun e s => (k, tracker_created_at e, s)) l ss) = views_count <$> ss.
Proof.
  intros Hl. revert ss; induction Hl as [|e l He Hl IH]; intros [|s ss] Hlen; simpl in *; try done; try lia.
  rewrite filter_cons_True by (simpl; by rewrite He). simpl. f_equal. apply IH. lia.
Qed.

Section RollingFacts.
Context {K : Type} `{EqDecision K} (key : Event -> K).

Lemma rolling_elem w df k t s :
  (k, t, s) ∈ rolling key w df <->
  exists i e, group_of key k (sort_by_time df) !! i = Some e /\
    t = tracker_created_at e /\
    s = agg (window w t (obs <$> take i (group_of key k (sort_by_time df)))).
Proof.
  unfold rolling. rewrite list_elem_of_join. split.
  - intros (l & Hin & Hl). apply list_elem_of_fmap in Hl as (k' & -> & _).
    apply list_elem_of_lookup in Hin as [i Hi].
    apply lookup_zip_with_Some in Hi as (e & s' & Heq & He & Hs).
    simplify_eq. unfold roll_group in Hs.
    apply roll_aux_lookup in Hs as (o & Ho & ->).
    rewrite list_lookup_fmap, He in Ho. simplify_eq/=.
    exists i, e. by rewrite fmap_take.
  - intros (i & e & He & -> & ->).
    assert (Hk : key e = k).
    { apply list_elem_of_lookup_2 in He. unfold group_of in He.
      by apply list_elem_of_filter in He as [? _]. }
    eexists; split; [|apply list_elem_of_fmap; exists k; split; [done|]].
    + apply list_elem_of_lookup. exists i.
      apply lookup_zip_with_Some. exists e, (agg (window w (tracker_created_at e)
                                           (obs <$> take i (group_of key k (sort_by_time df))))).
      split_and!; [done|done|]. unfold roll_group. apply roll_aux_lookup.
      exists (obs e). rewrite list_lookup_fmap, He, fmap_take. done.
    + apply unique_elem, list_elem_of_fmap. exists e. split; [done|].
      apply list_elem_of_lookup_2 in He. unfold group_of in He.
      by apply list_elem_of_filter in He as [_ ?].
Qed.

(** Every group of the time-sorted frame is in time order. *)
Lemma group_sorted k df :
  StronglySorted (fun a b => tracker_created_at a <= tracker_created_at b)
                 (group_of key k (sort_by_time df)).
Proof.
  apply StronglySorted_filter, Sorted_StronglySorted; [|apply sort_by_sorted].
  intros a b c ? ?. lia.
Qed.

Lemma group_times_NoDup k df :
  NoDup ((fun e => (key e, tracker_created_at e)) <$> df) ->
  NoDup (tracker_created_at <$> group_of key k (sort_by_time df)).
Proof.
  intros Hnd. apply (NoDup_pair_fixed key _ k).
  - eapply sublist_NoDup; [|apply fmap_sublist, sublist_filter].
    unfold sort_by_time. by rewrite sort_by_perm.
  - apply Forall_forall. intros x Hx. by apply list_elem_of_filter in Hx as [? _].
Qed.

(** Counting over the rows of a group before a given time. *)
Lemma count_group_before (P : Event -> Prop) `{!∀ x, Decision (P x)} k t df :
  length (filter P (filter (fun y => tracker_created_at y < t)
                            (group_of key k (sort_by_time df)))) =
  count_if (fun e => P e /\ tracker_created_at e < t /\ key e = k) df.
Proof.
  unfold group_of, count_if. rewrite !list_filter_filter.
  unfold sort_by_time. rewrite sort_by_perm.
  f_equal. apply list_filter_iff. tauto.
Qed.

Lemma count_group (P : Event -> Prop) `{!∀ x, Decision (P x)} k df :
  length (filter P (group_of key k (sort_by_time df))) = count_if (fun e => P e /\ key e = k) df.
Proof.
  unfold group_of, count_if. rewrite list_filter_filter.
  unfold sort_by_time. by rewrite sort_by_perm.
Qed.

(** No leakage, exact form: when no two rows of the frame share both
    the entity and the timestamp, the row of an event at time [t] counts
    exactly the entity's events with time in [t - w, t): its own event
    and everything later are excluded, and the left end is included. *)
Theorem rolling_window_exact w df k t s :
  NoDup ((fun e => (key e, tracker_created_at e)) <$> df) ->
  (k, t, s) ∈ rolling key w df ->
  views_count s =
    count_if (fun e => key e = k /\ tracker_created_at e in_window [t - w, t)) df /\
  clicks_count s =
    count_if (fun e => (key e = k /\ tracker_created_at e in_window [t - w, t)) /\
                       has_been_opened e = true) df.
Proof.
  intros Hnd (i & e & He & -> & ->)%rolling_elem.
  pose proof (StronglySorted_strict _ _ (group_sorted k df) (group_times_NoDup k df Hnd)) as Hs.
  rewrite (take_strict_sorted _ _ _ _ Hs He). autorewrite with wemoms.
  unfold window, count_if. rewrite ?list_filter_filter, !filter_fmap_comm, !length_fmap.
  split; rewrite count_group_before; unfold count_if; f_equal;
    apply list_filter_iff; unfold obs_opened, obs; simpl; tauto.
Qed.
End RollingFacts.

(** ** The single-pass engine computes the reference aggregates *)

Lemma agg_length win :
  agg win = match length win with
            | O => zero_stats
            | _ => mkStats (length win) (count_if obs_opened win)
                           (open_ratio (count_if obs_opened win) (length win))
            end.
Proof. by destruct win. Qed.

Lemma evict_spec lo q v c :
  StronglySorted obs_le q -> v = length q -> c = count_if obs_opened q ->
  evict lo q v c =
    (filter (fun o => lo <= o.1) q,
     length (filter (fun o => lo <= o.1) q),
     count_if obs_opened (filter (fun o => lo <= o.1) q)).
Proof.
  intros Hs. revert v c. induction Hs as [|o q Hs IH Ho]; intros v c -> ->; [done|]. simpl.
  case_decide as Hlo.
  - rewrite filter_cons_True, filter_all_true by
      (done || (eapply Forall_impl; [exact Ho|]; unfold obs_le; intros; lia)).
    done.
  - rewrite filter_cons_False by done. apply IH; [simpl; lia|].
    unfold count_if. rewrite filter_cons. case_decide; simpl; lia.
Qed.

Lemma stream_roll_inv w prior l s lo :
  0 <= w ->
  StronglySorted obs_le (prior ++ l) ->
  Forall (fun o => lo <= o.1 - w) l ->
  win_queue s = filter (fun o => lo <= o.1) prior ->
  win_views s = length (win_queue s) ->
  win_clicks s = count_if obs_opened (win_queue s) ->
  stream_roll w s l = roll_aux w prior l.
Proof.
  revert prior s lo. induction l as [|o l IH]; intros prior [q v c] lo Hw Hs Hlo Hq Hv Hc;
    simpl in *; [done|].
  inversion Hlo as [|? ? Hlo_o Hlo_l]; subst.
  assert (Hsp : StronglySorted obs_le prior) by (by eapply StronglySorted_app_1_l).
  assert (Hwin : filter (fun x => o.1 - w <= x.1) (filter (fun x => lo <= x.1) prior) =
                 window w o.1 prior).
  { unfold window. rewrite list_filter_filter. apply list_filter_iff. intros; lia. }
  unfold stream_step. simpl. rewrite evict_spec by (done || by apply StronglySorted_filter).
  rewrite Hwin, (agg_length (window w o.1 prior)).
  f_equal.
  apply (IH _ _ (o.1 - w)); [done|rewrite <- app_assoc; exact Hs| | | |].
  - apply Forall_forall. intros o' Ho'.
    apply StronglySorted_app_1_r, StronglySorted_inv in Hs as [_ Ho].
    eapply (Forall_forall _ l) in Ho'; [|exact Ho]. unfold obs_le in *. lia.
  - unfold window; simpl. rewrite filter_app, filter_cons_True, filter_nil by lia. done.
  - simpl. rewrite length_app. simpl. lia.
  - cbn [win_clicks win_queue]. rewrite count_if_app, count_if_singleton.
    case_decide; lia.
Qed.

(** The streaming pass over one time-sorted group yields the reference
    row of every event. *)
Lemma stream_roll_equiv w l :
  0 <= w -> Sorted obs_le l -> stream_roll w win_init l = roll_group w l.
Proof.
  intros Hw Hs. apply Sorted_StronglySorted in Hs; [|intros ??? ??; unfold obs_le in *; lia].
  destruct l as [|o l]; [done|].
  apply (stream_roll_inv _ _ _ _ (o.1 - w)); try done.
  apply Forall_forall. intros o' Ho'.
  apply StronglySorted_inv in Hs as [_ Ho].
  apply elem_of_cons in Ho' as [->|Ho']; [lia|].
  eapply (Forall_forall _ l) in Ho'; [|exact Ho]. unfold obs_le in *. lia.
Qed.

(** ** Refinement: the single-pass table is the pandas table *)

(** C4 (refinement): for a non-negative window, computing every group
    with the queue and running counts gives exactly the table of
    [rolling(window, closed='left')] on every input frame. *)
Theorem rolling_stream_refines {K} `{EqDecision K} (key : Event -> K) w df :
  0 <= w -> rolling_stream key w df = rolling key w df.
Proof.
  intros Hw. unfold rolling_stream, rolling. f_equal.
  apply list_fmap_ext. intros _ k _. f_equal.
  apply stream_roll_equiv; [done|]. apply StronglySorted_Sorted.
  eapply StronglySorted_fmap; [|apply (group_sorted key)].
  intros x y Hxy. exact Hxy.
Qed.

(** ** The two extractors *)

Lemma popularity_elem {K} `{EqDecision K} (key : Event -> K) windows df w r :
  (w, r) ∈ mjoin ((fun w => (fun r => (w, r)) <$> rolling key w df) <$> windows) <->
  w ∈ windows /\ r ∈ rolling key w df.
Proof.
  rewrite list_elem_of_join. split.
  - intros (l & Hr & (w' & -> & Hw)%list_elem_of_fmap).
    apply list_elem_of_fmap in Hr as (r' & ? & Hr). by simplify_eq.
  - intros [Hw Hr]. eexists; split; [|apply list_elem_of_fmap; eexists; split; [done|exact Hw]].
    apply list_elem_of_fmap. by exists r.
Qed.

(** (post, user, time) is the deduplication key of [load_data], so after
    loading no two rows share a (post, user) entity and a timestamp. *)
Lemma load_data_user_post_NoDup raw :
  NoDup ((fun e => (user_post_key e, tracker_created_at e)) <$> load_data raw).
Proof. apply (dedup_by_NoDup event_key). Qed.

Lemma zip_rows_proj {K} (key : Event -> K) (k : K) (g : list Event) (ss : list Stats) :
  length ss = length g -> Forall (fun e => key e = k) g ->
  (fun r : K * Z * Stats => (r.1.1, r.1.2)) <$>
    zip_with (fun e s => (k, tracker_created_at e, s)) g ss =
  (fun e => (key e, tracker_created_at e)) <$> g.
Proof.
  revert ss. induction g as [|e g IH]; intros [|s ss] Hlen Hk; simpl in *; try done.
  inversion Hk; subst. f_equal. apply IH; [lia|done].
Qed.

(** ** Properties of the windowed feature engine *)

(** The (entity, time) index of a rolling table is a permutation of
    the frame's. *)
Lemma rolling_keys_perm {K} `{EqDecision K} (key : Event -> K) w df :
  (fun r : K * Z * Stats => (r.1.1, r.1.2)) <$> rolling key w df ≡ₚ
  (fun e => (key e, tracker_created_at e)) <$> df.
Proof.
  unfold rolling. rewrite fmap_mjoin, <- list_fmap_compose.
  rewrite (Forall_fmap_ext_1 _ (fun k => (fun e => (key e, tracker_created_at e)) <$>
                                      filter (fun e => key e = k) (sort_by_time df))).
  - rewrite group_partition; [|apply unique_NoDup|].
    + unfold sort_by_time. by rewrite sort_by_perm.
    + apply Forall_forall. intros x Hx. apply unique_elem, list_elem_of_fmap. by exists x.
  - apply Forall_forall. intros k _. simpl. apply zip_rows_proj.
    + unfold roll_group. by rewrite roll_aux_length, length_fmap.
    + apply Forall_forall. intros x Hx. by apply list_elem_of_filter in Hx as [? _].
Qed.

(** C1 (no leakage, user-post popularity): after [load_data], the
    [user_post_last_<w>_views_count] and [_clicks_count] of the row of
    user [u] seeing post [p] at time [t] are exactly the number of that
    user's views of that post, and of those opened, with time in
    [t - w, t): the row's own view and every later view are excluded. *)
Theorem user_post_popularity_exact raw windows w p u t s :
  (w, ((p, u), t, s)) ∈ user_post_popularity windows (load_data raw) ->
  views_count s =
    count_if (fun e => user_post_key e = (p, u) /\ tracker_created_at e in_window [t - w, t))
             (load_data raw) /\
  clicks_count s =
    count_if (fun e => (user_post_key e = (p, u) /\ tracker_created_at e in_window [t - w, t)) /\
                       has_been_opened e = true) (load_data raw).
Proof.
  intros [_ Hr]%popularity_elem.
  apply (rolling_window_exact user_post_key); [apply load_data_user_post_NoDup|exact Hr].
Qed.

Lemma user_post_popularity_exact_witness :
  let raw := [view 7 1 100 true; view 7 1 200 false; view 7 1 100 true] in
  (DAY, ((7, 1), 200, mkStats 1 1 1)) ∈ user_post_popularity WINDOWS (load_data raw) /\
  views_count (mkStats 1 1 1) =
    count_if (fun e => user_post_key e = (7, 1) /\ 200 - DAY <= tracker_created_at e < 200)
             (load_data raw) /\
  clicks_count (mkStats 1 1 1) =
    count_if (fun e => (user_post_key e = (7, 1) /\ 200 - DAY <= tracker_created_at e < 200) /\
                       has_been_opened e = true) (load_data raw).
Proof.
  intros raw. assert (Hin : (DAY, ((7, 1), 200, mkStats 1 1 1)) ∈
                              user_post_popularity WINDOWS (load_data raw)).
  { apply list_elem_of_lookup. exists 1%nat. reflexivity. }
  split; [exact Hin|]. exact (user_post_popularity_exact raw WINDOWS DAY 7 1 200 _ Hin).
Defined.

(** No history, user-post popularity: when user [u] has no view of
    post [p] in [t - w, t), the row at time [t] is all zeros
    (views 0, clicks 0, ratio 0), never NaN. *)
Theorem user_post_popularity_no_history raw windows w p u t s :
  (w, ((p, u), t, s)) ∈ user_post_popularity windows (load_data raw) ->
  count_if (fun e => user_post_key e = (p, u) /\ tracker_created_at e in_window [t - w, t))
           (load_data raw) = 0%nat ->
  s = zero_stats.
Proof.
  intros [_ Hr]%popularity_elem H0.
  pose proof (rolling_window_exact user_post_key _ _ _ _ _ (load_data_user_post_NoDup raw) Hr) as [Hv _].
  apply rolling_elem in Hr as (i & e & _ & _ & ->).
  rewrite agg_views, H0 in Hv. by apply nil_length_inv in Hv as ->.
Qed.

Lemma user_post_popularity_no_history_witness :
  let raw := [view 7 1 100 true; view 7 1 (100 + 2 * DAY) false] in
  (DAY, ((7, 1), 100 + 2 * DAY, zero_stats)) ∈ user_post_popularity WINDOWS (load_data raw) /\
  count_if (fun e => user_post_key e = (7, 1) /\
                     100 + 2 * DAY - DAY <= tracker_created_at e < 100 + 2 * DAY)
           (load_data raw) = 0%nat /\
  zero_stats = zero_stats.
Proof.
  intros raw.
  assert (Hin : (DAY, ((7, 1), 100 + 2 * DAY, zero_stats)) ∈
                  user_post_popularity WINDOWS (load_data raw)).
  { apply list_elem_of_lookup. exists 1%nat. reflexivity. }
  split; [exact Hin|]. split; [reflexivity|].
  exact (user_post_popularity_no_history raw WINDOWS DAY 7 1 _ _ Hin eq_refl).
Defined.

(** C2 (column bounds): in every row of a popularity table, clicks never
    exceed views, the ratio lies in [0, 1] and equals clicks / views when
    views > 0, and a row with no views has clicks 0 and ratio 0. *)
Theorem rolling_stats_bounds {K} `{EqDecision K} (key : Event -> K) w df k t s :
  (k, t, s) ∈ rolling key w df -> stats_ok s.
Proof. intros (i & e & _ & _ & ->)%rolling_elem. apply agg_ok. Qed.

Lemma rolling_stats_bounds_witness :
  (7, 86600, mkStats 1 1 1) ∈ rolling post_key DAY [view 7 1 86500 true; view 7 2 86600 false] /\
  stats_ok (mkStats 1 1 1).
Proof.
  assert (Hin : (7, 86600, mkStats 1 1 1) ∈
                  rolling post_key DAY [view 7 1 86500 true; view 7 2 86600 false]).
  { apply list_elem_of_lookup. exists 1%nat. reflexivity. }
  split; [exact Hin|]. exact (rolling_stats_bounds post_key _ _ _ _ _ Hin).
Defined.

(** C3 (one row per event): the (entity, tracker_created_at) index of a
    popularity table is the (entity, time) of the input rows, each row
    once: no event is dropped or duplicated by the groupby/rolling. *)
Theorem rolling_one_row_per_event {K} `{EqDecision K} (key : Event -> K) w df :
  (fun r : K * Z * Stats => (r.1.1, r.1.2)) <$> rolling key w df ≡ₚ
  (fun e => (key e, tracker_created_at e)) <$> df.
Proof. apply rolling_keys_perm. Qed.

(** The single-pass engine on two views of one post. *)
Lemma rolling_stream_refines_witness :
  0 <= DAY /\
  rolling_stream post_key DAY [view 7 1 86500 true; view 7 2 86600 false] =
  rolling post_key DAY [view 7 1 86500 true; view 7 2 86600 false].
Proof.
  split; [unfold DAY; lia|]. apply rolling_stream_refines. unfold DAY; lia.
Defined.

(** C5 (finding, leakage through equal timestamps): for a non-negative
    window, the rows of entity [k] at time [t] have view counts
    [c, c + 1, ..., c + m - 1], where [c] is the number of the entity's
    views with time in [t - w, t) and [m] the number of its views at
    exactly [t].  [closed='left'] excludes only the row itself: every
    row at [t] after the first also counts the views at its own second
    (for [post_key], the views of the same post by other users at that
    second, which [load_data] keeps), whereas the spec's windows end
    strictly before [t]. *)
Theorem rolling_same_time_views {K} `{EqDecision K} (key : Event -> K) w df k t :
  0 <= w ->
  (fun r : K * Z * Stats => views_count r.2) <$>
    filter (fun r : K * Z * Stats => r.1 = (k, t)) (rolling key w df) =
  seq (count_if (fun e => key e = k /\ tracker_created_at e in_window [t - w, t)) df)
      (count_if (fun e => key e = k /\ tracker_created_at e = t) df).
Proof.
  intros Hw. unfold rolling. cbv zeta. rewrite list_filter_mjoin, <- list_fmap_compose.
  rewrite (mjoin_fmap_single _ _ k); [|apply unique_NoDup| |].
  - pose proof (sorted_split3 tracker_created_at _ t (group_sorted key k df)) as Hsplit.
    cbn [compose]. set (g := group_of key k (sort_by_time df)) in *.
    unfold roll_group. rewrite Hsplit at 1 2.
    rewrite !fmap_app, !roll_aux_app.
    rewrite !zip_with_app by (by rewrite ?roll_aux_length, ?length_fmap).
    rewrite !filter_app, (zip_rows_filter_nil k k t (filter _ g)),
      (zip_rows_filter_nil k k t (filter (fun a => t < tracker_created_at a) g)).
    + assert (Hg2 : Forall (fun e => tracker_created_at e = t)
                             (filter (fun a => tracker_created_at a = t) g)).
      { apply Forall_forall. intros e He. apply list_elem_of_filter in He. apply He. }
      rewrite app_nil_l, app_nil_r.
      rewrite zip_rows_filter_views by (done || by rewrite roll_aux_length, length_fmap).
      rewrite app_nil_l, (roll_aux_same_time_views w t) by (done || (apply Forall_fmap; exact Hg2)).
      f_equal; unfold window, g; rewrite ?filter_fmap_comm, length_fmap;
        [rewrite count_group_before|rewrite count_group]; unfold count_if; f_equal;
        apply list_filter_iff; simpl; intros; tauto.
    + intros e He [=]. apply list_elem_of_filter in He. lia.
    + intros e He [=]. apply list_elem_of_filter in He. lia.
  - intros k' Hk'. apply zip_rows_filter_nil. by intros e _ [= ? _].
  - intros Hk. cbn [compose].
    replace (group_of key k (sort_by_time df)) with (@nil Event); [done|].
    symmetry. apply filter_all_false, Forall_forall. intros e He <-.
    apply Hk, unique_elem, list_elem_of_fmap. by exists e.
Qed.

(** Two users shown post 7 at the same second: the second row counts
    the first. *)
Lemma rolling_same_time_views_witness :
  0 <= DAY /\
  (fun r : Z * Z * Stats => views_count r.2) <$>
    filter (fun r : Z * Z * Stats => r.1 = (7, 100))
           (rolling post_key DAY [view 7 1 100 true; view 7 2 100 false]) =
  seq (count_if (fun e => post_key e = 7 /\ tracker_created_at e in_window [100 - DAY, 100))
                [view 7 1 100 true; view 7 2 100 false])
      (count_if (fun e => post_key e = 7 /\ tracker_created_at e = 100)
                [view 7 1 100 true; view 7 2 100 false]) /\
  (fun r : Z * Z * Stats => views_count r.2) <$>
    filter (fun r : Z * Z * Stats => r.1 = (7, 100))
           (rolling post_key DAY [view 7 1 100 true; view 7 2 100 false]) = [0; 1]%nat.
Proof.
  assert (Hw : 0 <= DAY) by (unfold DAY; lia).
  split; [exact Hw|]. split; [apply (rolling_same_time_views post_key); exact Hw|].
  vm_compute. reflexivity.
Defined.

(** spec end-to-end example: a post created on day 0 and shown on
    day 1 five times (opened, not, not, opened, not): the 1d row of the
    second view has views 1 and clicks 1 (the first view was opened), the
    fourth has views 3 and clicks 1, the fifth views 4 and clicks 2. *)
Theorem post_popularity_spec_example :
  let df := [view 7 1 (DAY + 100) true; view 7 2 (DAY + 200) false;
             view 7 3 (DAY + 300) false; view 7 4 (DAY + 400) true;
             view 7 5 (DAY + 500) false] in
  rolling post_key DAY df =
    [(7, DAY + 100, zero_stats); (7, DAY + 200, mkStats 1 1 1);
     (7, DAY + 300, mkStats 2 1 (1 # 2)); (7, DAY + 400, mkStats 3 1 (1 # 3));
     (7, DAY + 500, mkStats 4 2 (2 # 4))].
Proof. reflexivity. Qed.

(** Longer windows count more: after [load_data], the views and
    clicks of a user-post row in a window [w] are at most those of the
    same row in a window [w' >= w]: the 1d counts never exceed the 7d
    counts, which never exceed the 28d counts. *)
Theorem user_post_popularity_windows_monotone raw windows w w' p u t s s' :
  w <= w' ->
  (w, ((p, u), t, s)) ∈ user_post_popularity windows (load_data raw) ->
  (w', ((p, u), t, s')) ∈ user_post_popularity windows (load_data raw) ->
  (views_count s <= views_count s')%nat /\ (clicks_count s <= clicks_count s')%nat.
Proof.
  intros Hw [_ Hr]%popularity_elem [_ Hr']%popularity_elem.
  destruct (rolling_window_exact user_post_key _ _ _ _ _ (load_data_user_post_NoDup raw) Hr) as [-> ->].
  destruct (rolling_window_exact user_post_key _ _ _ _ _ (load_data_user_post_NoDup raw) Hr') as [-> ->].
  split; apply count_if_mono; intros e; [intros [? ?]|intros [[? ?] ?]]; split_and!; try done; lia.
Qed.

Lemma user_post_popularity_windows_monotone_witness :
  let raw := [view 7 1 100 true; view 7 1 (100 + 2 * DAY) false; view 7 1 (100 + 3 * DAY) true] in
  DAY <= 7 * DAY /\
  (DAY, ((7, 1), 100 + 3 * DAY, mkStats 1 0 0)) ∈ user_post_popularity WINDOWS (load_data raw) /\
  (7 * DAY, ((7, 1), 100 + 3 * DAY, mkStats 2 1 (1 # 2))) ∈ user_post_popularity WINDOWS (load_data raw) /\
  (views_count (mkStats 1 0 0) <= views_count (mkStats 2 1 (1 # 2)))%nat /\
  (clicks_count (mkStats 1 0 0) <= clicks_count (mkStats 2 1 (1 # 2)))%nat.
Proof.
  intros raw.
  assert (Hw : DAY <= 7 * DAY) by (unfold DAY; lia).
  assert (H1 : (DAY, ((7, 1), 100 + 3 * DAY, mkStats 1 0 0)) ∈
                 user_post_popularity WINDOWS (load_data raw)) by elem_at 2%nat.
  assert (H7 : (7 * DAY, ((7, 1), 100 + 3 * DAY, mkStats 2 1 (1 # 2))) ∈
                 user_post_popularity WINDOWS (load_data raw)) by elem_at 5%nat.
  split_and!; [exact Hw|exact H1|exact H7|..];
    apply (user_post_popularity_windows_monotone raw WINDOWS _ _ _ _ _ _ _ Hw H1 H7).
Defined.
