(* ===== verification/Dataset.v ===== *)
(** * Dataset Splitter: [make_dataset]

    Models data/make_dataset.py, function [make_dataset] (lines 93-193):
    the train split with the removal of users with few and only negative
    signals, the eval split, and the synthesized test split (every opened
    view of a post created the day before, plus one unopened row per post
    created that day before, for the same user and time), and the
    [TypeError] of line 158 when the lookback frame of the test split
    is empty ([make_dataset]).

    The splits hold the four columns [col_to_keep] ([SplitRow]); the
    filters are written on those rows, as the code filters
    [trainset = df[...][col_to_keep]]. *)

From S2P Require Import Prelude Events.

Open Scope Z_scope.

(** [N_SIGNALS = 4]. *)
Definition N_SIGNALS : nat := 4.

(** [df[(tracker_created_at >= TRAIN_START_DATE) & (<= TRAIN_END_DATE)][col_to_keep]] *)
Definition trainset_range (c : Config) (df : list Event) : list SplitRow :=
  keep_cols <$> filter (in_range (train_start_date c) (train_end_date c)) df.

(** [trainset.user_id.value_counts()] at one user. *)
Definition user_count (ts : list SplitRow) (u : Z) : nat :=
  count_if (fun r => row_user_id r = u) ts.

(** [user_vc[user_vc <= N_SIGNALS].index] *)
Definition few_signal_users (ts : list SplitRow) : list Z :=
  filter (fun u => user_count ts u <= N_SIGNALS)%nat (unique (row_user_id <$> ts)).

(** [trainset[trainset.user_id.isin(few_signal_users)]] *)
Definition pos_signal (ts : list SplitRow) : list SplitRow :=
  filter (fun r => row_user_id r ∈ few_signal_users ts) ts.

(** [pos_signal.groupby("user_id").has_been_opened.transform(sum)] at one user. *)
Definition sum_hbo (ps : list SplitRow) (u : Z) : nat :=
  count_if (fun r => row_user_id r = u /\ row_has_been_opened r = true) ps.

(** [pos_signal[pos_signal["sum_hbo"] == 0].user_id] *)
Definition few_signal_users_negative (ts : list SplitRow) : list Z :=
  row_user_id <$> filter (fun r => sum_hbo (pos_signal ts) (row_user_id r) = 0%nat) (pos_signal ts).

(** [trainset[~trainset.user_id.isin(few_signal_users_negative)]] *)
Definition filter_few_signals (ts : list SplitRow) : list SplitRow :=
  filter (fun r => row_user_id r ∉ few_signal_users_negative ts) ts.

Definition make_trainset (c : Config) (df : list Event) : list SplitRow :=
  filter_few_signals (trainset_range c df).

(** The eval split: a plain time-range filter. *)
Definition make_evalset (c : Config) (df : list Event) : list SplitRow :=
  keep_cols <$> filter (in_range (eval_start_date c) (eval_end_date c)) df.

(** [(tracker_created_at - Timedelta(minutes=post_age_in_minutes)).dt.date] *)
Definition post_creation_date (e : Event) : Z :=
  date (tracker_created_at e - post_age_in_minutes e * MINUTE).

(** [post_creation_date + Timedelta(days=1)] *)
Definition post_creation_date_plus_one (e : Event) : Z := post_creation_date e + 1.

(** [tracker_created_at.dt.date == post_creation_date_plus_one] *)
Definition post_from_yesterday (e : Event) : Prop :=
  date (tracker_created_at e) = post_creation_date_plus_one e.

(** The lookback frame [df[(>= EVAL_END_DATE) & (<= TEST_END_DATE)]]. *)
Definition test_window (c : Config) (df : list Event) : list Event :=
  filter (in_range (eval_end_date c) (test_end_date c)) df.

(** [testset[(testset.has_been_opened) & (testset.post_from_yesterday)]] *)
Definition pos_testset (tw : list Event) : list Event :=
  filter (fun e => has_been_opened e = true /\ post_from_yesterday e) tw.

(** [testset[post_creation_date_plus_one == current_pos_date.date()].trackable_id.unique()] *)
Definition yesterdays_posts (tw : list Event) (d : Z) : list Z :=
  unique (trackable_id <$> filter (fun e => post_creation_date_plus_one e = d) tw).

(** The rows appended for one positive row (the inner [for post_id] loop). *)
Definition negatives_for (tw : list Event) (e : Event) : list SplitRow :=
  (fun p => mkSplitRow p (user_id e) (tracker_created_at e) false)
    <$> yesterdays_posts tw (date (tracker_created_at e)).

(** [pos_and_neg]: the outer loop over [pos_testset.iterrows()]. *)
Definition pos_and_neg (tw : list Event) : list SplitRow :=
  mjoin (negatives_for tw <$> pos_testset tw).

(** [pd.concat([pos_testset[col_to_keep], pd.DataFrame(pos_and_neg)])]
    filtered on [tracker_created_at >= TEST_START_DATE]: the rows the
    code computes when the lookback frame is not empty (on an empty one
    it raises first, see [make_dataset]). *)
Definition make_testset (c : Config) (df : list Event) : list SplitRow :=
  let tw := test_window c df in
  filter (fun r => test_start_date c <= row_tracker_created_at r)
         ((keep_cols <$> pos_testset tw) ++ pos_and_neg tw).

Record Splits := mkSplits {
  trainset : list SplitRow;
  evalset : list SplitRow;
  testset : list SplitRow
}.

(** The three splits of [make_dataset].  On an empty lookback frame,
    line 158 raises [TypeError] ([None]): [post_age_in_minutes.apply]
    of an empty column keeps its integer dtype, and a datetime column
    minus an integer column is refused. *)
Definition make_dataset (c : Config) (df : list Event) : option Splits :=
  match test_window c df with
  | [] => None
  | _ :: _ => Some (mkSplits (make_trainset c df) (make_evalset c df) (make_testset c df))
  end.

(** A configuration (train days 0-10, eval 11-20, test 21-30) and a log
    with a train user, an eval view and a test day: the inputs of the
    examples below. *)
Definition cfg0 : Config :=
  mkConfig (midnight 0) (midnight 10) (midnight 11) (midnight 20) (midnight 21) (midnight 30).

Definition df0 : list Event :=
  [view_aged 1 100 (midnight 5) false 0; view_aged 6 200 (midnight 6) true 0;
   view_aged 2 100 (midnight 12) true 0; view_aged 3 100 (midnight 22 + 100) true 1440;
   view_aged 4 101 (midnight 22 + 200) false 60; view_aged 5 101 (midnight 22 + 300) false 1440].

(** A train user with few signals, all negative. *)
Definition sparse_negative (ts : list SplitRow) (u : Z) : Prop :=
  (user_count ts u <= N_SIGNALS)%nat /\ sum_hbo ts u = 0%nat.

(** ** The few-signal filter *)

Lemma few_signal_users_spec ts u :
  u ∈ few_signal_users ts <-> u ∈ row_user_id <$> ts /\ (user_count ts u <= N_SIGNALS)%nat.
Proof. unfold few_signal_users. rewrite list_elem_of_filter, unique_elem. tauto. Qed.

Lemma sum_hbo_pos_signal ts u :
  u ∈ few_signal_users ts -> sum_hbo (pos_signal ts) u = sum_hbo ts u.
Proof.
  intros Hu. unfold sum_hbo, pos_signal, count_if. rewrite list_filter_filter.
  f_equal. apply list_filter_iff. intros r. split; [tauto|].
  intros [-> ?]. tauto.
Qed.

Lemma few_signal_users_negative_spec ts u :
  u ∈ few_signal_users_negative ts <-> u ∈ row_user_id <$> ts /\ sparse_negative ts u.
Proof.
  unfold few_signal_users_negative, sparse_negative. split.
  - intros (r & -> & Hr)%list_elem_of_fmap.
    apply list_elem_of_filter in Hr as [H0 Hr].
    apply list_elem_of_filter in Hr as [Hfew Hr].
    rewrite sum_hbo_pos_signal in H0 by done.
    apply few_signal_users_spec in Hfew as [_ Hc].
    split; [by apply list_elem_of_fmap_2|done].
  - intros [Hin [Hc H0]]. apply list_elem_of_fmap in Hin as (r & -> & Hr).
    assert (Hfew : row_user_id r ∈ few_signal_users ts).
    { apply few_signal_users_spec. split; [by apply list_elem_of_fmap_2|done]. }
    apply list_elem_of_fmap_2, list_elem_of_filter. split.
    + by rewrite sum_hbo_pos_signal.
    + by apply list_elem_of_filter.
Qed.

(** ** The test split *)

Lemma test_window_elem c df e :
  e ∈ test_window c df <-> e ∈ df /\ eval_end_date c <= tracker_created_at e <= test_end_date c.
Proof. unfold test_window, in_range. rewrite list_elem_of_filter. tauto. Qed.

Lemma pos_and_neg_elem tw r :
  r ∈ pos_and_neg tw <->
  exists e p, e ∈ pos_testset tw /\ p ∈ yesterdays_posts tw (date (tracker_created_at e)) /\
    r = mkSplitRow p (user_id e) (tracker_created_at e) false.
Proof.
  unfold pos_and_neg. rewrite list_elem_of_join. split.
  - intros (l & Hr & (e & -> & He)%list_elem_of_fmap).
    unfold negatives_for in Hr. apply list_elem_of_fmap in Hr as (p & -> & Hp). by exists e, p.
  - intros (e & p & He & Hp & ->). exists (negatives_for tw e). split.
    + apply list_elem_of_fmap. exists p. split; [done|exact Hp].
    + apply list_elem_of_fmap. exists e. split; [done|exact He].
Qed.

Lemma yesterdays_posts_elem tw d p :
  p ∈ yesterdays_posts tw d <->
  exists e, e ∈ tw /\ trackable_id e = p /\ post_creation_date_plus_one e = d.
Proof.
  unfold yesterdays_posts. rewrite unique_elem, list_elem_of_fmap. split.
  - intros (e & -> & (Hd & He)%list_elem_of_filter). by exists e.
  - intros (e & He & <- & Hd). exists e. split; [done|]. by apply list_elem_of_filter.
Qed.

(** Where every test row comes from: a positive row is an opened view
    of a post created the day before; a negative row repeats the user and
    time of such a view with a post created the day before its date. *)
Lemma make_testset_elem c df r :
  r ∈ make_testset c df <->
  test_start_date c <= row_tracker_created_at r /\
  ((exists e, e ∈ pos_testset (test_window c df) /\ r = keep_cols e) \/
   r ∈ pos_and_neg (test_window c df)).
Proof.
  unfold make_testset. rewrite list_elem_of_filter, elem_of_app. split.
  - intros [H1 [(e & -> & He)%list_elem_of_fmap|H2]]; split; [done| |done|].
    + left. by exists e.
    + by right.
  - intros [H1 [(e & He & ->)|H2]]; split; [done| |done|].
    + left. apply list_elem_of_fmap. by exists e.
    + by right.
Qed.

(** An opened view of a post from the day before, at or after the test
    start, is in the test split twice: itself and its unopened copy. *)
Lemma seed_and_copy c df e :
  e ∈ pos_testset (test_window c df) -> test_start_date c <= tracker_created_at e ->
  keep_cols e ∈ make_testset c df /\
  mkSplitRow (trackable_id e) (user_id e) (tracker_created_at e) false ∈ make_testset c df.
Proof.
  intros He Ht. split; apply make_testset_elem; (split; [done|]).
  - left. by exists e.
  - right. apply pos_and_neg_elem. exists e, (trackable_id e). split_and!; [done| |done].
    apply yesterdays_posts_elem. exists e.
    apply list_elem_of_filter in He as [[_ Hy] Hw]. split_and!; [done|done|].
    by rewrite <- Hy.
Qed.

(** ** Properties of the splitter *)

(** The train split is a sub-list of the train range. *)
Lemma make_trainset_sub c df r : r ∈ make_trainset c df -> r ∈ trainset_range c df.
Proof. unfold make_trainset, filter_few_signals. by intros [_ ?]%list_elem_of_filter. Qed.

(** C6 (train filter): a row of the train range is kept exactly when its
    user is not a sparse-negative user of the train range (at most
    [N_SIGNALS] = 4 rows in the range and none opened); the decision is
    per user: all of a user's rows are kept or none. *)
Theorem make_trainset_spec c df r :
  r ∈ make_trainset c df <->
  r ∈ trainset_range c df /\ ~ sparse_negative (trainset_range c df) (row_user_id r).
Proof.
  unfold make_trainset, filter_few_signals.
  rewrite list_elem_of_filter, few_signal_users_negative_spec. split.
  - intros [Hn Hr]. split; [done|]. intros Hs. apply Hn. split; [|done].
    by apply list_elem_of_fmap_2.
  - intros [Hr Hn]. split; [|done]. by intros [_ Hs].
Qed.

(** Test time range: every test row is at or after
    TEST_START_DATE, and inside the lookback frame
    [EVAL_END_DATE, TEST_END_DATE]. *)
Theorem make_testset_time_bounds c df r :
  r ∈ make_testset c df ->
  test_start_date c <= row_tracker_created_at r /\
  eval_end_date c <= row_tracker_created_at r <= test_end_date c.
Proof.
  intros [Hs Hr]%make_testset_elem. split; [done|].
  destruct Hr as [(e & He & ->)|(e & p & He & _ & ->)%pos_and_neg_elem];
    apply list_elem_of_filter in He as [_ (_ & Hb)%test_window_elem]; exact Hb.
Qed.

(** Test labels: every test row repeats the user and time of an
    opened view, in the lookback frame, of a post created the day before;
    a row labelled opened is that view itself, and a row labelled not
    opened names a post of the frame whose creation day plus one is the
    row's day. *)
Theorem make_testset_provenance c df r :
  r ∈ make_testset c df ->
  exists e, e ∈ test_window c df /\ has_been_opened e = true /\ post_from_yesterday e /\
    user_id e = row_user_id r /\ tracker_created_at e = row_tracker_created_at r /\
    (row_has_been_opened r = true -> trackable_id e = row_trackable_id r) /\
    (row_has_been_opened r = false ->
       exists e', e' ∈ test_window c df /\ trackable_id e' = row_trackable_id r /\
                  post_creation_date_plus_one e' = date (row_tracker_created_at r)).
Proof.
  intros [_ Hr]%make_testset_elem.
  destruct Hr as [(e & He & ->)|(e & p & He & Hp & ->)%pos_and_neg_elem];
    apply list_elem_of_filter in He as He'; destruct He' as [[Ho Hy] Hw];
    exists e; simpl; do 5 (split; [done|]).
  - split; [done|]. by rewrite Ho.
  - split; [discriminate|]. intros _. by apply yesterdays_posts_elem.
Qed.

(** C7 (finding, the opened post is also a negative): every opened view
    of a post created the day before, at or after TEST_START_DATE, gives
    two test rows for the same post, user and time: one labelled opened
    and one labelled not opened, because the post is itself one of the
    day-before posts enumerated for that view. *)
Theorem make_testset_seed_duplicated c df e :
  e ∈ pos_testset (test_window c df) -> test_start_date c <= tracker_created_at e ->
  keep_cols e ∈ make_testset c df /\
  mkSplitRow (trackable_id e) (user_id e) (tracker_created_at e) false ∈ make_testset c df.
Proof. apply seed_and_copy. Qed.

Lemma make_testset_time_bounds_witness :
  mkSplitRow 5 100 (midnight 22 + 100) false ∈ make_testset cfg0 df0 /\
  test_start_date cfg0 <= midnight 22 + 100 /\
  eval_end_date cfg0 <= midnight 22 + 100 <= test_end_date cfg0.
Proof.
  assert (H : mkSplitRow 5 100 (midnight 22 + 100) false ∈ make_testset cfg0 df0) by elem_at 3%nat.
  split; [exact H|]. exact (make_testset_time_bounds cfg0 df0 _ H).
Defined.

Lemma make_testset_provenance_witness :
  mkSplitRow 4 100 (midnight 22 + 100) false ∈ make_testset cfg0 df0 /\
  exists e, e ∈ test_window cfg0 df0 /\ has_been_opened e = true /\ post_from_yesterday e /\
    user_id e = 100 /\ tracker_created_at e = midnight 22 + 100 /\
    (false = true -> trackable_id e = 4) /\
    (false = false ->
       exists e', e' ∈ test_window cfg0 df0 /\ trackable_id e' = 4 /\
                  post_creation_date_plus_one e' = date (midnight 22 + 100)).
Proof.
  assert (H : mkSplitRow 4 100 (midnight 22 + 100) false ∈ make_testset cfg0 df0) by elem_at 2%nat.
  split; [exact H|]. exact (make_testset_provenance cfg0 df0 _ H).
Defined.

Lemma make_testset_seed_duplicated_witness :
  view_aged 3 100 (midnight 22 + 100) true 1440 ∈ pos_testset (test_window cfg0 df0) /\
  test_start_date cfg0 <= midnight 22 + 100 /\
  keep_cols (view_aged 3 100 (midnight 22 + 100) true 1440) ∈ make_testset cfg0 df0 /\
  mkSplitRow 3 100 (midnight 22 + 100) false ∈ make_testset cfg0 df0.
Proof.
  assert (H : view_aged 3 100 (midnight 22 + 100) true 1440 ∈ pos_testset (test_window cfg0 df0))
    by elem_at 0%nat.
  assert (Ht : test_start_date cfg0 <= midnight 22 + 100) by (vm_compute; discriminate).
  split; [exact H|]. split; [exact Ht|]. exact (make_testset_seed_duplicated cfg0 df0 _ H Ht).
Defined.

(** C8 (temporal order of the splits): when the configured ranges are
    ordered (train end before eval start, eval end before test start),
    every train row is strictly earlier than every eval row, which is
    strictly earlier than every test row. *)
Theorem splits_time_ordered c df r1 r2 r3 :
  train_end_date c < eval_start_date c -> eval_end_date c < test_start_date c ->
  r1 ∈ make_trainset c df -> r2 ∈ make_evalset c df -> r3 ∈ make_testset c df ->
  row_tracker_created_at r1 < row_tracker_created_at r2 < row_tracker_created_at r3.
Proof.
  intros H12 H23 H1%make_trainset_sub H2 [H3 _]%make_testset_elem.
  unfold trainset_range, make_evalset in *.
  apply list_elem_of_fmap in H1 as (e1 & -> & (He1 & _)%list_elem_of_filter).
  apply list_elem_of_fmap in H2 as (e2 & -> & (He2 & _)%list_elem_of_filter).
  unfold in_range in *. simpl. lia.
Qed.

Lemma splits_time_ordered_witness :
  train_end_date cfg0 < eval_start_date cfg0 /\ eval_end_date cfg0 < test_start_date cfg0 /\
  mkSplitRow 6 200 (midnight 6) true ∈ make_trainset cfg0 df0 /\
  mkSplitRow 2 100 (midnight 12) true ∈ make_evalset cfg0 df0 /\
  mkSplitRow 5 100 (midnight 22 + 100) false ∈ make_testset cfg0 df0 /\
  midnight 6 < midnight 12 < midnight 22 + 100.
Proof.
  assert (H1 : train_end_date cfg0 < eval_start_date cfg0) by (vm_compute; reflexivity).
  assert (H2 : eval_end_date cfg0 < test_start_date cfg0) by (vm_compute; reflexivity).
  assert (R1 : mkSplitRow 6 200 (midnight 6) true ∈ make_trainset cfg0 df0) by elem_at 0%nat.
  assert (R2 : mkSplitRow 2 100 (midnight 12) true ∈ make_evalset cfg0 df0) by elem_at 0%nat.
  assert (R3 : mkSplitRow 5 100 (midnight 22 + 100) false ∈ make_testset cfg0 df0) by elem_at 3%nat.
  do 5 (split; [assumption|]).
  exact (splits_time_ordered cfg0 df0 _ _ _ H1 H2 R1 R2 R3).
Defined.

