(* ===== verification/Extra.v ===== *)
(** * Static features: [ExtraFeatures]

    Models features/extra_features.py, [ExtraFeatures.extract_feature]
    (lines 22-62): three per-row booleans comparing the children of the
    post's author with the children of the viewing user.  Ages are
    integers (months, or years = months // 12, Python's floor division);
    [set(a).intersection(set(b))] is the list of distinct elements of [a]
    that occur in [b]; [max(l, default=-1)] is the maximum of a non-empty
    list and -1 for an empty one. *)

From S2P Require Import Prelude Events.

Open Scope Z_scope.

(** [df.user_children_age_month.apply(lambda x: [i//12 for i in x])] *)
Definition user_children_age_year (e : Event) : list Z :=
  (fun i => i / 12) <$> user_children_age_month e.

(** [set(a).intersection(set(b))], as a list without repetition. *)
Definition set_intersection (a b : list Z) : list Z :=
  filter (fun x => x ∈ b) (unique a).

(** [len(set(a).intersection(set(b))) > 0] *)
Definition intersects (a b : list Z) : bool :=
  bool_decide (0 < length (set_intersection a b))%nat.

(** [max(l, default=d)] *)
Definition max_default (d : Z) (l : list Z) : Z :=
  match l with
  | [] => d
  | x :: l' => fold_left Z.max l' x
  end.

Definition author_has_same_age_children (e : Event) : bool :=
  intersects (author_children_age_year e) (user_children_age_year e).

Definition author_has_same_age_month_children (e : Event) : bool :=
  intersects (author_children_age_month e) (user_children_age_month e).

Definition author_has_older_children (e : Event) : bool :=
  bool_decide (max_default (-1) (user_children_age_year e) <
               max_default (-1) (author_children_age_year e)).

(** One row of [df[IDS + EXTRA_COLS]]. *)
Record ExtraRow := mkExtraRow {
  extra_ids : Z * Z * Z;
  extra_same_age : bool;
  extra_same_age_month : bool;
  extra_older : bool
}.

Definition extra_row (e : Event) : ExtraRow :=
  mkExtraRow (event_key e) (author_has_same_age_children e)
             (author_has_same_age_month_children e) (author_has_older_children e).

(** [ExtraFeatures.extract_feature(df)] *)
Definition extra_features (df : list Event) : list ExtraRow := extra_row <$> df.

(** ** Lemmas *)

Lemma intersects_spec a b : intersects a b = true <-> exists x, x ∈ a /\ x ∈ b.
Proof.
  unfold intersects, set_intersection. rewrite bool_decide_eq_true. split.
  - intros H. destruct (filter _ _) as [|x l] eqn:Hf; simpl in H; [lia|].
    assert (Hx : x ∈ filter (fun x => x ∈ b) (unique a)) by (rewrite Hf; by left).
    apply list_elem_of_filter in Hx as [Hb Ha]. rewrite unique_elem in Ha. exists x. by split.
  - intros (x & Ha & Hb).
    assert (Hx : x ∈ filter (fun x => x ∈ b) (unique a))
      by (apply list_elem_of_filter; by rewrite unique_elem).
    destruct (filter _ _); [by apply not_elem_of_nil in Hx|simpl; lia].
Qed.

Lemma fold_left_max_spec (l : list Z) x :
  fold_left Z.max l x ∈ x :: l /\ Forall (fun y => y <= fold_left Z.max l x) (x :: l).
Proof.
  revert x. induction l as [|y l IH]; intros x; simpl.
  - split; [by left|]. repeat constructor; lia.
  - destruct (IH (Z.max x y)) as [Hin Hle]. inversion Hle as [|? ? Hm Hle']; subst. split.
    + apply elem_of_cons in Hin as [Hin|Hin]; [|by right; right].
      destruct (Z.max_spec x y) as [[_ E]|[_ E]]; rewrite Hin, E; [by right; left|by left].
    + constructor; [lia|]. constructor; [lia|done].
Qed.

Lemma max_default_spec d l :
  l <> [] -> max_default d l ∈ l /\ Forall (fun y => y <= max_default d l) l.
Proof. destruct l as [|x l]; [done|]. intros _. apply fold_left_max_spec. Qed.

Lemma max_default_ge_nonneg (l : list Z) :
  Forall (fun y => 0 <= y) l -> -1 <= max_default (-1) l.
Proof.
  intros Hl. destruct l as [|x l]; [simpl; lia|].
  destruct (max_default_spec (-1) (x :: l)) as [Hin _]; [done|].
  eapply (Forall_forall _ (x :: l)) in Hin; [|exact Hl]. simpl in *; lia.
Qed.

Lemma user_children_age_year_nonneg e :
  Forall (fun m => 0 <= m) (user_children_age_month e) ->
  Forall (fun y => 0 <= y) (user_children_age_year e).
Proof.
  intros H. unfold user_children_age_year. apply Forall_fmap.
  eapply Forall_impl; [exact H|]. intros m Hm. cbn in *. apply Z.div_pos; lia.
Qed.

(** ** Properties of the extra features *)

(** Month match implies year match: when the author's ages in
    years are their ages in months floor-divided by 12, as the user's
    are, a child of the author and one of the user with the same age in
    months make [author_has_same_age_children] true as well. *)
Theorem same_age_month_implies_same_age e :
  author_children_age_year e = (fun m => m / 12) <$> author_children_age_month e ->
  author_has_same_age_month_children e = true ->
  author_has_same_age_children e = true.
Proof.
  unfold author_has_same_age_month_children, author_has_same_age_children.
  rewrite !intersects_spec. intros Hy (m & Ha & Hu). exists (m / 12).
  rewrite Hy. unfold user_children_age_year.
  split; apply list_elem_of_fmap; exists m; by split.
Qed.

Lemma same_age_month_implies_same_age_witness :
  let e := mkEvent 7 1 0 false 0 [30] [2] [30] in
  author_children_age_year e = (fun m => m / 12) <$> author_children_age_month e /\
  author_has_same_age_month_children e = true /\
  author_has_same_age_children e = true.
Proof.
  intros e. assert (H1 : author_children_age_year e = (fun m => m / 12) <$> author_children_age_month e)
    by reflexivity.
  assert (H2 : author_has_same_age_month_children e = true) by reflexivity.
  split; [exact H1|]. split; [exact H2|]. exact (same_age_month_implies_same_age e H1 H2).
Defined.

(** Older children: for a user whose children's ages in months
    are non-negative, [author_has_older_children] holds exactly when the
    author has a child aged at least 0 years who is older (in whole
    years) than every child of the user. *)
Theorem author_has_older_children_spec e :
  Forall (fun m => 0 <= m) (user_children_age_month e) ->
  author_has_older_children e = true <->
  exists a, a ∈ author_children_age_year e /\ -1 < a /\
            Forall (fun u => u < a) (user_children_age_year e).
Proof.
  intros Hm. pose proof (max_default_ge_nonneg _ (user_children_age_year_nonneg e Hm)) as Hu.
  unfold author_has_older_children. rewrite bool_decide_eq_true.
  set (U := user_children_age_year e). set (A := author_children_age_year e). fold U in Hu.
  split.
  - intros Hlt. destruct A as [|x A'] eqn:HA; [simpl in Hlt; lia|].
    destruct (max_default_spec (-1) (x :: A')) as [Hin _]; [done|].
    exists (max_default (-1) (x :: A')). split_and!; [done|lia|].
    destruct U as [|y U'] eqn:HU; [constructor|].
    destruct (max_default_spec (-1) (y :: U')) as [_ Hle]; [done|].
    eapply Forall_impl; [exact Hle|]. intros u Hu'. simpl in *. lia.
  - intros (a & Ha & Hpos & Hall).
    assert (HA : A <> []) by (intros E; rewrite E in Ha; by apply not_elem_of_nil in Ha).
    destruct (max_default_spec (-1) A HA) as [_ HleA].
    eapply (Forall_forall _ A) in Ha; [|exact HleA]. simpl in Ha.
    destruct U as [|y U'] eqn:HU; [simpl; lia|].
    destruct (max_default_spec (-1) (y :: U')) as [HinU _]; [done|].
    eapply (Forall_forall _ (y :: U')) in HinU; [|exact Hall]. simpl in *. lia.
Qed.

Lemma author_has_older_children_spec_witness :
  let e := mkEvent 7 1 0 false 0 [14; 40] [5] [60] in
  Forall (fun m => 0 <= m) (user_children_age_month e) /\
  (author_has_older_children e = true <->
   exists a, a ∈ author_children_age_year e /\ -1 < a /\
             Forall (fun u => u < a) (user_children_age_year e)).
Proof.
  intros e. assert (H : Forall (fun m => 0 <= m) (user_children_age_month e))
    by (repeat constructor; discriminate).
  split; [exact H|]. exact (author_has_older_children_spec e H).
Defined.
