(* ===== verification/Table.v ===== *)
(** * Data frames: columns, projection and merges

    The feature tables of the pipeline are pandas DataFrames: named
    columns and rows of cells.  [Table] is that shape, with cells of type
    [Val] (NaN is [VNull]; [VList] is a cell holding a Python list of
    integers).  This file models the three DataFrame
    operations the pipeline's code composes:
    - [df[cols]] ([project]): the listed columns in the listed order, a
      [KeyError] ([None]) when one is missing;
    - [pd.merge(left, right, on=keys, how="left")] ([left_merge]): every
      left row once per matching right row, or once with NaN when none
      matches; non-key columns present on both sides get the suffixes
      "_x" and "_y";
    - [pd.merge(left, right, on=keys)] ([inner_merge], how="inner"): the
      left rows that have a match, once per match.
    Rows are kept in the order pandas documents for these merges (left
    order, then right order among the matches of one left row). *)

From S2P Require Import Prelude.
From stdpp Require Import strings.

Open Scope Z_scope.

Inductive Val :=
| VNull
| VBool (b : bool)
| VInt (z : Z)
| VNum (q : Q)
| VStr (s : string)
| VList (l : list Z).

#[export] Instance Q_eq_dec : EqDecision Q.
Proof. intros x y. unfold Decision. decide equality; [apply Pos.eq_dec|apply Z.eq_dec]. Defined.

#[export] Instance Val_eq_dec : EqDecision Val.
Proof. solve_decision. Defined.

Record Table := mkTable {
  cols : list string;
  rows : list (list Val)
}.

(** Every row has one cell per column. *)
Definition table_wf (t : Table) : Prop :=
  Forall (fun r => length r = length (cols t)) (rows t).

(** [pd.DataFrame()] *)
Definition empty_table : Table := mkTable [] [].

(** Position of a column ([df.columns.get_loc]); [None] when missing. *)
Fixpoint col_index (c : string) (cs : list string) : option nat :=
  match cs with
  | [] => None
  | c' :: cs' => if decide (c = c') then Some 0%nat else S <$> col_index c cs'
  end.

(** The cells of a row at the given positions. *)
Definition pick (idxs : list nat) (r : list Val) : list Val :=
  (fun i => default VNull (r !! i)) <$> idxs.

(** [df[cs]] *)
Definition project (t : Table) (cs : list string) : option Table :=
  idxs ← mapM (fun c => col_index c (cols t)) cs;
  Some (mkTable cs (pick idxs <$> rows t)).

(** The suffix pandas gives a non-key column present on both sides. *)
Definition suffixed (sfx : string) (others : list string) (c : string) : string :=
  if decide (c ∈ others) then (c +:+ sfx)%string else c.

(** Positions of the columns of [cs] that are not keys. *)
Definition nonkey_positions (cs keys : list string) : list nat :=
  filter (fun i => default ""%string (cs !! i) ∉ keys) (seq 0 (length cs)).

Definition merged_cols (lc rc keys : list string) : list string :=
  let lnon := filter (fun c => c ∉ keys) lc in
  let rnon := filter (fun c => c ∉ keys) rc in
  (suffixed "_x" rnon <$> lc) ++ (suffixed "_y" lnon <$> rnon).

(** The rows of [right] whose key cells equal those of a left row. *)
Definition matches (li ri : list nat) (right : list (list Val)) (r : list Val) : list (list Val) :=
  filter (fun rr => pick ri rr = pick li r) right.

(** The key cells of a row of [t] ([] when a key column is missing). *)
Definition key_of (t : Table) (keys : list string) (r : list Val) : list Val :=
  match mapM (fun c => col_index c (cols t)) keys with
  | Some idxs => pick idxs r
  | None => []
  end.

(** [pd.merge(left, right, on=keys, how="left")] *)
Definition left_merge (l r : Table) (keys : list string) : option Table :=
  li ← mapM (fun c => col_index c (cols l)) keys;
  ri ← mapM (fun c => col_index c (cols r)) keys;
  let rk := nonkey_positions (cols r) keys in
  let out row :=
    match matches li ri (rows r) row with
    | [] => [row ++ replicate (length rk) VNull]
    | ms => (fun rr => row ++ pick rk rr) <$> ms
    end in
  Some (mkTable (merged_cols (cols l) (cols r) keys) (mjoin (out <$> rows l))).

(** [pd.merge(left, right, on=keys)] (how="inner") *)
Definition inner_merge (l r : Table) (keys : list string) : option Table :=
  li ← mapM (fun c => col_index c (cols l)) keys;
  ri ← mapM (fun c => col_index c (cols r)) keys;
  let rk := nonkey_positions (cols r) keys in
  Some (mkTable (merged_cols (cols l) (cols r) keys)
                (mjoin ((fun row => (fun rr => row ++ pick rk rr) <$> matches li ri (rows r) row)
                        <$> rows l))).

(** Two small feature tables (a base table and a post popularity table
    keyed on post and time), the inputs of the examples below. *)
Definition feat_base : Table :=
  mkTable ["trackable_id"; "user_id"; "tracker_created_at"; "user_is_mom"]%string
          [[VInt 7; VInt 1; VInt 100; VBool true]; [VInt 8; VInt 2; VInt 200; VBool false]].

Definition feat_pop : Table :=
  mkTable ["trackable_id"; "tracker_created_at"; "post_last_1d_views_count"]%string
          [[VInt 7; VInt 100; VInt 0]].

Definition post_time_key : list string := ["trackable_id"; "tracker_created_at"]%string.

(** ** Lemmas *)

Lemma col_index_None c cs : col_index c cs = None <-> c ∉ cs.
Proof.
  induction cs as [|c' cs IH]; simpl; [split; [intros _; apply not_elem_of_nil|done]|].
  rewrite elem_of_cons. case_decide as Hc; [split; [discriminate|tauto]|].
  rewrite fmap_None, IH. tauto.
Qed.

Lemma col_index_Some c cs i : col_index c cs = Some i -> cs !! i = Some c.
Proof.
  revert i. induction cs as [|c' cs IH]; intros i; simpl; [discriminate|].
  case_decide; [intros [= <-]; by subst|].
  intros (j & Hj & ->)%fmap_Some. simpl. by apply IH.
Qed.

Lemma length_pick idxs r : length (pick idxs r) = length idxs.
Proof. unfold pick. apply length_fmap. Qed.

Lemma mapM_col_index_None cs ks :
  mapM (fun c => col_index c cs) ks = None <-> exists c, c ∈ ks /\ c ∉ cs.
Proof.
  induction ks as [|k ks IH]; simpl.
  - split; [discriminate|]. intros (c & Hc & _). by apply not_elem_of_nil in Hc.
  - destruct (col_index k cs) as [i|] eqn:Hk; simpl.
    + destruct (mapM _ ks) as [idxs|] eqn:Hks; simpl.
      * split; [discriminate|]. intros (c & [->|Hc]%elem_of_cons & Hn).
        -- apply col_index_None in Hn. congruence.
        -- destruct IH as [_ IH]. specialize (IH (ex_intro _ c (conj Hc Hn))). discriminate.
      * split; [|done]. intros _. destruct IH as [IH _].
        destruct (IH eq_refl) as (c & Hc & Hn). exists c. split; [by right|done].
    + split; [|done]. intros _. exists k. split; [by left|]. by apply col_index_None.
Qed.

(** Rows of the merge produced by one left row. *)
Lemma length_filter_seq (P : string -> Prop) `{!∀ x, Decision (P x)} (cs : list string) :
  length (filter (fun i => P (default ""%string (cs !! i))) (seq 0 (length cs))) =
  length (filter P cs).
Proof.
  induction cs as [|c cs IH]; [done|].
  cbn [length seq]. rewrite <- fmap_S_seq, !filter_cons, filter_fmap_comm.
  change (default ""%string ((c :: cs) !! 0%nat)) with c.
  case_decide; cbn [length]; rewrite length_fmap; [f_equal|]; exact IH.
Qed.

Lemma length_merged_cols lc rc keys :
  length (merged_cols lc rc keys) = (length lc + length (nonkey_positions rc keys))%nat.
Proof.
  unfold merged_cols, nonkey_positions. rewrite length_app, !length_fmap.
  f_equal. pose proof (length_filter_seq (fun c => c ∉ keys) rc) as Hl.
  symmetry. exact Hl.
Qed.

Lemma length_mjoin_ge {A B} (f : A -> list B) (xs : list A) :
  Forall (fun x => 1 <= length (f x))%nat xs -> (length xs <= length (mjoin (f <$> xs)))%nat.
Proof.
  induction 1 as [|x xs Hx _ IH]; [simpl; lia|]. cbn in Hx.
  change (mjoin (f <$> x :: xs)) with (f x ++ mjoin (f <$> xs)).
  rewrite length_app. cbn [length]. lia.
Qed.

Lemma length_mjoin_gt {A B} (f : A -> list B) (xs : list A) x :
  Forall (fun x => 1 <= length (f x))%nat xs -> x ∈ xs -> (2 <= length (f x))%nat ->
  (length xs < length (mjoin (f <$> xs)))%nat.
Proof.
  induction 1 as [|y xs Hy Hxs IH]; intros Hx H2; [by apply elem_of_nil in Hx|].
  change (mjoin (f <$> y :: xs)) with (f y ++ mjoin (f <$> xs)). rewrite length_app. cbn [length].
  apply elem_of_cons in Hx as [->|Hx].
  - pose proof (length_mjoin_ge f xs Hxs). lia.
  - specialize (IH Hx H2). cbn in Hy. lia.
Qed.

Lemma filter_NoDup_key_le1 {A K} (f : A -> K) (k : K) `{EqDecision K} (l : list A) :
  NoDup (f <$> l) -> (length (filter (fun x => f x = k) l) <= 1)%nat.
Proof.
  induction l as [|x l IH]; intros Hnd; simpl; [lia|].
  inversion Hnd as [|? ? Hx Hnd']; subst. rewrite filter_cons. case_decide as Hk; simpl.
  - rewrite filter_all_false; [simpl; lia|]. apply Forall_forall. intros y Hy Hyk.
    apply Hx. rewrite Hk, <- Hyk. by apply list_elem_of_fmap_2.
  - by apply IH.
Qed.

Lemma mjoin_singletons {A B} (g : A -> list B) (Q : A -> B -> Prop) (xs : list A) :
  Forall (fun x => exists y, g x = [y] /\ Q x y) xs -> Forall2 Q xs (mjoin (g <$> xs)).
Proof. induction 1 as [|x xs (y & Hx & Hq) _ IH]; simpl; [done|]. rewrite Hx. by constructor. Qed.

(** ** Properties of the DataFrame operations *)

(** A left merge has at least one row per left row. *)
Lemma left_merge_rows_ge l r keys t :
  left_merge l r keys = Some t -> (length (rows l) <= length (rows t))%nat.
Proof.
  unfold left_merge. destruct (mapM (fun c => col_index c (cols l)) keys) as [li|]; simpl; [|discriminate].
  destruct (mapM (fun c => col_index c (cols r)) keys) as [ri|]; simpl; [|discriminate]. intros [= <-]. simpl.
  apply length_mjoin_ge, Forall_forall. intros row _.
  destruct (matches _ _ _ _) as [|m ms]; simpl; lia.
Qed.

(** A left row with two matching right rows gives two rows of the
    merge: the merge has more rows than the left table. *)
Lemma left_merge_rows_gt l r keys t lr :
  left_merge l r keys = Some t -> lr ∈ rows l ->
  (2 <= count_if (fun rr => key_of r keys rr = key_of l keys lr) (rows r))%nat ->
  (length (rows l) < length (rows t))%nat.
Proof.
  unfold left_merge, key_of. destruct (mapM (fun c => col_index c (cols l)) keys) as [li|]; simpl; [|discriminate].
  destruct (mapM (fun c => col_index c (cols r)) keys) as [ri|]; simpl; [|discriminate].
  intros [= <-] Hlr H2. simpl. apply (length_mjoin_gt _ _ lr); [|done|].
  - apply Forall_forall. intros row _. destruct (matches _ _ _ _) as [|m ms]; simpl; [lia|].
    rewrite length_fmap. simpl. lia.
  - unfold matches. unfold count_if in H2. revert H2.
    destruct (filter _ _) as [|m [|m' ms]]; simpl; [lia|lia|]. intros _. lia.
Qed.

(** A successful projection has the listed columns, one row per input
    row, each with one cell per column. *)
Lemma project_Some t cs t' :
  project t cs = Some t' -> cols t' = cs /\ length (rows t') = length (rows t) /\ table_wf t'.
Proof.
  unfold project. destruct (mapM _ cs) as [idxs|] eqn:Hm; simpl; [|discriminate].
  intros [= <-]. simpl. split_and!; [done|apply length_fmap|].
  apply Forall_fmap, Forall_forall. intros r _. simpl.
  rewrite length_pick. symmetry. by eapply length_mapM.
Qed.

(** A projection succeeds when every listed column is present. *)
Lemma project_is_Some t cs : Forall (fun c => c ∈ cols t) cs -> is_Some (project t cs).
Proof.
  intros Hcs. unfold project. destruct (mapM _ cs) eqn:Hm; [by eexists|].
  apply mapM_col_index_None in Hm as (c & Hc & Hn). exfalso. apply Hn.
  by eapply (Forall_forall _ cs) in Hcs.
Qed.

(** On a right table whose key cells are unique, every left row gives
    exactly one row of the merge. *)
Lemma left_merge_unique_rows l r keys t :
  left_merge l r keys = Some t ->
  NoDup (key_of r keys <$> rows r) ->
  Forall2 (fun lr tr => exists ext, tr = lr ++ ext /\
                         length ext = length (nonkey_positions (cols r) keys))
          (rows l) (rows t).
Proof.
  unfold left_merge, key_of. destruct (mapM (fun c => col_index c (cols l)) keys) as [li|]; simpl; [|discriminate].
  destruct (mapM (fun c => col_index c (cols r)) keys) as [ri|]; simpl; [|discriminate]. intros [= <-] Hnd. simpl.
  apply mjoin_singletons, Forall_forall. intros row _.
  pose proof (filter_NoDup_key_le1 (pick ri) (pick li row) _ Hnd) as Hle.
  unfold matches. destruct (filter _ _) as [|m [|m' ms]]; simpl in Hle; [| |lia].
  - eexists; split; [done|]. eexists; split; [done|apply length_replicate].
  - eexists; split; [done|]. eexists; split; [done|apply length_pick].
Qed.

(** A left merge succeeds when both tables have the key columns. *)
Lemma left_merge_is_Some l r keys :
  Forall (fun c => c ∈ cols l) keys -> Forall (fun c => c ∈ cols r) keys ->
  is_Some (left_merge l r keys).
Proof.
  intros Hl Hr. unfold left_merge.
  destruct (mapM (fun c => col_index c (cols l)) keys) eqn:Hml;
    [|apply mapM_col_index_None in Hml as (c & Hc & Hn);
      exfalso; apply Hn; by eapply (Forall_forall _ keys) in Hl].
  destruct (mapM (fun c => col_index c (cols r)) keys) eqn:Hmr;
    [by eexists|apply mapM_col_index_None in Hmr as (c & Hc & Hn);
      exfalso; apply Hn; by eapply (Forall_forall _ keys) in Hr].
Qed.

(** An inner merge succeeds when both tables have the key columns. *)
Lemma inner_merge_is_Some l r keys :
  Forall (fun c => c ∈ cols l) keys -> Forall (fun c => c ∈ cols r) keys ->
  is_Some (inner_merge l r keys).
Proof.
  intros Hl Hr. unfold inner_merge.
  destruct (mapM (fun c => col_index c (cols l)) keys) eqn:Hml;
    [|apply mapM_col_index_None in Hml as (c & Hc & Hn);
      exfalso; apply Hn; by eapply (Forall_forall _ keys) in Hl].
  destruct (mapM (fun c => col_index c (cols r)) keys) eqn:Hmr;
    [by eexists|apply mapM_col_index_None in Hmr as (c & Hc & Hn);
      exfalso; apply Hn; by eapply (Forall_forall _ keys) in Hr].
Qed.

Lemma left_merge_cols l r keys t :
  left_merge l r keys = Some t -> cols t = merged_cols (cols l) (cols r) keys.
Proof.
  unfold left_merge. destruct (mapM (fun c => col_index c (cols l)) keys); simpl; [|discriminate].
  destruct (mapM (fun c => col_index c (cols r)) keys); simpl; [|discriminate]. by intros [= <-].
Qed.

(** A left column that is a key, or absent on the right, keeps its name. *)
Lemma merged_cols_keep lc rc keys c :
  c ∈ lc -> c ∈ keys \/ c ∉ rc -> c ∈ merged_cols lc rc keys.
Proof.
  intros Hc Hk. unfold merged_cols. apply elem_of_app. left.
  apply list_elem_of_fmap. exists c. split; [|done]. unfold suffixed.
  case_decide as Hx; [|done]. apply list_elem_of_filter in Hx as [Hn Hx].
  destruct Hk; contradiction.
Qed.

(** Every row of an inner merge extends a left row, under the merged
    columns. *)
Lemma inner_merge_rows l r keys t :
  inner_merge l r keys = Some t ->
  cols t = merged_cols (cols l) (cols r) keys /\
  Forall (fun row => exists lr ext, lr ∈ rows l /\ row = lr ++ ext) (rows t).
Proof.
  unfold inner_merge. destruct (mapM (fun c => col_index c (cols l)) keys) as [li|]; simpl; [|discriminate].
  destruct (mapM (fun c => col_index c (cols r)) keys) as [ri|]; simpl; [|discriminate].
  intros [= <-]. split; [done|]. cbn [rows]. apply Forall_forall.
  intros row (ms & Hrow & (lr & -> & Hlr)%list_elem_of_fmap)%list_elem_of_join.
  apply list_elem_of_fmap in Hrow as (rr & -> & _). by exists lr, (pick (nonkey_positions (cols r) keys) rr).
Qed.

(** A left column that is a key or absent on the right keeps its name
    and position. *)
Lemma merged_cols_lookup_keep lc rc keys i c :
  lc !! i = Some c -> c ∈ keys \/ c ∉ rc -> merged_cols lc rc keys !! i = Some c.
Proof.
  intros Hi Hk. unfold merged_cols. rewrite lookup_app_l by (rewrite length_fmap; by eapply lookup_lt_Some).
  rewrite list_lookup_fmap, Hi. simpl. unfold suffixed. case_decide as Hx; [|done].
  apply list_elem_of_filter in Hx as [Hn Hx]. destruct Hk; contradiction.
Qed.

(** [col_index] finds the first column of a name. *)
Lemma col_index_first cs i c :
  cs !! i = Some c -> (forall j c', (j < i)%nat -> cs !! j = Some c' -> c' <> c) ->
  col_index c cs = Some i.
Proof.
  revert i. induction cs as [|c0 cs IH]; intros i Hi Hj; [done|]. simpl.
  destruct i as [|i]; simpl in Hi.
  - injection Hi as ->. by rewrite decide_True.
  - rewrite decide_False by (apply not_eq_sym, (Hj 0%nat); [lia|done]).
    rewrite (IH i Hi); [done|]. intros j c' Hji Hc'. apply (Hj (S j)); [lia|done].
Qed.

(** A successful projection picks the listed columns of every row. *)
Lemma project_rows t cs t' :
  project t cs = Some t' ->
  exists idxs, mapM (fun c => col_index c (cols t)) cs = Some idxs /\ t' = mkTable cs (pick idxs <$> rows t).
Proof.
  unfold project. destruct (mapM _ cs) as [idxs|]; simpl; [|discriminate]. intros [= <-]. by exists idxs.
Qed.

(** A key column of the left table keeps its name and position. *)
Lemma merged_cols_key_lookup lc rc keys i c :
  lc !! i = Some c -> c ∈ keys -> merged_cols lc rc keys !! i = Some c.
Proof.
  intros Hi Hk. unfold merged_cols. rewrite lookup_app_l by (rewrite length_fmap; by eapply lookup_lt_Some).
  rewrite list_lookup_fmap, Hi. simpl. unfold suffixed. case_decide as Hx; [|done].
  apply list_elem_of_filter in Hx as [Hn _]. contradiction.
Qed.

(** Projection, [df[cols]]: the projection raises [KeyError]
    exactly when a listed column is missing; otherwise it has the listed
    columns in the listed order, one row per input row, each with one
    cell per column. *)
Theorem project_spec t cs :
  (project t cs = None <-> exists c, c ∈ cs /\ c ∉ cols t) /\
  (forall t', project t cs = Some t' ->
     cols t' = cs /\ length (rows t') = length (rows t) /\ table_wf t').
Proof.
  split; [|apply project_Some].
  unfold project. rewrite <- mapM_col_index_None. by destruct (mapM _ cs).
Qed.


(** C11 (left merge on a key-unique table): when no two rows of the right
    table share their key cells, the left merge has exactly one row per
    left row, in the left table's order: that row followed by the
    non-key cells of the right row with the same key cells when there is
    one, and followed by NaN in every non-key column of the right table
    when no right row matches. *)
Theorem left_merge_unique_right l r keys t :
  left_merge l r keys = Some t ->
  NoDup (key_of r keys <$> rows r) ->
  Forall2 (fun lr tr =>
             (exists rr, rr ∈ rows r /\ key_of r keys rr = key_of l keys lr /\
                         tr = lr ++ pick (nonkey_positions (cols r) keys) rr) \/
             ((forall rr, rr ∈ rows r -> key_of r keys rr <> key_of l keys lr) /\
              tr = lr ++ replicate (length (nonkey_positions (cols r) keys)) VNull))
          (rows l) (rows t).
Proof.
  unfold left_merge, key_of. destruct (mapM (fun c => col_index c (cols l)) keys) as [li|]; simpl; [|discriminate].
  destruct (mapM (fun c => col_index c (cols r)) keys) as [ri|]; simpl; [|discriminate]. intros [= <-] Hnd. simpl.
  apply mjoin_singletons, Forall_forall. intros row _.
  pose proof (filter_NoDup_key_le1 (pick ri) (pick li row) _ Hnd) as Hle.
  unfold matches. destruct (filter _ _) as [|m [|m' ms]] eqn:Hf; simpl in Hle; [| |lia].
  - eexists; split; [done|]. right. split; [|done].
    intros rr Hrr Hk. assert (Hin : rr ∈ filter (fun rr => pick ri rr = pick li row) (rows r))
      by (apply list_elem_of_filter; done).
    rewrite Hf in Hin. by apply elem_of_nil in Hin.
  - eexists; split; [done|]. left. exists m.
    assert (Hin : m ∈ filter (fun rr => pick ri rr = pick li row) (rows r)) by (rewrite Hf; left).
    apply list_elem_of_filter in Hin as [Hk Hin]. done.
Qed.

(** merge with an empty table: merging on zero right rows gives
    every left row once, followed by NaN in each of the right table's
    non-key columns. *)
Theorem left_merge_empty_right l r keys t :
  rows r = [] -> left_merge l r keys = Some t ->
  rows t = (fun row => row ++ replicate (length (nonkey_positions (cols r) keys)) VNull) <$> rows l.
Proof.
  intros Hr. unfold left_merge. destruct (mapM (fun c => col_index c (cols l)) keys) as [li|]; simpl; [|discriminate].
  destruct (mapM (fun c => col_index c (cols r)) keys) as [ri|]; simpl; [|discriminate]. intros [= <-]. simpl.
  unfold matches. rewrite Hr. exact (mjoin_fmap_singleton _ _).
Qed.

(** Merge keeps the table shape: a left merge of well-formed
    tables is well formed: every row has one cell per merged column. *)
Theorem left_merge_wf l r keys t :
  table_wf l -> table_wf r -> left_merge l r keys = Some t -> table_wf t.
Proof.
  intros Hl _. unfold left_merge. destruct (mapM (fun c => col_index c (cols l)) keys) as [li|]; simpl; [|discriminate].
  destruct (mapM (fun c => col_index c (cols r)) keys) as [ri|]; simpl; [|discriminate]. intros [= <-].
  unfold table_wf in *. simpl. rewrite length_merged_cols.
  apply Forall_forall. intros tr (ts & Htr & (row & -> & Hrow)%list_elem_of_fmap)%list_elem_of_join.
  eapply (Forall_forall _ (rows l)) in Hrow; [|exact Hl]. cbn in Hrow.
  destruct (matches _ _ _ _) as [|m ms].
  - apply list_elem_of_singleton in Htr as ->. rewrite length_app, length_replicate. lia.
  - apply elem_of_cons in Htr as [->|Htr];
      [|apply list_elem_of_fmap in Htr as (rr & -> & _)];
      rewrite length_app, length_pick; lia.
Qed.


Lemma left_merge_unique_right_witness :
  left_merge feat_base feat_pop post_time_key =
    Some (mkTable ["trackable_id"; "user_id"; "tracker_created_at"; "user_is_mom";
                   "post_last_1d_views_count"]%string
                  [[VInt 7; VInt 1; VInt 100; VBool true; VInt 0];
                   [VInt 8; VInt 2; VInt 200; VBool false; VNull]]) /\
  NoDup (key_of feat_pop post_time_key <$> rows feat_pop) /\
  Forall2 (fun lr tr =>
             (exists rr, rr ∈ rows feat_pop /\ key_of feat_pop post_time_key rr = key_of feat_base post_time_key lr /\
                         tr = lr ++ pick (nonkey_positions (cols feat_pop) post_time_key) rr) \/
             ((forall rr, rr ∈ rows feat_pop -> key_of feat_pop post_time_key rr <> key_of feat_base post_time_key lr) /\
              tr = lr ++ replicate (length (nonkey_positions (cols feat_pop) post_time_key)) VNull))
          (rows feat_base)
          [[VInt 7; VInt 1; VInt 100; VBool true; VInt 0];
           [VInt 8; VInt 2; VInt 200; VBool false; VNull]].
Proof.
  assert (H : left_merge feat_base feat_pop post_time_key =
    Some (mkTable ["trackable_id"; "user_id"; "tracker_created_at"; "user_is_mom";
                   "post_last_1d_views_count"]%string
                  [[VInt 7; VInt 1; VInt 100; VBool true; VInt 0];
                   [VInt 8; VInt 2; VInt 200; VBool false; VNull]])) by (vm_compute; reflexivity).
  assert (Hnd : NoDup (key_of feat_pop post_time_key <$> rows feat_pop))
    by (constructor; [apply not_elem_of_nil|constructor]).
  split; [exact H|]. split; [exact Hnd|]. exact (left_merge_unique_right _ _ _ _ H Hnd).
Defined.

Lemma left_merge_empty_right_witness :
  rows (mkTable (cols feat_pop) []) = [] /\
  left_merge feat_base (mkTable (cols feat_pop) []) post_time_key =
    Some (mkTable ["trackable_id"; "user_id"; "tracker_created_at"; "user_is_mom";
                   "post_last_1d_views_count"]%string
                  [[VInt 7; VInt 1; VInt 100; VBool true; VNull];
                   [VInt 8; VInt 2; VInt 200; VBool false; VNull]]) /\
  [[VInt 7; VInt 1; VInt 100; VBool true; VNull]; [VInt 8; VInt 2; VInt 200; VBool false; VNull]] =
    (fun row => row ++ replicate (length (nonkey_positions (cols feat_pop) post_time_key)) VNull)
      <$> rows feat_base.
Proof.
  assert (H : left_merge feat_base (mkTable (cols feat_pop) []) post_time_key =
    Some (mkTable ["trackable_id"; "user_id"; "tracker_created_at"; "user_is_mom";
                   "post_last_1d_views_count"]%string
                  [[VInt 7; VInt 1; VInt 100; VBool true; VNull];
                   [VInt 8; VInt 2; VInt 200; VBool false; VNull]])) by (vm_compute; reflexivity).
  split; [reflexivity|]. split; [exact H|].
  exact (left_merge_empty_right feat_base (mkTable (cols feat_pop) []) _ _ eq_refl H).
Defined.

Lemma left_merge_wf_witness :
  table_wf feat_base /\ table_wf feat_pop /\
  left_merge feat_base feat_pop post_time_key =
    Some (mkTable ["trackable_id"; "user_id"; "tracker_created_at"; "user_is_mom";
                   "post_last_1d_views_count"]%string
                  [[VInt 7; VInt 1; VInt 100; VBool true; VInt 0];
                   [VInt 8; VInt 2; VInt 200; VBool false; VNull]]) /\
  table_wf (mkTable ["trackable_id"; "user_id"; "tracker_created_at"; "user_is_mom";
                   "post_last_1d_views_count"]%string
                  [[VInt 7; VInt 1; VInt 100; VBool true; VInt 0];
                   [VInt 8; VInt 2; VInt 200; VBool false; VNull]]).
Proof.
  assert (Hl : table_wf feat_base) by (repeat constructor).
  assert (Hr : table_wf feat_pop) by (repeat constructor).
  assert (H : left_merge feat_base feat_pop post_time_key =
    Some (mkTable ["trackable_id"; "user_id"; "tracker_created_at"; "user_is_mom";
                   "post_last_1d_views_count"]%string
                  [[VInt 7; VInt 1; VInt 100; VBool true; VInt 0];
                   [VInt 8; VInt 2; VInt 200; VBool false; VNull]])) by (vm_compute; reflexivity).
  split; [exact Hl|]. split; [exact Hr|]. split; [exact H|]. exact (left_merge_wf _ _ _ _ Hl Hr H).
Defined.
