(* ===== verification/Clean.v ===== *)
(** * The cleanup of a feature matrix before the network

    Both models/train_model.py (lines 104-116) and
    models/predict_model.py (lines 135-140) clean the merged matrix with
    [.replace({False: 0, True: 1}).select_dtypes(['number']).fillna(0)];
    the predictor first moves the three ids to the index
    ([set_index(["user_id", "trackable_id", "tracker_created_at"])]).
    - [replace_cell]: booleans become 0 and 1; an object column of
      booleans and NaN is re-inferred as a float column (pandas 1.x's
      [replace] re-infers object columns);
    - [numeric_col], [select_number]: a column is kept when its dtype is
      a number: every cell is an integer, a float or NaN, and the column
      is not a datetime column.  The only datetime column of the
      pipeline is [tracker_created_at], converted by [pd.read_json] in
      [load_data] (utils.py) because its name ends in "_at"
      ([date_col] is pandas' rule for such names), and kept as
      [datetime64] through the parquet files; its cells are modelled as
      integer seconds, so its dtype is given by its name;
    - [fillna0]: NaN becomes 0;
    - [set_index]: the index columns leave the columns ([KeyError] when
      one is missing).
    [pop] is [DataFrame.pop], with which both scripts take the label
    column out of a split.
    The dtype of a column is read from its cells; on a zero-row frame
    pandas keeps the dtype of the stored schema, which the cells do not
    determine (such a frame is classified as all numbers). *)

From S2P Require Import Prelude Table.
From stdpp Require Import strings.

Open Scope Z_scope.

(** [s.endswith(suf)] *)
Definition ends_with (suf s : string) : bool :=
  (String.length suf <=? String.length s)%nat &&
  String.eqb (String.substring (String.length s - String.length suf) (String.length suf) s) suf.

(** pandas' [read_json] date-column rule ([keep_default_dates]): a
    column is parsed as dates when its name ends in "_at" or "_time",
    starts with "timestamp", or is "modified", "date" or "datetime". *)
Definition date_col (c : string) : bool :=
  ends_with "_at" c || ends_with "_time" c || String.prefix "timestamp" c ||
  String.eqb c "modified" || String.eqb c "date" || String.eqb c "datetime".

(** [.replace({False: 0, True: 1})], cell by cell. *)
Definition replace_cell (v : Val) : Val :=
  match v with
  | VBool b => VInt (if b then 1 else 0)
  | _ => v
  end.

Definition replace_bools (t : Table) : Table :=
  mkTable (cols t) ((fun r : list Val => replace_cell <$> r) <$> rows t).

(** A cell of a numeric column (int64 or float64, NaN included). *)
Definition number_cell (v : Val) : bool :=
  match v with
  | VInt _ | VNum _ | VNull => true
  | _ => false
  end.

(** The dtype of column [i] is a number. *)
Definition numeric_col (t : Table) (i : nat) : bool :=
  negb (date_col (default ""%string (cols t !! i))) &&
  forallb (fun r => number_cell (default VNull (r !! i))) (rows t).

(** [.select_dtypes(['number'])] *)
Definition select_number (t : Table) : Table :=
  let keep := filter (fun i => numeric_col t i = true) (seq 0 (length (cols t))) in
  mkTable ((fun i => default ""%string (cols t !! i)) <$> keep) (pick keep <$> rows t).

(** [.fillna(0)] *)
Definition fillna_cell (v : Val) : Val :=
  match v with
  | VNull => VNum 0
  | _ => v
  end.

Definition fillna0 (t : Table) : Table :=
  mkTable (cols t) ((fun r : list Val => fillna_cell <$> r) <$> rows t).

(** [.replace({False: 0, True: 1}).select_dtypes(['number']).fillna(0)] *)
Definition clean (t : Table) : Table := fillna0 (select_number (replace_bools t)).

(** [.set_index(ks)]: the frame without the index columns, and the index. *)
Definition set_index (t : Table) (ks : list string) : option (Table * list (list Val)) :=
  ki ← mapM (fun c => col_index c (cols t)) ks;
  let rest := filter (fun i => i ∉ ki) (seq 0 (length (cols t))) in
  Some (mkTable ((fun i => default ""%string (cols t !! i)) <$> rest) (pick rest <$> rows t),
        pick ki <$> rows t).

(** [t.pop(c)]: the frame without column [c], and that column
    ([KeyError] when it is missing). *)
Definition pop (t : Table) (c : string) : option (Table * list Val) :=
  i ← col_index c (cols t);
  Some (mkTable (delete i (cols t)) (delete i <$> rows t), (fun r => default VNull (r !! i)) <$> rows t).

(** A cell of a cleaned matrix: an integer or a float, never NaN. *)
Definition filled_number (v : Val) : bool :=
  match v with
  | VInt _ | VNum _ => true
  | _ => false
  end.

(** A cell the cleanup keeps in a numeric column: a boolean, a number
    or NaN (a string or a list makes the column an object column). *)
Definition coercible_cell (v : Val) : bool :=
  match v with
  | VStr _ | VList _ => false
  | _ => true
  end.

(** ** Lemmas *)

Lemma number_cell_replace (v : option Val) :
  number_cell (default VNull (replace_cell <$> v)) = coercible_cell (default VNull v).
Proof. by destruct v as [[]|]. Qed.

Lemma numeric_col_replace t i c :
  cols t !! i = Some c ->
  numeric_col (replace_bools t) i = true <->
  date_col c = false /\ Forall (fun r => coercible_cell (default VNull (r !! i)) = true) (rows t).
Proof.
  intros Hc. unfold numeric_col, replace_bools. cbn [cols rows]. rewrite Hc. simpl.
  rewrite andb_true_iff, negb_true_iff, forallb_forall, Forall_forall.
  apply and_iff_compat_l. split.
  - intros H r Hr. rewrite <-number_cell_replace, <-list_lookup_fmap.
    apply H, list_elem_of_In, list_elem_of_fmap. by exists r.
  - intros H r' (r & -> & Hr)%list_elem_of_In%list_elem_of_fmap.
    rewrite list_lookup_fmap, number_cell_replace. by apply H.
Qed.

Lemma length_clean_rows t : length (rows (clean t)) = length (rows t).
Proof. unfold clean, fillna0, select_number, replace_bools. simpl. by rewrite !length_fmap. Qed.

Lemma length_clean_row t r : r ∈ rows (clean t) -> length r = length (cols (clean t)).
Proof.
  unfold clean, fillna0, select_number, replace_bools. cbn [rows cols].
  intros (r1 & -> & (r2 & -> & _)%list_elem_of_fmap)%list_elem_of_fmap.
  by rewrite !length_fmap, length_pick.
Qed.

(** A column survives [clean] only when it is not a datetime column and
    its cells (after replace) are numbers. *)
Lemma clean_cols_not_date t c : c ∈ cols (clean t) -> c ∈ cols t /\ date_col c = false.
Proof.
  unfold clean, fillna0, select_number, replace_bools. cbn [rows cols].
  intros (i & -> & Hi)%list_elem_of_fmap.
  apply list_elem_of_filter in Hi as [Hn Hi]. apply elem_of_seq in Hi.
  unfold numeric_col in Hn. cbn [cols] in Hn. apply andb_prop in Hn as [Hd _].
  destruct (cols t !! i) as [c|] eqn:Hc; [|apply lookup_ge_None in Hc; lia].
  simpl in *. split; [by eapply list_elem_of_lookup_2|]. by destruct (date_col c).
Qed.

(** Every cell of a cleaned matrix is an integer or a float. *)
Lemma clean_cells t : Forall (Forall (fun v => filled_number v = true)) (rows (clean t)).
Proof.
  unfold clean, fillna0, select_number. cbn [rows cols].
  set (t' := replace_bools t).
  set (keep := filter (fun i => numeric_col t' i = true) (seq 0 (length (cols t')))).
  apply Forall_fmap, Forall_fmap, Forall_forall. intros r Hr.
  apply Forall_fmap, Forall_fmap, Forall_forall. intros i Hi. unfold compose.
  apply list_elem_of_filter in Hi as [Hn _]. unfold numeric_col in Hn.
  apply andb_prop in Hn as [_ Hn]. rewrite forallb_forall in Hn.
  specialize (Hn r (proj1 (list_elem_of_In _ _) Hr)). by destruct (default VNull (r !! i)).
Qed.

Lemma replace_bools_filled t :
  Forall (Forall (fun v => filled_number v = true)) (rows t) -> replace_bools t = t.
Proof.
  intros H. destruct t as [cs rs]. unfold replace_bools. cbn [rows cols] in *. f_equal.
  eapply fmap_id_Forall; [|exact H]. intros r Hr. eapply fmap_id_Forall; [|exact Hr].
  by intros [] ?.
Qed.

Lemma fillna0_filled t :
  Forall (Forall (fun v => filled_number v = true)) (rows t) -> fillna0 t = t.
Proof.
  intros H. destruct t as [cs rs]. unfold fillna0. cbn [rows cols] in *. f_equal.
  eapply fmap_id_Forall; [|exact H]. intros r Hr. eapply fmap_id_Forall; [|exact Hr].
  by intros [] ?.
Qed.

(** A well-formed matrix of numbers without datetime columns is kept whole. *)
Lemma select_number_filled t :
  table_wf t -> Forall (fun c => date_col c = false) (cols t) ->
  Forall (Forall (fun v => filled_number v = true)) (rows t) -> select_number t = t.
Proof.
  intros Hwf Hd Hn. destruct t as [cs rs]. unfold select_number, table_wf in *. cbn [rows cols] in *.
  rewrite filter_all_true.
  - rewrite fmap_lookup_seq. f_equal. eapply fmap_id_Forall; [|exact Hwf].
    intros r Hr. unfold pick. rewrite <-Hr. apply fmap_lookup_seq.
  - apply Forall_forall. intros i Hi%elem_of_seq. unfold numeric_col. cbn [rows cols].
    destruct (cs !! i) as [c|] eqn:Hc; [|apply lookup_ge_None in Hc; lia]. simpl.
    rewrite (proj1 (Forall_forall _ _) Hd c (list_elem_of_lookup_2 _ _ _ Hc)). simpl.
    apply forallb_forall. intros r Hr%list_elem_of_In.
    eapply Forall_forall in Hn; [|exact Hr].
    destruct (r !! i) as [v|] eqn:Hv; [|done]. simpl.
    eapply Forall_forall in Hn; [|exact (list_elem_of_lookup_2 _ _ _ Hv)]. by destruct v.
Qed.

Lemma pop_Some t c t' y :
  pop t c = Some (t', y) ->
  length (rows t') = length (rows t) /\
  exists i, cols t !! i = Some c /\ y = (fun r => default VNull (r !! i)) <$> rows t.
Proof.
  unfold pop. destruct (col_index c (cols t)) as [i|] eqn:Hi; simpl; [|discriminate].
  intros [= <- <-]. split; [apply length_fmap|]. exists i. split; [|done]. by apply col_index_Some.
Qed.

Lemma set_index_length t ks t' idx :
  set_index t ks = Some (t', idx) -> length (rows t') = length (rows t) /\ length idx = length (rows t).
Proof.
  unfold set_index. destruct (mapM _ ks); simpl; [|discriminate].
  intros [= <- <-]. split; apply length_fmap.
Qed.

Lemma set_index_rows t ks t' idx :
  set_index t ks = Some (t', idx) ->
  exists ki rest, mapM (fun c => col_index c (cols t)) ks = Some ki /\
    rows t' = pick rest <$> rows t /\ idx = pick ki <$> rows t.
Proof.
  unfold set_index. destruct (mapM _ ks) as [ki|]; simpl; [|discriminate].
  intros [= <- <-]. by eexists _, _.
Qed.

(** The cleanup maps every row by one function. *)
Lemma clean_rows t : exists G, rows (clean t) = G <$> rows t.
Proof.
  eexists. unfold clean, fillna0, select_number, replace_bools. cbn [rows].
  by rewrite <-!list_fmap_compose.
Qed.

(** With distinct column names, [set_index] removes every index
    column from the columns. *)
Lemma set_index_removes t ks t' idx c :
  NoDup (cols t) -> set_index t ks = Some (t', idx) -> c ∈ ks -> c ∉ cols t'.
Proof.
  intros Hnd. unfold set_index.
  destruct (mapM (fun c => col_index c (cols t)) ks) as [ki|] eqn:Hki; simpl; [|discriminate].
  intros [= <- _] Hc (i & Hci & Hi)%list_elem_of_fmap. cbn [cols] in *.
  apply list_elem_of_filter in Hi as [Hni Hi]. apply elem_of_seq in Hi.
  destruct (mapM_elem _ _ _ _ Hki Hc) as (j & Hj & Hjk).
  destruct (cols t !! i) as [c'|] eqn:Hi'; [|apply lookup_ge_None in Hi'; lia]. simpl in Hci. subst c'.
  apply col_index_Some in Hj. by rewrite (NoDup_lookup _ _ _ _ Hnd Hi' Hj) in Hni.
Qed.

(** A column of a non-datetime name whose cells are all booleans,
    numbers or NaN is kept by the cleanup. *)
Lemma clean_cols_iff t c :
  c ∈ cols (clean t) <->
  exists i, cols t !! i = Some c /\ date_col c = false /\
    Forall (fun r => coercible_cell (default VNull (r !! i)) = true) (rows t).
Proof.
  unfold clean, fillna0, select_number. cbn [cols rows]. split.
  - intros (i & -> & Hi)%list_elem_of_fmap. apply list_elem_of_filter in Hi as [Hn Hi].
    apply elem_of_seq in Hi. cbn [cols replace_bools] in *.
    destruct (cols t !! i) as [c|] eqn:Hc; [|apply lookup_ge_None in Hc; lia].
    exists i. split; [done|]. by apply (numeric_col_replace t i c).
  - intros (i & Hc & Hd & Hf). apply list_elem_of_fmap. exists i. cbn [cols replace_bools].
    rewrite Hc. split; [done|]. apply list_elem_of_filter. split.
    + by apply (numeric_col_replace t i c).
    + apply elem_of_seq. apply lookup_lt_Some in Hc. lia.
Qed.

(** ** Properties *)

(** C17 (post-bind cleanup, columns): a column is in the cleaned matrix
    exactly when it is a column of the input that is not a datetime
    column and whose cells are all booleans, numbers or NaN; boolean
    columns are coerced, not dropped, and any string or list cell drops
    its column, as the spec's post-bind cleanup states. *)
Theorem clean_cols_spec t c :
  c ∈ cols (clean t) <->
  exists i, cols t !! i = Some c /\ date_col c = false /\
    Forall (fun r => coercible_cell (default VNull (r !! i)) = true) (rows t).
Proof. apply clean_cols_iff. Qed.

(** cleanup is idempotent: cleaning a cleaned matrix changes
    nothing: it holds numbers only, in columns that are all kept. *)
Theorem clean_idem t : clean (clean t) = clean t.
Proof.
  pose proof (clean_cells t) as Hn. unfold clean at 1.
  rewrite (replace_bools_filled (clean t) Hn).
  rewrite select_number_filled; [by apply fillna0_filled|..|done].
  - unfold table_wf. apply Forall_forall. apply length_clean_row.
  - apply Forall_forall. intros c Hc. exact (proj2 (clean_cols_not_date t c Hc)).
Qed.
