(* ===== verification/Asof.v ===== *)
(** * As-of joins: [pd.merge_asof(direction="backward")]

    The as-of join of models/predict_model.py (lines 108-132):
    - [merge_asof l r on by]: each left row gets the non-key cells of
      the last right row (in the right frame's order) with the same [by]
      cells and a time at most its own ([asof_match]), NaN when there is
      none; a missing column is a [KeyError] and an unsorted or
      non-integer [on] column a [ValueError] (both [None]);
    - [sort_table]: [sort_values(by=c)] on an integer column, a stable
      sort.
    [asof_match] is the declarative reading of the spec's glossary (the
    right row with the greatest timestamp at most the left row's within
    its key group); how pandas computes it (one scan of both frames,
    in its compiled join code) is not modelled. *)

From S2P Require Import Prelude Table.
From stdpp Require Import strings.

Open Scope Z_scope.

(** The integer timestamp in column [i] of a row. *)
Definition time_at (i : nat) (r : list Val) : option Z :=
  match r !! i with
  | Some (VInt z) => Some z
  | _ => None
  end.

(** merge_asof's check that the [on] column is integer and ascending. *)
Definition times_sorted (i : nat) (rs : list (list Val)) : option (list Z) :=
  ts ← mapM (time_at i) rs;
  if decide (StronglySorted Z.le ts) then Some ts else None.

Definition time_le (a b : option Z) : bool :=
  match a, b with
  | Some x, Some y => bool_decide (x <= y)
  | _, _ => false
  end.

(** The right row a left row is bound to: the last one with its [by]
    cells and a time at most its own. *)
Definition asof_match (li ri : list nat) (lt rt : nat) (right : list (list Val))
    (row : list Val) : option (list Val) :=
  last (filter (fun rr => pick ri rr = pick li row /\ time_le (time_at rt rr) (time_at lt row) = true)
               right).

(** [pd.merge_asof(l, r, on=on, by=by_, direction="backward")] *)
Definition merge_asof (l r : Table) (on : string) (by_ : list string) : option Table :=
  lt ← col_index on (cols l);
  rt ← col_index on (cols r);
  li ← mapM (fun c => col_index c (cols l)) by_;
  ri ← mapM (fun c => col_index c (cols r)) by_;
  _ ← times_sorted lt (rows l);
  _ ← times_sorted rt (rows r);
  let rk := nonkey_positions (cols r) (on :: by_) in
  Some (mkTable (merged_cols (cols l) (cols r) (on :: by_))
          ((fun row => row ++ match asof_match li ri lt rt (rows r) row with
                              | Some rr => pick rk rr
                              | None => replicate (length rk) VNull
                              end) <$> rows l)).

(** [t.sort_values(by=c)] on an integer column (non-integers first). *)
Definition sort_table (t : Table) (c : string) : option Table :=
  i ← col_index c (cols t);
  Some (mkTable (cols t) (sort_by (fun r => default 0 (time_at i r)) (rows t))).

(** Sample frames for the examples: a test frame out of time order and
    a user-feature frame sorted by time. *)
Definition x_asof : Table :=
  mkTable ["trackable_id"; "user_id"; "tracker_created_at"]%string
          [[VInt 7; VInt 1; VInt 30]; [VInt 8; VInt 2; VInt 5]; [VInt 9; VInt 1; VInt 10]].

Definition d_asof : Table :=
  mkTable ["user_id"; "tracker_created_at"; "user_nb_views"]%string
          [[VInt 1; VInt 10; VInt 3]; [VInt 1; VInt 20; VInt 4]; [VInt 2; VInt 40; VInt 9]].

(** ** Lemmas *)

Lemma mapM_sorted_rows {A} (f : A -> option Z) (l : list A) ts :
  mapM f l = Some ts -> StronglySorted Z.le ts ->
  StronglySorted (fun a b => exists x y, f a = Some x /\ f b = Some y /\ x <= y) l.
Proof.
  revert ts. induction l as [|a l IH]; intros ts Hm Hs; [constructor|].
  simpl in Hm. destruct (f a) as [t|] eqn:Ha; [|discriminate]. simpl in Hm.
  destruct (mapM f l) as [ts'|] eqn:Hm'; [|discriminate]. simpl in Hm. injection Hm as <-.
  apply StronglySorted_inv in Hs as [Hs Ht]. constructor; [by apply (IH ts')|].
  apply Forall_forall. intros b Hb.
  destruct (mapM_elem _ _ _ _ Hm' Hb) as (y & Hfb & Hy).
  exists t, y. split_and!; [done|done|]. eapply (Forall_forall _ ts'); [exact Ht|exact Hy].
Qed.

Lemma time_le_true a b : time_le a b = true <-> exists x y, a = Some x /\ b = Some y /\ x <= y.
Proof.
  destruct a as [x|], b as [y|]; simpl; rewrite ?bool_decide_eq_true; split; try discriminate;
    try (intros (? & ? & ? & ? & ?); discriminate).
  - intros H. by exists x, y.
  - intros (? & ? & [= ->] & [= ->] & ?). done.
Qed.

Lemma sort_table_idem t c t' : sort_table t c = Some t' -> sort_table t' c = Some t'.
Proof.
  unfold sort_table. destruct (col_index c (cols t)) as [i|] eqn:Hi; simpl; [|discriminate].
  intros [= <-]. simpl. rewrite Hi. simpl. by rewrite sort_by_idem.
Qed.

(** Every left row of [merge_asof] is kept, extended, in order. *)
Lemma merge_asof_prefix l r on by_ t :
  merge_asof l r on by_ = Some t ->
  Forall2 (fun lr tr => exists ext, tr = lr ++ ext) (rows l) (rows t).
Proof.
  unfold merge_asof.
  destruct (col_index on (cols l)); simpl; [|discriminate].
  destruct (col_index on (cols r)); simpl; [|discriminate].
  destruct (mapM (fun c => col_index c (cols l)) by_); simpl; [|discriminate].
  destruct (mapM (fun c => col_index c (cols r)) by_); simpl; [|discriminate].
  destruct (times_sorted _ (rows l)); simpl; [|discriminate].
  destruct (times_sorted _ (rows r)); simpl; [|discriminate].
  intros [= <-]. simpl. apply Forall2_fmap_r, Forall_Forall2_diag, Forall_forall.
  intros row _. eexists. reflexivity.
Qed.

(** [merge_asof] extends every left row, in order, by a function of
    the row. *)
Lemma merge_asof_rows l r on by_ t :
  merge_asof l r on by_ = Some t ->
  cols t = merged_cols (cols l) (cols r) (on :: by_) /\
  exists g, rows t = (fun row => row ++ g row) <$> rows l.
Proof.
  unfold merge_asof.
  destruct (col_index on (cols l)); simpl; [|discriminate].
  destruct (col_index on (cols r)); simpl; [|discriminate].
  destruct (mapM (fun c => col_index c (cols l)) by_); simpl; [|discriminate].
  destruct (mapM (fun c => col_index c (cols r)) by_); simpl; [|discriminate].
  destruct (times_sorted _ (rows l)); simpl; [|discriminate].
  destruct (times_sorted _ (rows r)); simpl; [|discriminate].
  intros [= <-]. split; [done|]. eexists. reflexivity.
Qed.

Lemma sort_table_rows t c t' : sort_table t c = Some t' -> cols t' = cols t /\ rows t' ≡ₚ rows t.
Proof.
  unfold sort_table. destruct (col_index c (cols t)); simpl; [|discriminate].
  intros [= <-]. split; [done|]. apply sort_by_perm.
Qed.

(** Row counts of the join and of the sort. *)

Lemma merge_asof_length l r on by_ t :
  merge_asof l r on by_ = Some t -> length (rows t) = length (rows l).
Proof. intros H%merge_asof_prefix. symmetry. exact (Forall2_length _ _ _ H). Qed.

Lemma sort_table_length t c t' : sort_table t c = Some t' -> length (rows t') = length (rows t).
Proof.
  unfold sort_table. destruct (col_index c (cols t)); simpl; [|discriminate].
  intros [= <-]. apply sort_by_length.
Qed.

(** ** Properties *)

(** C12 (backward as-of join): on a right frame sorted by time, the row
    bound to a left row has the same [by] cells and a time at most the
    left row's, and no right row with the same [by] cells and a time at
    most the left row's is later than it: it is the latest known row,
    as the spec's "backward as-of" requires (<=, not <). *)
Theorem asof_match_latest li ri lt rt right ts row rr :
  times_sorted rt right = Some ts ->
  asof_match li ri lt rt right row = Some rr ->
  rr ∈ right /\ pick ri rr = pick li row /\ time_le (time_at rt rr) (time_at lt row) = true /\
  (forall rr', rr' ∈ right -> pick ri rr' = pick li row ->
     time_le (time_at rt rr') (time_at lt row) = true ->
     time_le (time_at rt rr') (time_at rt rr) = true).
Proof.
  unfold times_sorted, asof_match. destruct (mapM _ right) as [ts'|] eqn:Hm; simpl; [|discriminate].
  case_decide as Hs; [|discriminate]. intros _ Hl.
  pose proof (last_Some_elem_of _ _ Hl) as (Hrr & Hin)%list_elem_of_filter.
  destruct Hrr as [Hkey Hle]. split_and!; [done|done|done|].
  intros rr' Hin' Hkey' Hle'.
  assert (Hf : rr' ∈ filter (fun rr => pick ri rr = pick li row /\
                   time_le (time_at rt rr) (time_at lt row) = true) right)
    by (apply list_elem_of_filter; split_and!; done).
  pose proof (StronglySorted_filter _ (fun rr => pick ri rr = pick li row /\
                   time_le (time_at rt rr) (time_at lt row) = true) _
                (mapM_sorted_rows _ _ _ Hm Hs)) as Hss.
  destruct (StronglySorted_last _ _ _ Hss Hl rr' Hf) as [->|(x & y & Hx & Hy & Hxy)].
  - apply time_le_true in Hle as (x & y & Hx & _). apply time_le_true. exists x, x. done.
  - apply time_le_true. by exists x, y.
Qed.


(** ** Witnesses *)

Lemma asof_match_latest_witness :
  times_sorted 1 (rows d_asof) = Some [10; 20; 40] /\
  asof_match [1%nat] [0%nat] 2 1 (rows d_asof) [VInt 7; VInt 1; VInt 30] =
    Some [VInt 1; VInt 20; VInt 4] /\
  [VInt 1; VInt 20; VInt 4] ∈ rows d_asof /\
  pick [0%nat] [VInt 1; VInt 20; VInt 4] = pick [1%nat] [VInt 7; VInt 1; VInt 30] /\
  time_le (time_at 1 [VInt 1; VInt 20; VInt 4]) (time_at 2 [VInt 7; VInt 1; VInt 30]) = true /\
  (forall rr', rr' ∈ rows d_asof -> pick [0%nat] rr' = pick [1%nat] [VInt 7; VInt 1; VInt 30] ->
     time_le (time_at 1 rr') (time_at 2 [VInt 7; VInt 1; VInt 30]) = true ->
     time_le (time_at 1 rr') (time_at 1 [VInt 1; VInt 20; VInt 4]) = true).
Proof.
  split; [vm_compute; reflexivity|]. split; [vm_compute; reflexivity|].
  apply (asof_match_latest _ _ _ _ _ [10; 20; 40]); vm_compute; reflexivity.
Defined.

