(* ===== verification/Merge.v ===== *)
(** * BaseFeatures and the Feature Merger

    Models features/base_features.py ([IDS], [USER_FEATURES],
    [POST_FEATURES] and [BaseFeatures.extract_feature], a projection) and
    features/merge_features.py ([merge_features], lines 51-72): for every
    feature group of [FEATURE_DEFINITIONS], in order, its key
    [FEATURES[group]] (a [KeyError] when the group has none), then for
    every feature file of the group: the first table read seeds the
    result, and each later one is left-merged on the group's key; a
    result that has zero rows is replaced by the next table instead of
    merged with it ([if len(df) == 0: df = temp_df]).  The parquet
    reads are the function [load] from a feature name to its table. *)

From S2P Require Import Prelude Table.
From stdpp Require Import strings.

Open Scope string_scope.

Definition IDS : list string := ["trackable_id"; "user_id"; "tracker_created_at"].

Definition USER_FEATURES : list string :=
  ["user_is_mom"; "user_is_pregnant"; "user_is_trying"; "user_country_code";
   "days_since_user_account_creation"; "user_pregnancy_current_day";
   "user_pregnancy_current_week"; "user_pregnancy_current_month";
   "user_pregnancy_current_trimester"; "platform"; "user_followings_count";
   "user_posts_count"; "user_received_comments_count"; "user_pictures_count";
   "user_likes_count"; "user_children_count"; "user_department"].

Definition POST_FEATURES : list string :=
  ["post_age_in_minutes"; "author_children_count"; "post_comments_count";
   "post_likes_count"; "survey_answers_count"; "has_picture"; "has_text";
   "has_video"; "author_department"; "author_age"; "author_amenorrhea_week"].

Definition LABEL : list string := ["has_been_opened"].

(** [BaseFeatures.extract_feature(df)]: [df[IDS + USER_FEATURES + POST_FEATURES]]. *)
Definition base_features (df : Table) : option Table :=
  project df (IDS ++ USER_FEATURES ++ POST_FEATURES).

(** [FEATURES[feature_group]]: the first binding of a key. *)
Fixpoint assoc_lookup (k : string) (m : list (string * list string)) : option (list string) :=
  match m with
  | [] => None
  | (k', v) :: m' => if decide (k = k') then Some v else assoc_lookup k m'
  end.

(** The body of the inner loop. *)
Definition merge_step (key : list string) (df temp : Table) : option Table :=
  if decide (length (rows df) = 0%nat) then Some temp else left_merge df temp key.

(** [for feature in features: ...] *)
Fixpoint merge_group (key : list string) (load : string -> Table) (feats : list string)
    (df : Table) : option Table :=
  match feats with
  | [] => Some df
  | f :: fs => df' ← merge_step key df (load f); merge_group key load fs df'
  end.

(** [for feature_group, features in FEATURE_DEFINITIONS.items(): ...] *)
Fixpoint merge_all (defs features : list (string * list string)) (load : string -> Table)
    (df : Table) : option Table :=
  match defs with
  | [] => Some df
  | (g, fs) :: defs' =>
      key ← assoc_lookup g features;
      df' ← merge_group key load fs df;
      merge_all defs' features load df'
  end.

(** [merge_features]: the table written to features.parquet. *)
Definition merge_features (defs features : list (string * list string))
    (load : string -> Table) : option Table :=
  merge_all defs features load empty_table.

(** A feature store with the two sample tables of Table.v, and the
    configuration merging them (base features on the three ids, post
    popularity on post and time). *)
Definition sample_load (name : string) : Table :=
  if decide (name = "base_features") then feat_base
  else if decide (name = "post_popularity_1d") then feat_pop
  else mkTable (cols feat_pop) [].

Definition sample_defs : list (string * list string) :=
  [("base", ["base_features"]); ("post_popularity", ["post_popularity_1d"])].

Definition sample_features : list (string * list string) :=
  [("base", IDS); ("post_popularity", post_time_key)].

(** The columns of the merged table when the seed has rows: one left
    merge per file, each with its group's key. *)
Fixpoint group_cols (key : list string) (tcs : list (list string)) (cs : list string) : list string :=
  match tcs with
  | [] => cs
  | tc :: tcs' => group_cols key tcs' (merged_cols cs tc key)
  end.

Fixpoint all_cols (defs features : list (string * list string)) (cols_of : string -> list string)
    (cs : list string) : list string :=
  match defs with
  | [] => cs
  | (g, fs) :: defs' =>
      match assoc_lookup g features with
      | Some key => all_cols defs' features cols_of (group_cols key (cols_of <$> fs) cs)
      | None => cs
      end
  end.

(** ** Lemmas *)

Lemma merge_step_rows key df temp df' :
  merge_step key df temp = Some df' -> (length (rows df) <= length (rows df'))%nat.
Proof.
  unfold merge_step. case_decide as H0; [intros _; lia|]. apply left_merge_rows_ge.
Qed.

Lemma merge_group_rows key load fs df t :
  merge_group key load fs df = Some t -> (length (rows df) <= length (rows t))%nat.
Proof.
  revert df. induction fs as [|f fs IH]; intros df; simpl; [intros [= ->]; lia|].
  destruct (merge_step key df (load f)) as [df'|] eqn:Hs; simpl; [|discriminate].
  intros Ht. apply merge_step_rows in Hs. apply IH in Ht. lia.
Qed.

Lemma merge_all_rows defs features load df t :
  merge_all defs features load df = Some t -> (length (rows df) <= length (rows t))%nat.
Proof.
  revert df. induction defs as [|[g fs] defs IH]; intros df; simpl; [intros [= ->]; lia|].
  destruct (assoc_lookup g features) as [key|]; simpl; [|discriminate].
  destruct (merge_group key load fs df) as [df'|] eqn:Hg; simpl; [|discriminate].
  intros Ht. apply merge_group_rows in Hg. apply IH in Ht. lia.
Qed.

Lemma merge_all_cons_inv g fs defs features load df key t :
  assoc_lookup g features = Some key -> merge_all ((g, fs) :: defs) features load df = Some t ->
  exists df', merge_group key load fs df = Some df' /\ merge_all defs features load df' = Some t.
Proof.
  intros Hk. simpl. rewrite Hk. simpl.
  destruct (merge_group key load fs df) as [df'|]; simpl; [|discriminate]. intros Ht. by exists df'.
Qed.

Lemma merge_group_cons_inv key load f fs df t :
  merge_group key load (f :: fs) df = Some t ->
  exists df', merge_step key df (load f) = Some df' /\ merge_group key load fs df' = Some t.
Proof.
  simpl. destruct (merge_step key df (load f)) as [df'|]; simpl; [|discriminate]. intros Ht. by exists df'.
Qed.

(** On a non-empty table, a step is a left merge. *)
Lemma merge_step_nonempty key df temp : rows df <> [] -> merge_step key df temp = left_merge df temp key.
Proof. intros H. unfold merge_step. rewrite decide_False; [done|]. intros Hl. by apply H, nil_length_inv. Qed.

(** The merged table depends only on the tables of the files the
    definitions name. *)
Lemma merge_group_ext key load1 load2 feats df :
  (forall f, f ∈ feats -> load1 f = load2 f) ->
  merge_group key load1 feats df = merge_group key load2 feats df.
Proof.
  revert df. induction feats as [|f feats IH]; intros df Hl; [done|]. simpl.
  rewrite Hl by (left; done). destruct (merge_step key df (load2 f)); [|done]. simpl.
  apply IH. intros f' Hf'. apply Hl. by right.
Qed.

Lemma merge_features_ext defs features load1 load2 :
  (forall f, f ∈ mjoin defs.*2 -> load1 f = load2 f) ->
  merge_features defs features load1 = merge_features defs features load2.
Proof.
  unfold merge_features. generalize empty_table.
  induction defs as [|[g fs] defs IH]; intros df Hl; [done|]. simpl.
  destruct (assoc_lookup g features) as [key|]; [|done]. simpl.
  rewrite (merge_group_ext key load1 load2) by (intros f Hf; apply Hl; simpl; apply elem_of_app; by left).
  destruct (merge_group key load2 fs df); [|done]. simpl.
  apply IH. intros f Hf. apply Hl. simpl. apply elem_of_app. by right.
Qed.

(** What a file needs for its merge to succeed and keep the three ids:
    the key columns, and no id column outside the key. *)
Definition mergeable (key : list string) (t : Table) : Prop :=
  Forall (fun c => c ∈ cols t) key /\ Forall (fun c => c ∈ IDS) key /\
  (forall c, c ∈ IDS -> c ∈ cols t -> c ∈ key).

Lemma merge_group_cols key load feats df :
  rows df <> [] -> Forall (fun c => c ∈ cols df) IDS ->
  Forall (fun f => mergeable key (load f)) feats ->
  exists t, merge_group key load feats df = Some t /\ rows t <> [] /\
            Forall (fun c => c ∈ cols t) IDS /\
            cols t = group_cols key ((fun f => cols (load f)) <$> feats) (cols df).
Proof.
  intros Hr Hids Hfs. revert df Hr Hids. induction Hfs as [|f feats (Hk & Hkid & Hc) _ IH]; intros df Hr Hids; simpl.
  - by exists df.
  - unfold merge_step. case_decide as H0; [by destruct (rows df)|].
    assert (Hkl : Forall (fun c => c ∈ cols df) key).
    { apply Forall_forall. intros c Hc'. rewrite Forall_forall in Hids, Hkid. by apply Hids, Hkid. }
    destruct (left_merge_is_Some df (load f) key Hkl Hk) as [t Ht]. rewrite Ht. simpl.
    destruct (IH t) as (t' & -> & Hr' & Hids' & Hc'); [| |].
    + pose proof (left_merge_rows_ge _ _ _ _ Ht). destruct (rows t); [simpl in *; lia|done].
    + rewrite (left_merge_cols _ _ _ _ Ht). apply Forall_forall. intros c Hc'.
      apply merged_cols_keep; [by eapply (Forall_forall _ IDS) in Hids|].
      destruct (decide (c ∈ cols (load f))); [left; by apply Hc|by right].
    + exists t'. split_and!; [done|done|done|]. rewrite Hc'. by rewrite (left_merge_cols _ _ _ _ Ht).
Qed.

Lemma merge_all_cols defs features load df :
  rows df <> [] -> Forall (fun c => c ∈ cols df) IDS ->
  Forall (fun gfs => exists key, assoc_lookup gfs.1 features = Some key /\
                                 Forall (fun f => mergeable key (load f)) gfs.2) defs ->
  exists t, merge_all defs features load df = Some t /\
            cols t = all_cols defs features (fun f => cols (load f)) (cols df).
Proof.
  intros Hr Hids Hdefs. revert df Hr Hids. induction Hdefs as [|[g fs] defs (key & Hk & Hfs) _ IH]; intros df Hr Hids; simpl.
  - by exists df.
  - simpl in Hk, Hfs. rewrite Hk. simpl.
    destruct (merge_group_cols _ _ _ _ Hr Hids Hfs) as (t & -> & Hr' & Hids' & Hc). simpl.
    rewrite <-Hc. by apply IH.
Qed.

Lemma all_cols_ext defs features c1 c2 cs :
  (forall f, f ∈ mjoin defs.*2 -> c1 f = c2 f) -> all_cols defs features c1 cs = all_cols defs features c2 cs.
Proof.
  revert cs. induction defs as [|[g fs] defs IH]; intros cs Hc; [done|]. simpl.
  destruct (assoc_lookup g features); [|done].
  rewrite (list_fmap_ext c1 c2 fs) by (intros i f Hi; apply Hc; simpl; apply elem_of_app; left;
                                         by eapply list_elem_of_lookup_2).
  apply IH. intros f Hf. apply Hc. simpl. apply elem_of_app. by right.
Qed.

(** ** Properties of the merger *)

(** No row lost: the first feature table read seeds the merged
    table, and every later step is a left merge, so features.parquet
    has at least as many rows as that first table. *)
Theorem merge_features_keeps_seed_rows g f fs defs features load t :
  merge_features ((g, f :: fs) :: defs) features load = Some t ->
  (length (rows (load f)) <= length (rows t))%nat.
Proof.
  unfold merge_features. simpl.
  destruct (assoc_lookup g features) as [key|]; simpl; [|discriminate].
  destruct (merge_group key load fs (load f)) as [df'|] eqn:Hg; simpl; [|discriminate].
  intros Ht. apply merge_group_rows in Hg. apply merge_all_rows in Ht. lia.
Qed.


Lemma merge_features_keeps_seed_rows_witness :
  merge_features (("base", ["base_features"]) :: [("post_popularity", ["post_popularity_1d"])])
    sample_features sample_load =
    Some (mkTable ["trackable_id"; "user_id"; "tracker_created_at"; "user_is_mom";
                   "post_last_1d_views_count"]
                  [[VInt 7; VInt 1; VInt 100; VBool true; VInt 0];
                   [VInt 8; VInt 2; VInt 200; VBool false; VNull]]) /\
  (length (rows (sample_load "base_features")) <= 2)%nat.
Proof.
  assert (H : merge_features (("base", ["base_features"]) :: [("post_popularity", ["post_popularity_1d"])])
    sample_features sample_load =
    Some (mkTable ["trackable_id"; "user_id"; "tracker_created_at"; "user_is_mom";
                   "post_last_1d_views_count"]
                  [[VInt 7; VInt 1; VInt 100; VBool true; VInt 0];
                   [VInt 8; VInt 2; VInt 200; VBool false; VNull]])) by (vm_compute; reflexivity).
  split; [exact H|]. exact (merge_features_keeps_seed_rows _ _ _ _ _ _ _ H).
Defined.

