(* ===== verification/Storage.v ===== *)
(** * Parquet files: the splits written by [make_dataset] and read back

    The stages of the pipeline exchange tables through parquet files in
    two directories, written with [DataFrame.to_parquet] and read with
    [pd.read_parquet] (or, for the column names only,
    [fastparquet.ParquetFile(path).columns]).  A directory is a
    [Files] store: the tables written, in order, under their file
    names without ".parquet"; a read returns the last table written
    under the name ([read_parquet]), a missing file is a
    [FileNotFoundError] ([None]).  This file models
    - the frames [make_dataset] writes (data/make_dataset.py, lines
      111-193): the train and eval splits as [col_to_keep] frames of
      their rows ([split_frame]), and the test frame, whose synthesized
      negatives carry the integer 0 and its positive seeds the boolean
      [True] in [has_been_opened] ([test_frame]);
    - the three writes ([save_splits], the first two of which are
      [save_train_eval]) and the sanity check that reads
      them back and counts rows and distinct users (lines 195-204,
      [sanity_check], [nunique]);
    - [load_datasets] and [load_features] of utils.py (lines 22-30).
    Whether pyarrow stores a column holding both booleans and integers
    is outside the model: a table is stored as its cells. *)

From S2P Require Import Prelude Events Dataset Table.
From stdpp Require Import strings.

Open Scope Z_scope.

(** ** Files *)

(** A directory: the tables written, under their names, in order. *)
Definition Files := list (string * Table).

(** [t.to_parquet(os.path.join(root, f"{name}.parquet"))] *)
Definition to_parquet (fs : Files) (name : string) (t : Table) : Files := fs ++ [(name, t)].

(** [pd.read_parquet(os.path.join(root, f"{name}.parquet"))] *)
Definition read_parquet (fs : Files) (name : string) : option Table :=
  snd <$> last (filter (fun nt => nt.1 = name) fs).

(** ** The split frames of make_dataset *)

(** [col_to_keep] (line 111) *)
Definition col_to_keep : list string :=
  ["trackable_id"; "user_id"; "tracker_created_at"; "has_been_opened"]%string.

(** A split row as the cells of its frame row. *)
Definition split_cells (r : SplitRow) : list Val :=
  [VInt (row_trackable_id r); VInt (row_user_id r); VInt (row_tracker_created_at r);
   VBool (row_has_been_opened r)].

(** [df[...][col_to_keep]] of the train and eval splits. *)
Definition split_frame (rs : list SplitRow) : Table := mkTable col_to_keep (split_cells <$> rs).

(** A record appended to [pos_and_neg] (lines 179-184): the label is the
    integer 0. *)
Definition neg_cells (r : SplitRow) : list Val :=
  [VInt (row_trackable_id r); VInt (row_user_id r); VInt (row_tracker_created_at r); VInt 0].

(** The [tracker_created_at] cell of a frame row. *)
Definition frame_time (r : list Val) : Z :=
  match r !! 2%nat with
  | Some (VInt z) => z
  | _ => 0
  end.

(** [pd.concat([pos_testset[col_to_keep], pd.DataFrame(pos_and_neg)])]
    filtered on [tracker_created_at >= TEST_START_DATE] (lines 186-193). *)
Definition test_frame (c : Config) (df : list Event) : Table :=
  let tw := test_window c df in
  mkTable col_to_keep
    (filter (fun r => test_start_date c <= frame_time r)
            ((split_cells ∘ keep_cols <$> pos_testset tw) ++ (neg_cells <$> pos_and_neg tw))).

(** The first two [to_parquet] calls (lines 135 and 142-145), made
    before the test split is computed. *)
Definition save_train_eval (c : Config) (df : list Event) (fs : Files) : Files :=
  let fs := to_parquet fs "train" (split_frame (make_trainset c df)) in
  to_parquet fs "eval" (split_frame (make_evalset c df)).

(** The three [to_parquet] calls (lines 135, 145, 193). *)
Definition save_splits (c : Config) (df : list Event) (fs : Files) : Files :=
  to_parquet (save_train_eval c df fs) "test" (test_frame c df).

(** [df.user_id.nunique()]: distinct non-NaN cells of a column. *)
Definition nunique (t : Table) (c : string) : option nat :=
  i ← col_index c (cols t);
  Some (length (remove_dups (filter (fun v => v <> VNull)
                                    ((fun r => default VNull (r !! i)) <$> rows t)))).

(** The sanity check (lines 195-204): size and distinct users of each
    split read back. *)
Definition sanity_check (fs : Files) : option (list (nat * nat)) :=
  mapM (fun name => t ← read_parquet fs name; u ← nunique t "user_id"; Some (length (rows t), u))
       ["train"; "eval"; "test"]%string.

(** ** utils.py *)

(** [load_features()] *)
Definition load_features (fs : Files) : option Table := read_parquet fs "features".

(** [load_datasets()]: the train, eval and test frames. *)
Definition load_datasets (fs : Files) : option (Table * Table * Table) :=
  tr ← read_parquet fs "train";
  ev ← read_parquet fs "eval";
  te ← read_parquet fs "test";
  Some (tr, ev, te).

(** The cells a test row is stored with: an opened seed keeps its
    boolean label, a synthesized negative has the integer 0. *)
Definition test_cells (r : SplitRow) : list Val :=
  [VInt (row_trackable_id r); VInt (row_user_id r); VInt (row_tracker_created_at r);
   if row_has_been_opened r then VBool true else VInt 0].

(** ** Lemmas *)

Lemma read_parquet_written fs n t : read_parquet (to_parquet fs n t) n = Some t.
Proof.
  unfold read_parquet, to_parquet, Files. rewrite filter_app, filter_cons_True by done.
  by rewrite filter_nil, last_app, last_singleton.
Qed.

Lemma read_parquet_other fs n n' t : n' <> n -> read_parquet (to_parquet fs n t) n' = read_parquet fs n'.
Proof.
  intros Hn. unfold read_parquet, to_parquet, Files. rewrite filter_app, filter_cons_False by done.
  by rewrite filter_nil, app_nil_r.
Qed.

(** A file read back is one of the files written under that name. *)
Lemma read_parquet_elem fs n t : read_parquet fs n = Some t -> (n, t) ∈ fs.
Proof.
  unfold read_parquet. intros ([n' t'] & Hl & [= ->])%fmap_Some.
  apply last_Some_elem_of, list_elem_of_filter in Hl as [Hn Hin]. by simpl in Hn; subst.
Qed.

(** When no name is written twice, every file written is read back. *)
Lemma read_parquet_NoDup fs n t : NoDup fs.*1 -> (n, t) ∈ fs -> read_parquet fs n = Some t.
Proof.
  intros Hnd Hin. unfold read_parquet. replace (filter _ fs) with [(n, t)]; [done|symmetry].
  { induction fs as [|[n' t'] fs IH]; [by apply elem_of_nil in Hin|].
    apply NoDup_cons in Hnd as [Hn' Hnd]. apply elem_of_cons in Hin as [[= -> ->]|Hin].
    - rewrite filter_cons_True by done. f_equal. apply filter_all_false, Forall_forall.
      intros [n'' t''] Hx Heq. simpl in Heq. apply Hn', list_elem_of_fmap.
      exists (n'', t''). split; [simpl; by rewrite Heq|exact Hx].
    - rewrite filter_cons_False; [by apply IH|]. simpl. intros Heq.
      apply Hn', list_elem_of_fmap. exists (n, t). split; [done|exact Hin]. }
Qed.

(** Files appended under other names do not change what a name reads. *)
Lemma read_parquet_app_other fs new n : n ∉ new.*1 -> read_parquet (fs ++ new) n = read_parquet fs n.
Proof.
  intros Hn. unfold read_parquet, Files. rewrite filter_app, (filter_all_false _ new), app_nil_r; [done|].
  apply Forall_forall. intros [n' t'] Hin Heq. apply Hn, list_elem_of_fmap. exists (n', t'). by rewrite Heq.
Qed.

(** A name written at least once is read back. *)
Lemma read_parquet_present fs n : n ∈ fs.*1 -> is_Some (read_parquet fs n).
Proof.
  intros ([n' t] & -> & Hin)%list_elem_of_fmap. unfold read_parquet.
  apply fmap_is_Some, last_is_Some. intros Hf.
  by eapply filter_nil_not_elem_of; [exact Hf| |exact Hin].
Qed.

(** A name written again is read from the later writes. *)
Lemma read_parquet_app_in fs new n : n ∈ new.*1 -> read_parquet (fs ++ new) n = read_parquet new n.
Proof.
  intros Hn. pose proof (read_parquet_present new n Hn) as [t Ht]. rewrite Ht. revert Ht.
  unfold read_parquet, Files. rewrite filter_app, last_app.
  destruct (last (filter _ new)); simpl; [done|discriminate].
Qed.

Lemma test_cells_keep_cols e :
  has_been_opened e = true -> test_cells (keep_cols e) = split_cells (keep_cols e).
Proof. intros H. unfold test_cells, split_cells. simpl. by rewrite H. Qed.

Lemma test_cells_neg r : row_has_been_opened r = false -> test_cells r = neg_cells r.
Proof. intros H. unfold test_cells, neg_cells. by rewrite H. Qed.

Lemma nunique_le t c n : nunique t c = Some n -> (n <= length (rows t))%nat.
Proof.
  unfold nunique. destruct (col_index c (cols t)); simpl; [|discriminate]. intros [= <-].
  set (l := filter _ _). transitivity (length l).
  - apply submseteq_length, NoDup_submseteq; [apply NoDup_remove_dups|].
    intros v. by rewrite elem_of_remove_dups.
  - etrans; [apply length_filter|]. by rewrite length_fmap.
Qed.

(** The test frame holds the rows of [make_testset], each with its
    stored label cell. *)
Lemma test_frame_eq c df : test_frame c df = mkTable col_to_keep (test_cells <$> make_testset c df).
Proof.
  unfold test_frame, make_testset. f_equal.
  set (tw := test_window c df).
  assert (Hl : (split_cells ∘ keep_cols <$> pos_testset tw) ++ (neg_cells <$> pos_and_neg tw) =
               test_cells <$> ((keep_cols <$> pos_testset tw) ++ pos_and_neg tw)).
  { rewrite fmap_app, <-list_fmap_compose. f_equal.
    - apply Forall_fmap_ext_1, Forall_forall. intros e He.
      apply list_elem_of_filter in He as [[Ho _] _]. symmetry. by apply test_cells_keep_cols.
    - apply Forall_fmap_ext_1, Forall_forall. intros r (e & p & _ & _ & ->)%pos_and_neg_elem.
      symmetry. by apply test_cells_neg. }
  by rewrite Hl, filter_fmap_comm.
Qed.

(** Each split is read back as written, whatever the directory held. *)
Lemma read_save_splits c df fs :
  read_parquet (save_splits c df fs) "train" = Some (split_frame (make_trainset c df)) /\
  read_parquet (save_splits c df fs) "eval" = Some (split_frame (make_evalset c df)) /\
  read_parquet (save_splits c df fs) "test" = Some (test_frame c df).
Proof.
  unfold save_splits, save_train_eval.
  rewrite !(read_parquet_other _ "test"), (read_parquet_other _ "eval" "train") by discriminate.
  by rewrite !read_parquet_written.
Qed.

(** The splits are still read back after features.parquet is written
    to the same directory. *)
Lemma load_datasets_saved c df fs W :
  load_datasets (to_parquet (save_splits c df fs) "features" W) =
    Some (split_frame (make_trainset c df), split_frame (make_evalset c df), test_frame c df).
Proof.
  destruct (read_save_splits c df fs) as (H1 & H2 & H3). unfold load_datasets.
  rewrite !(read_parquet_other _ "features") by discriminate. by rewrite H1, H2, H3.
Qed.

Lemma nunique_split_frame (rs : list (list Val)) :
  nunique (mkTable col_to_keep rs) "user_id" =
    Some (length (remove_dups (filter (fun v => v <> VNull) ((fun r => default VNull (r !! 1%nat)) <$> rs)))).
Proof. reflexivity. Qed.

Lemma nunique_split_le (rs : list (list Val)) :
  (length (remove_dups (filter (fun v => v <> VNull) ((fun r => default VNull (r !! 1%nat)) <$> rs)))
   <= length rs)%nat.
Proof. apply (nunique_le (mkTable col_to_keep rs) "user_id"). apply nunique_split_frame. Qed.

(** ** Properties *)



(** the sanity check never raises: after the writes, reading the
    three files back and counting distinct users succeeds; it reports
    the size of each split and a user count at most that size. *)
Theorem sanity_check_save_splits c df fs :
  exists u1 u2 u3,
    sanity_check (save_splits c df fs) =
      Some [(length (make_trainset c df), u1); (length (make_evalset c df), u2);
            (length (make_testset c df), u3)] /\
    (u1 <= length (make_trainset c df) /\ u2 <= length (make_evalset c df) /\
     u3 <= length (make_testset c df))%nat.
Proof.
  destruct (read_save_splits c df fs) as (H1 & H2 & H3). rewrite test_frame_eq in H3.
  unfold sanity_check. cbn [mapM]. rewrite H1, H2, H3. cbn [mbind option_bind].
  unfold split_frame. rewrite !nunique_split_frame. cbn [rows]. rewrite !length_fmap.
  eexists _, _, _. split; [reflexivity|].
  split_and!; (etrans; [apply nunique_split_le|]; by rewrite length_fmap).
Qed.
