(* ===== verification/Features.v ===== *)
(** * Feature registry: the extractor interface, [build_features] and the wide table

    Models features/build_features.py ([FEATURE_DICT] and
    [build_features], lines 19-54 of that file) and the common interface
    of the four extractor classes [BaseFeatures], [ExtraFeatures],
    [PostPopularity] and [UserPostPopularity].  Their base class
    [Feature] (features/feature.py) is not among the sources; its
    contract is the spec's: an extractor maps the event frame to the
    feature tables it writes, each under its file name.  It is the type
    class [Feature], whose laws ([FeatureLaws]) are what the registry's
    theorems use; each extractor class is an instance.

    [build_features] calls every extractor of the registry with the same
    DataFrame [df]; [ExtraFeatures] adds columns to that shared frame in
    place, so the extractors are run with explicit state passing of the
    frame ([run_extractors]).  The files written are the input of
    [merge_features] (Merge.v), under the configuration [FEATURE_DEFINITIONS]
    and [FEATURES] of config.yml, which is not in the sources and is
    taken from the spec's key declarations (user-post features on the
    three ids, post features on post and time). *)

From S2P Require Import Prelude Events Rolling Extra Table Merge Storage.
From stdpp Require Import strings.

Open Scope Z_scope.

(** ** Cells of the feature tables *)

Definition ids_cells (e : Event) : list Val :=
  [VInt (trackable_id e); VInt (user_id e); VInt (tracker_created_at e)].

(** [len], [sum] and [sum/len] as stored in the parquet files. *)
Definition stats_cells (s : Stats) : list Val :=
  [VInt (Z.of_nat (views_count s)); VInt (Z.of_nat (clicks_count s)); VNum (ratio s)].

Definition stats_cols (prefix label : string) : list string :=
  [(prefix +:+ label +:+ "_views_count")%string; (prefix +:+ label +:+ "_clicks_count")%string;
   (prefix +:+ label +:+ "_ratio")%string].

Definition EXTRA_COLS : list string :=
  ["author_has_same_age_children"; "author_has_same_age_month_children";
   "author_has_older_children"]%string.

Definition extra_flags (r : ExtraRow) : list Val :=
  [VBool (extra_same_age r); VBool (extra_same_age_month r); VBool (extra_older r)].

Definition extra_row_cells (r : ExtraRow) : list Val :=
  let '(p, u, t) := extra_ids r in [VInt p; VInt u; VInt t] ++ extra_flags r.

(** [df[IDS + EXTRA_COLS]] *)
Definition extra_table (df : list Event) : Table :=
  mkTable (IDS ++ EXTRA_COLS) (extra_row_cells <$> extra_features df).

(** The window labels of [windows=["1d", "7d", "28d"]], in the order of
    [WINDOWS]. *)
Definition WINDOW_LABELS : list string := ["1d"; "7d"; "28d"]%string.

(** [add_post_past_popularity(window)] as written to parquet: the index
    (trackable_id, tracker_created_at) then the three aggregates. *)
Definition post_row (r : Z * Z * Stats) : list Val :=
  [VInt r.1.1; VInt r.1.2] ++ stats_cells r.2.

Definition post_table (label : string) (w : Z) (df : list Event) : Table :=
  mkTable (["trackable_id"; "tracker_created_at"]%string ++ stats_cols "post_last_" label)
          (post_row <$> rolling post_key w df).

(** The user-post table after [reset_index()]: the two group keys, the
    time, then the aggregates. *)
Definition user_post_row (r : (Z * Z) * Z * Stats) : list Val :=
  [VInt r.1.1.1; VInt r.1.1.2; VInt r.1.2] ++ stats_cells r.2.

Definition user_post_table (label : string) (w : Z) (df : list Event) : Table :=
  mkTable (IDS ++ stats_cols "user_post_last_" label)
          (user_post_row <$> rolling user_post_key w df).

(** ** The shared DataFrame and the extractor interface *)

(** The DataFrame [df] returned by [load_data]: its rows as typed events
    (the columns the extractors compute with) and as cells (the columns
    [BaseFeatures] copies). *)
Record Frame := mkFrame {
  events : list Event;
  frame : Table
}.

(** The two views describe the same rows, and the frame has the columns
    [BaseFeatures] selects. *)
Definition frame_ok (fr : Frame) : Prop :=
  table_wf (frame fr) /\ length (rows (frame fr)) = length (events fr) /\
  Forall (fun c => c ∈ cols (frame fr)) (IDS ++ USER_FEATURES ++ POST_FEATURES).

(** The id cells of the frame's rows are the ids of its events (true of
    the frame [load_data] reads, whose typed events are its rows). *)
Definition frame_ids_ok (fr : Frame) : Prop :=
  exists idxs, mapM (fun c => col_index c (cols (frame fr))) IDS = Some idxs /\
    Forall2 (fun r e => pick idxs r = ids_cells e) (rows (frame fr)) (events fr).

(** [cls.extract_feature(df, save=True)]: the frame after the call (the
    argument is shared and may be changed in place) and the files
    written; [None] is an exception ([KeyError]). *)
Class Feature (F : Type) := {
  extract_feature : F -> Frame -> option (Frame * Files)
}.

Definition Extractor := Frame -> option (Frame * Files).

(** What the registry relies on: an extractor keeps the frame's
    invariant and its events, and writes well-formed tables. *)
Definition extractor_ok (f : Extractor) : Prop :=
  forall fr fr' fs, frame_ok fr -> f fr = Some (fr', fs) ->
    frame_ok fr' /\ events fr' = events fr /\ Forall (fun nt => table_wf nt.2) fs.

Class FeatureLaws (F : Type) `{!Feature F} := {
  extract_ok : forall x : F, extractor_ok (extract_feature x)
}.

Inductive BaseFeatures := BaseFeaturesCls.
Inductive ExtraFeatures := ExtraFeaturesCls.
Inductive PostPopularity := PostPopularityCls.
Inductive UserPostPopularity := UserPostPopularityCls.

#[export] Instance base_feature : Feature BaseFeatures := {
  extract_feature _ fr := t ← base_features (frame fr); Some (fr, [("base_features"%string, t)])
}.

(** [ExtraFeatures] assigns four columns of [df] in place
    ([df["user_children_age_year"] = ...] and the three booleans) and
    writes [df[IDS + EXTRA_COLS]]. *)
Definition extra_frame (fr : Frame) : Frame :=
  mkFrame (events fr)
    (mkTable (cols (frame fr) ++ "user_children_age_year"%string :: EXTRA_COLS)
       (zip_with (fun r e => r ++ VList (user_children_age_year e) :: extra_flags (extra_row e))
                 (rows (frame fr)) (events fr))).

#[export] Instance extra_feature : Feature ExtraFeatures := {
  extract_feature _ fr := Some (extra_frame fr, [("extra_features"%string, extra_table (events fr))])
}.

#[export] Instance post_feature : Feature PostPopularity := {
  extract_feature _ fr :=
    Some (fr, zip_with (fun label w => (("post_popularity_" +:+ label)%string, post_table label w (events fr)))
                       WINDOW_LABELS WINDOWS)
}.

#[export] Instance user_post_feature : Feature UserPostPopularity := {
  extract_feature _ fr :=
    Some (fr, zip_with (fun label w => (("user_post_popularity_" +:+ label)%string,
                                         user_post_table label w (events fr)))
                       WINDOW_LABELS WINDOWS)
}.

(** [FEATURE_DICT]: the registry, an ordered map from group name to
    extractor. *)

Definition FEATURE_DICT : list (string * Extractor) :=
  [("base_features"%string, extract_feature BaseFeaturesCls);
   ("extra_features"%string, extract_feature ExtraFeaturesCls);
   ("post_popularity"%string, extract_feature PostPopularityCls);
   ("user_post_popularity"%string, extract_feature UserPostPopularityCls)].

(** [for feature in FEATURE_DICT.values(): feature.extract_feature(df, save=True)],
    threading the shared [df]. *)
Fixpoint run_extractors (reg : list (string * Extractor)) (fr : Frame) : option Files :=
  match reg with
  | [] => Some []
  | (_, f) :: reg' => '(fr', fs) ← f fr; fs' ← run_extractors reg' fr'; Some (fs ++ fs')
  end.

Definition build_features (df : Frame) : option Files := run_extractors FEATURE_DICT df.

(** [pd.read_parquet(os.path.join(INTERIM_ROOT, f"{name}.parquet"))]:
    the last file written under that name (a missing file is read as
    an empty table; the configured names are all written). *)
Definition read_file (fs : Files) (name : string) : Table :=
  default empty_table (read_parquet fs name).

(** config.yml's [feature_definitions] and [features] (taken from the spec). *)
Definition FEATURE_DEFINITIONS : list (string * list string) :=
  [("base_features", ["base_features"]); ("extra_features", ["extra_features"]);
   ("post_popularity", ["post_popularity_1d"; "post_popularity_7d"; "post_popularity_28d"]);
   ("user_post_popularity",
      ["user_post_popularity_1d"; "user_post_popularity_7d"; "user_post_popularity_28d"])]%string.

Definition FEATURES : list (string * list string) :=
  [("base_features", IDS); ("extra_features", IDS);
   ("post_popularity", ["trackable_id"; "tracker_created_at"]);
   ("user_post_popularity", IDS)]%string.

(** build_features then merge_features: the table of features.parquet. *)
Definition wide_table (df : Frame) : option Table :=
  fs ← build_features df; merge_features FEATURE_DEFINITIONS FEATURES (read_file fs).

(** The files [build_features] writes, in order. *)
Definition FILE_NAMES : list string :=
  ["base_features"; "extra_features"; "post_popularity_1d"; "post_popularity_7d";
   "post_popularity_28d"; "user_post_popularity_1d"; "user_post_popularity_7d";
   "user_post_popularity_28d"]%string.

(** The columns of each file [build_features] writes. *)
Definition FILE_COLS : list (string * list string) :=
  [("base_features"%string, IDS ++ USER_FEATURES ++ POST_FEATURES); ("extra_features"%string, IDS ++ EXTRA_COLS)] ++
  ((fun label => (("post_popularity_" +:+ label)%string,
                  ["trackable_id"; "tracker_created_at"]%string ++ stats_cols "post_last_" label)) <$> WINDOW_LABELS) ++
  ((fun label => (("user_post_popularity_" +:+ label)%string, IDS ++ stats_cols "user_post_last_" label))
     <$> WINDOW_LABELS).

Definition file_cols (name : string) : list string := default [] (assoc_lookup name FILE_COLS).

(** The columns of features.parquet when the log has an event: the base
    table's, then those each left merge adds. *)
Definition WIDE_COLS : list string :=
  all_cols (drop 1 FEATURE_DEFINITIONS) FEATURES file_cols (IDS ++ USER_FEATURES ++ POST_FEATURES).

(** The frame of a log whose 28 profile columns are all NaN. *)
Definition raw_row (e : Event) : list Val :=
  ids_cells e ++ replicate (length (USER_FEATURES ++ POST_FEATURES)) VNull.

Definition frame_of (df : list Event) : Frame :=
  mkFrame df (mkTable (IDS ++ USER_FEATURES ++ POST_FEATURES) (raw_row <$> df)).

(** ** The extractors satisfy the interface *)

Lemma extra_table_wf df : table_wf (extra_table df).
Proof.
  unfold table_wf, extra_table. cbn [rows cols]. apply Forall_fmap, Forall_forall. intros r _.
  unfold compose, extra_row_cells. by destruct (extra_ids r) as [[p u] t].
Qed.

Lemma post_table_wf label w df : table_wf (post_table label w df).
Proof. unfold table_wf, post_table. cbn [rows cols]. apply Forall_fmap, Forall_forall. by intros r _. Qed.

Lemma user_post_table_wf label w df : table_wf (user_post_table label w df).
Proof. unfold table_wf, user_post_table. cbn [rows cols]. apply Forall_fmap, Forall_forall. by intros r _. Qed.

#[export] Hint Resolve extra_table_wf post_table_wf user_post_table_wf Forall_nil_2 : wemoms.

Lemma extra_frame_ok fr : frame_ok fr -> frame_ok (extra_frame fr).
Proof.
  intros (Hwf & Hlen & Hcols). unfold extra_frame, frame_ok, table_wf in *. simpl. split_and!.
  - eapply Forall_zip_with_fst; [exact Hwf|].
    apply Forall_forall. intros e _ r Hr. rewrite !length_app. simpl. lia.
  - rewrite length_zip_with. lia.
  - apply Forall_forall. intros c Hc. apply elem_of_app. left.
    by eapply (Forall_forall _ (IDS ++ USER_FEATURES ++ POST_FEATURES)) in Hcols.
Qed.

#[export] Instance base_feature_laws : FeatureLaws BaseFeatures.
Proof.
  constructor. intros [] fr fr' fs Hok. simpl.
  destruct (base_features (frame fr)) as [t|] eqn:Ht; simpl; [|discriminate].
  intros [= <- <-]. split_and!; [done|done|]. repeat constructor.
  apply (project_Some _ _ _ Ht).
Qed.

#[export] Instance extra_feature_laws : FeatureLaws ExtraFeatures.
Proof.
  constructor. intros [] fr fr' fs Hok. simpl. intros [= <- <-].
  split_and!; [by apply extra_frame_ok|done|]. repeat apply Forall_cons_2; simpl; auto with wemoms.
Qed.

#[export] Instance post_feature_laws : FeatureLaws PostPopularity.
Proof.
  constructor. intros [] fr fr' fs Hok. simpl. intros [= <- <-].
  split_and!; [done|done|]. repeat apply Forall_cons_2; simpl; auto with wemoms.
Qed.

#[export] Instance user_post_feature_laws : FeatureLaws UserPostPopularity.
Proof.
  constructor. intros [] fr fr' fs Hok. simpl. intros [= <- <-].
  split_and!; [done|done|]. repeat apply Forall_cons_2; simpl; auto with wemoms.
Qed.

(** ** The registry, proved against the interface *)

Lemma run_extractors_ok reg fr fs :
  Forall (fun nf => extractor_ok nf.2) reg -> frame_ok fr -> run_extractors reg fr = Some fs ->
  Forall (fun nt => table_wf nt.2) fs.
Proof.
  intros Hreg. revert fr fs. induction Hreg as [|[n f] reg Hf _ IH]; intros fr fs Hok; simpl.
  - by intros [= <-].
  - destruct (f fr) as [[fr' fs1]|] eqn:Hx; simpl; [|discriminate].
    destruct (run_extractors reg fr') as [fs2|] eqn:Hr; simpl; [|discriminate]. intros [= <-].
    destruct (Hf _ _ _ Hok Hx) as (Hok' & _ & Hw). apply Forall_app. split; [done|].
    by apply (IH fr').
Qed.

Lemma FEATURE_DICT_ok : Forall (fun nf => extractor_ok nf.2) FEATURE_DICT.
Proof. repeat (constructor; [apply extract_ok|]). constructor. Qed.

(** On a frame with the selected columns, [build_features] writes the
    base table, the extra table and one table per window and entity. *)
Lemma build_features_files df :
  frame_ok df -> exists B, base_features (frame df) = Some B /\
  build_features df = Some ([("base_features"%string, B); ("extra_features"%string, extra_table (events df))] ++
    zip_with (fun label w => (("post_popularity_" +:+ label)%string, post_table label w (events df)))
             WINDOW_LABELS WINDOWS ++
    zip_with (fun label w => (("user_post_popularity_" +:+ label)%string, user_post_table label w (events df)))
             WINDOW_LABELS WINDOWS).
Proof.
  intros (_ & _ & Hcols). destruct (project_is_Some _ _ Hcols) as [B HB].
  exists B. split; [exact HB|]. unfold build_features. simpl. unfold base_features. rewrite HB. reflexivity.
Qed.

(** Whenever [build_features] succeeds, it writes the eight files, each
    once. *)
Lemma build_features_names df fs : build_features df = Some fs -> fs.*1 = FILE_NAMES.
Proof.
  unfold build_features. simpl. destruct (base_features (frame df)); simpl; [|discriminate].
  by intros [= <-].
Qed.

Lemma FEATURE_DEFINITIONS_files : mjoin (FEATURE_DEFINITIONS.*2) = FILE_NAMES.
Proof. reflexivity. Qed.

Lemma FILE_NAMES_NoDup : NoDup FILE_NAMES.
Proof. apply (bool_decide_unpack _). vm_compute. exact I. Qed.

(** ** The wide table *)

(** The merged table has [n] rows and, when [n > 0], the three ids. *)
Definition wide_inv (n : nat) (df : Table) : Prop :=
  length (rows df) = n /\ (n <> 0%nat -> Forall (fun c => c ∈ cols df) IDS).

(** A feature file with [n] rows, unique keys among the ids, and no
    other id column: merging it on [key] keeps the invariant. *)
Definition file_ok (n : nat) (key : list string) (t : Table) : Prop :=
  length (rows t) = n /\ Forall (fun c => c ∈ cols t) key /\ Forall (fun c => c ∈ IDS) key /\
  NoDup (key_of t key <$> rows t) /\ (forall c, c ∈ IDS -> c ∈ cols t -> c ∈ key).

Lemma merge_step_inv n key df temp :
  wide_inv n df -> file_ok n key temp ->
  exists t, merge_step key df temp = Some t /\ wide_inv n t.
Proof.
  intros [Hn Hids] (Hm & Hk & Hkid & Hnd & Hc). unfold merge_step. case_decide as H0.
  - exists temp. split; [done|]. split; [lia|]. intros Hn0. lia.
  - assert (Hn0 : n <> 0%nat) by lia. specialize (Hids Hn0).
    assert (Hkl : Forall (fun c => c ∈ cols df) key).
    { apply Forall_forall. intros c Hc'. rewrite Forall_forall in Hids, Hkid. by apply Hids, Hkid. }
    destruct (left_merge_is_Some df temp key Hkl Hk) as [t Ht].
    exists t. split; [exact Ht|]. split.
    + pose proof (left_merge_unique_rows _ _ _ _ Ht Hnd) as H2%Forall2_length. lia.
    + intros _. rewrite (left_merge_cols _ _ _ _ Ht). apply Forall_forall. intros c Hc'.
      apply merged_cols_keep; [by eapply (Forall_forall _ IDS) in Hids|].
      destruct (decide (c ∈ cols temp)); [left; by apply Hc|by right].
Qed.

Lemma merge_group_inv n key load feats df :
  wide_inv n df -> Forall (fun f => file_ok n key (load f)) feats ->
  exists t, merge_group key load feats df = Some t /\ wide_inv n t.
Proof.
  intros Hdf Hfs. revert df Hdf. induction Hfs as [|f feats Hf _ IH]; intros df Hdf; simpl.
  - by exists df.
  - destruct (merge_step_inv _ _ _ _ Hdf Hf) as (t & -> & Ht). simpl. by apply IH.
Qed.

Lemma merge_all_inv n defs features load df :
  wide_inv n df ->
  Forall (fun gfs => exists key, assoc_lookup gfs.1 features = Some key /\
                                 Forall (fun f => file_ok n key (load f)) gfs.2) defs ->
  exists t, merge_all defs features load df = Some t /\ wide_inv n t.
Proof.
  intros Hdf Hdefs. revert df Hdf. induction Hdefs as [|[g fs] defs (key & Hk & Hfs) _ IH]; intros df Hdf; simpl.
  - by exists df.
  - simpl in Hk, Hfs. rewrite Hk. simpl.
    destruct (merge_group_inv _ _ _ _ _ Hdf Hfs) as (t & -> & Ht). simpl. by apply IH.
Qed.

(** The extra table is key-unique on a frame whose event keys are. *)
Lemma extra_file_ok df : NoDup (event_key <$> df) -> file_ok (length df) IDS (extra_table df).
Proof.
  intros Hek. split_and!.
  - unfold extra_table, extra_features. simpl. by rewrite !length_fmap.
  - repeat constructor; cbn; rewrite ?elem_of_cons; tauto.
  - repeat constructor; cbn; rewrite ?elem_of_cons; tauto.
  - unfold extra_table, extra_features. cbn [rows]. rewrite <- !list_fmap_compose.
    apply (NoDup_fmap_coarser _ _ _ Hek).
    intros x y. unfold compose. cbn. unfold event_key. by intros [= -> -> ->].
  - by intros c Hc _.
Qed.

(** ** The files are key-unique on a frame without simultaneous views *)

Section FilesOk.
Context (df : list Event).
Hypothesis Hnd : NoDup ((fun e => (trackable_id e, tracker_created_at e)) <$> df).

Lemma event_key_NoDup : NoDup (event_key <$> df).
Proof.
  apply (NoDup_fmap_coarser _ _ _ Hnd). unfold event_key. by intros x y [= -> _ ->].
Qed.

Lemma rolling_length {K} `{EqDecision K} (key : Event -> K) w :
  length (rolling key w df) = length df.
Proof.
  pose proof (Permutation_length (rolling_keys_perm key w df)) as H.
  by rewrite !length_fmap in H.
Qed.

Lemma post_file_ok label w :
  file_ok (length df) ["trackable_id"; "tracker_created_at"]%string (post_table label w df).
Proof.
  split_and!.
  - unfold post_table. cbn [rows]. by rewrite length_fmap, rolling_length.
  - repeat constructor; cbn; rewrite ?elem_of_cons; tauto.
  - repeat constructor; cbn; rewrite ?elem_of_cons; tauto.
  - unfold post_table. cbn [rows]. rewrite <- list_fmap_compose.
    apply (NoDup_fmap_coarser _ (fun r : Z * Z * Stats => (r.1.1, r.1.2))).
    + rewrite (rolling_keys_perm post_key w df). exact Hnd.
    + intros [[k t] s] [[k' t'] s']. cbn. by intros [= -> ->].
  - intros c Hc Hcols. unfold IDS in Hc. unfold post_table, stats_cols in Hcols.
    cbn [cols app] in Hcols. rewrite list_elem_of_In in Hc, Hcols |- *. simpl in Hc, Hcols |- *.
    destruct Hc as [<-|[<-|[<-|[]]]]; [tauto| |tauto].
    destruct Hcols as [H|[H|[H|[H|[H|[]]]]]]; discriminate H.
Qed.

Lemma user_post_file_ok label w : file_ok (length df) IDS (user_post_table label w df).
Proof.
  split_and!.
  - unfold user_post_table. cbn [rows]. by rewrite length_fmap, rolling_length.
  - repeat constructor; cbn; rewrite ?elem_of_cons; tauto.
  - repeat constructor; cbn; rewrite ?elem_of_cons; tauto.
  - unfold user_post_table. cbn [rows]. rewrite <- list_fmap_compose.
    apply (NoDup_fmap_coarser _ (fun r : (Z * Z) * Z * Stats => (r.1.1, r.1.2))).
    + rewrite (rolling_keys_perm user_post_key w df).
      apply (NoDup_fmap_coarser _ _ _ event_key_NoDup). unfold event_key, user_post_key.
      by intros x y [= -> -> ->].
    + intros [[[p u] t] s] [[[p' u'] t'] s']. cbn. by intros [= -> -> ->].
  - by intros c Hc _.
Qed.

End FilesOk.

(** The first group of one file seeds the merged table with it. *)
Lemma merge_all_seed g f key defs features load :
  assoc_lookup g features = Some key ->
  merge_all ((g, [f]) :: defs) features load empty_table = merge_all defs features load (load f).
Proof. intros Hk. simpl. rewrite Hk. reflexivity. Qed.

Lemma frame_of_ok df : frame_ok (frame_of df).
Proof.
  unfold frame_of, frame_ok, table_wf. cbn [rows cols frame events]. split_and!.
  - apply Forall_fmap, Forall_forall. intros e _. reflexivity.
  - apply length_fmap.
  - apply Forall_forall. by intros c Hc.
Qed.

(** ** The columns of the wide table *)

Ltac listed := apply (bool_decide_unpack _); vm_compute; exact I.

(** Every file [build_features] writes has the columns [file_cols]
    gives for its name. *)
Lemma build_features_cols df fs :
  build_features df = Some fs -> forall n, n ∈ FILE_NAMES -> cols (read_file fs n) = file_cols n.
Proof.
  unfold build_features. simpl. destruct (base_features (frame df)) as [B|] eqn:HB; simpl; [|discriminate].
  intros [= <-] n Hn. apply project_Some in HB as (HcB & _). unfold FILE_NAMES in Hn.
  destruct B as [bc br]. simpl in HcB. subst bc.
  repeat (apply elem_of_cons in Hn as [->|Hn]; [vm_compute; reflexivity|]).
  by apply elem_of_nil in Hn.
Qed.

Lemma mergeable_of_cols key t cs :
  cols t = cs ->
  bool_decide (Forall (fun c => c ∈ cs) key /\ Forall (fun c => c ∈ IDS) key /\
               Forall (fun c => c ∈ cs -> c ∈ key) IDS) = true ->
  mergeable key t.
Proof.
  intros Hc (H1 & H2 & H3)%bool_decide_eq_true. unfold mergeable. rewrite Hc.
  split_and!; [done|done|]. intros c Hc'. by eapply (Forall_forall _ IDS) in H3.
Qed.

(** On a well-formed frame with at least one event, merge_features
    succeeds and features.parquet has the columns [WIDE_COLS]. *)
Lemma wide_table_cols df :
  frame_ok df -> events df <> [] -> exists t, wide_table df = Some t /\ cols t = WIDE_COLS.
Proof.
  intros Hok Hne. pose proof Hok as (_ & Hlen & _).
  destruct (build_features_files df Hok) as (B & HB & HF').
  destruct (build_features df) as [F|] eqn:HF; [|discriminate].
  pose proof (build_features_cols _ _ HF) as Hc.
  assert (HrB : read_file F "base_features" = B) by (injection HF' as ->; reflexivity).
  pose proof (project_Some _ _ _ HB) as (HcB & HlB & _).
  unfold wide_table. rewrite HF. simpl. unfold merge_features, FEATURE_DEFINITIONS.
  rewrite (merge_all_seed _ _ IDS) by reflexivity.
  match goal with |- context [merge_all ?d ?f ?l ?x] =>
    destruct (merge_all_cols d f l x) as (t & -> & Hct) end.
  - rewrite HrB. destruct (rows B); [|done]. destruct (events df); [done|]. simpl in *. lia.
  - rewrite (Hc "base_features"%string) by listed. listed.
  - repeat apply Forall_cons_2; try apply Forall_nil_2; (eexists; split; [reflexivity|]);
      repeat apply Forall_cons_2; try apply Forall_nil_2;
      (eapply mergeable_of_cols; [apply Hc; listed|vm_compute; reflexivity]).
  - exists t. split; [done|]. rewrite Hct, (Hc "base_features"%string) by listed. unfold WIDE_COLS.
    change (file_cols "base_features") with (IDS ++ USER_FEATURES ++ POST_FEATURES).
    apply all_cols_ext. intros f Hf. apply Hc. apply elem_of_cons. right. revert Hf. cbn. done.
Qed.

(** ** Properties of the registry and of the wide table *)


(** C13 (one wide row per event): when no two events of the frame show
    the same post at the same second, features.parquet exists and has
    exactly one row per event: every merge is on a key-unique table. *)
Theorem wide_table_one_row_per_event df :
  frame_ok df -> NoDup ((fun e => (trackable_id e, tracker_created_at e)) <$> events df) ->
  exists t, wide_table df = Some t /\ length (rows t) = length (events df).
Proof.
  intros Hok Hnd. destruct (build_features_files df Hok) as (B & HB & Hfs).
  destruct (project_Some _ _ _ HB) as (HcB & HlB & _). destruct Hok as (_ & Hlen & _).
  unfold wide_table. rewrite Hfs. simpl. unfold merge_features, FEATURE_DEFINITIONS.
  rewrite (merge_all_seed _ _ IDS) by reflexivity.
  match goal with |- context [merge_all ?d ?f ?l ?x] =>
    destruct (merge_all_inv (length (events df)) d f l x) as (t & Ht & Hl & _) end;
    [| |by exists t].
  - split; [change (length (rows B) = length (events df)); lia|].
    intros _. change (Forall (fun c => c ∈ cols B) IDS). rewrite HcB.
    apply Forall_forall. intros c Hc. apply elem_of_app. by left.
  - repeat apply Forall_cons_2; try apply Forall_nil_2; (eexists; split; [reflexivity|]);
      repeat apply Forall_cons_2; try apply Forall_nil_2.
    + exact (extra_file_ok _ (event_key_NoDup _ Hnd)).
    + exact (post_file_ok _ Hnd "1d" (1 * DAY)).
    + exact (post_file_ok _ Hnd "7d" (7 * DAY)).
    + exact (post_file_ok _ Hnd "28d" (28 * DAY)).
    + exact (user_post_file_ok _ Hnd "1d" (1 * DAY)).
    + exact (user_post_file_ok _ Hnd "7d" (7 * DAY)).
    + exact (user_post_file_ok _ Hnd "28d" (28 * DAY)).
Qed.


(** ** Simultaneous views multiply the wide table *)

(** The first three cells of a row of the base table are the ids of its
    event. *)
Lemma base_rows_ids fr B :
  frame_ids_ok fr -> base_features (frame fr) = Some B ->
  Forall2 (fun br e => take 3 br = ids_cells e) (rows B) (events fr).
Proof.
  intros (idxs & Hi & H2) HB. unfold base_features, project in HB. rewrite mapM_app, Hi in HB.
  destruct (mapM (fun c => col_index c (cols (frame fr))) (USER_FEATURES ++ POST_FEATURES)) as [k2|];
    simpl in HB; [|discriminate]. injection HB as <-. cbn [rows]. apply Forall2_fmap_l. eapply Forall2_impl; [exact H2|].
  intros r e Hr. unfold compose. cbn beta in Hr |- *. rewrite <- Hr. unfold pick at 1. rewrite fmap_app.
  replace 3%nat with (length ((fun i => default VNull (r !! i)) <$> idxs)); [apply take_app_length|].
  by rewrite length_fmap, <- (length_mapM _ _ _ Hi).
Qed.

(** The rows of a post table with a given (post, time) key are as many
    as the events with that post and time. *)
Lemma post_table_key_count label w df p t :
  count_if (fun rr => key_of (post_table label w df) ["trackable_id"; "tracker_created_at"]%string rr =
                      [VInt p; VInt t]) (rows (post_table label w df)) =
  count_if (fun e => (trackable_id e, tracker_created_at e) = (p, t)) df.
Proof.
  unfold key_of. replace (mapM _ _) with (Some [0%nat; 1%nat]) by (vm_compute; reflexivity).
  unfold post_table. cbn [rows]. rewrite count_if_fmap.
  transitivity (count_if (fun q => q = (p, t)) ((fun r : Z * Z * Stats => (r.1.1, r.1.2)) <$> rolling post_key w df)).
  - rewrite count_if_fmap. unfold count_if. f_equal. apply list_filter_iff.
    intros [[k tm] st]. simpl. split; [by intros [= -> ->]|by intros [= -> ->]].
  - rewrite (count_if_perm _ _ _ (rolling_keys_perm post_key w df)), count_if_fmap. done.
Qed.

(** C14 (finding, simultaneous views multiply the wide table): on a
    frame whose id cells are its events' ids and whose events have
    distinct (post, user, time) keys, as [load_data] leaves them, when
    two events show the same post at the same second (two users, say),
    features.parquet has more rows than there are events: the
    post_popularity tables have one row per event keyed by (post,
    time), so the left merge on that key gives the events of that
    second one row per matching row. *)
Theorem wide_table_duplicates_rows fr :
  frame_ok fr -> frame_ids_ok fr -> NoDup (event_key <$> events fr) ->
  ~ NoDup ((fun e => (trackable_id e, tracker_created_at e)) <$> events fr) ->
  exists t, wide_table fr = Some t /\ (length (events fr) < length (rows t))%nat.
Proof.
  intros Hok Hids Hek Hdup. pose proof Hok as (_ & Hlen & _).
  destruct (not_NoDup_count _ Hdup) as [[p tm] Hc2]. rewrite count_if_fmap in Hc2.
  destruct (count_if_exists (fun x => (trackable_id x, tracker_created_at x) = (p, tm)) (events fr))
    as (e & He & Hpe); [lia|].
  apply list_elem_of_lookup in He as [k Hk].
  assert (Hne : events fr <> []) by (intros Hn; rewrite Hn in Hk; discriminate).
  destruct (wide_table_cols fr Hok Hne) as (t & Ht & _). exists t. split; [done|].
  destruct (build_features_files fr Hok) as (B & HB & HF).
  pose proof (project_Some _ _ _ HB) as (HcB & HlB & _).
  unfold wide_table in Ht. rewrite HF in Ht. cbn [mbind option_bind] in Ht.
  unfold merge_features, FEATURE_DEFINITIONS in Ht. rewrite (merge_all_seed _ _ IDS) in Ht by reflexivity.
  set (L := read_file _) in Ht.
  assert (LB : L "base_features"%string = B) by reflexivity.
  assert (LE : L "extra_features"%string = extra_table (events fr)) by reflexivity.
  assert (LP : L "post_popularity_1d"%string = post_table "1d" (1 * DAY) (events fr)) by reflexivity.
  apply (merge_all_cons_inv _ _ _ _ _ _ IDS) in Ht as (T1' & Hg1 & Ht); [|reflexivity].
  apply merge_group_cons_inv in Hg1 as (T1 & Hs1 & [= <-]).
  apply (merge_all_cons_inv _ _ _ _ _ _ ["trackable_id"; "tracker_created_at"]%string) in Ht
    as (T3 & Hg2 & Ht); [|reflexivity].
  apply merge_group_cons_inv in Hg2 as (T2 & Hs2 & Hg2).
  apply merge_all_rows in Ht. apply merge_group_rows in Hg2.
  (* the extra merge keeps one row per event, extending it *)
  assert (HB0 : rows B <> []).
  { intros Hn. rewrite Hn in HlB. apply Hne, nil_length_inv. simpl in HlB. lia. }
  rewrite LB, LE, merge_step_nonempty in Hs1 by exact HB0.
  destruct (extra_file_ok _ Hek) as (_ & _ & _ & HndE & _).
  pose proof (left_merge_unique_rows _ _ _ _ Hs1 HndE) as HF1.
  destruct (Forall2_lookup_r _ _ _ k e (base_rows_ids fr B Hids HB) Hk) as (br & Hbr & Hbe).
  destruct (Forall2_lookup_l _ _ _ k br HF1 Hbr) as (lr & Hlr & ext & -> & _).
  (* the post merge gives that row two rows *)
  rewrite LP, merge_step_nonempty in Hs2
    by (intros Hn; apply Forall2_length in HF1; rewrite Hn in HF1; by apply HB0, nil_length_inv).
  assert (Hkey : key_of T1 ["trackable_id"; "tracker_created_at"]%string (br ++ ext) = [VInt p; VInt tm]).
  { unfold key_of. rewrite (left_merge_cols _ _ _ _ Hs1), HcB.
    replace (mapM _ _) with (Some [0%nat; 2%nat]) by (vm_compute; reflexivity).
    rewrite <- (take_drop 3 br), <- app_assoc, Hbe. injection Hpe as <- <-. reflexivity. }
  pose proof (left_merge_rows_gt _ _ _ _ (br ++ ext) Hs2 (list_elem_of_lookup_2 _ _ _ Hlr)) as Hgt.
  rewrite Hkey, post_table_key_count in Hgt. specialize (Hgt Hc2).
  apply Forall2_length in HF1. lia.
Qed.

(** ** Witnesses *)


Lemma wide_table_one_row_per_event_witness :
  frame_ok (frame_of [view 7 1 1000 true; view 7 2 1001 false]) /\
  NoDup ((fun e => (trackable_id e, tracker_created_at e)) <$> [view 7 1 1000 true; view 7 2 1001 false]) /\
  exists t, wide_table (frame_of [view 7 1 1000 true; view 7 2 1001 false]) = Some t /\
            length (rows t) = length (events (frame_of [view 7 1 1000 true; view 7 2 1001 false])).
Proof.
  assert (Hok : frame_ok (frame_of [view 7 1 1000 true; view 7 2 1001 false])) by apply frame_of_ok.
  assert (Hnd : NoDup ((fun e => (trackable_id e, tracker_created_at e)) <$>
                         [view 7 1 1000 true; view 7 2 1001 false])).
  { apply (bool_decide_unpack _). vm_compute. exact I. }
  split_and!; [exact Hok|exact Hnd|]. exact (wide_table_one_row_per_event _ Hok Hnd).
Defined.

(** Two users shown post 7 at the same second. *)
Lemma wide_table_duplicates_rows_witness :
  let fr := frame_of [view 7 1 1000 true; view 7 2 1000 false] in
  frame_ok fr /\ frame_ids_ok fr /\ NoDup (event_key <$> events fr) /\
  ~ NoDup ((fun e => (trackable_id e, tracker_created_at e)) <$> events fr) /\
  exists t, wide_table fr = Some t /\ (length (events fr) < length (rows t))%nat.
Proof.
  intros fr.
  assert (H1 : frame_ok fr) by apply frame_of_ok.
  assert (H2 : frame_ids_ok fr) by (exists [0%nat; 1%nat; 2%nat]; split; [reflexivity|repeat constructor]).
  assert (H3 : NoDup (event_key <$> events fr)) by (apply (bool_decide_unpack _); vm_compute; exact I).
  assert (H4 : ~ NoDup ((fun e => (trackable_id e, tracker_created_at e)) <$> events fr))
    by (apply (bool_decide_unpack _); vm_compute; exact I).
  split_and!; [exact H1|exact H2|exact H3|exact H4|]. exact (wide_table_duplicates_rows fr H1 H2 H3 H4).
Defined.
