(* ===== verification/Train.v ===== *)
(** * Training matrices: [train_model]'s inputs

    Models models/train_model.py, [train_model] up to the network
    (lines 80-116, [train_inputs]): the train and validation splits read
    back ([load_datasets], Storage.v), their labels popped and cast with
    [.astype(int)] ([pop], [astype_int]), features.parquet read back,
    the feature columns [cols] of the selected groups ([feature_cols],
    the same code as predict_model.py lines 94-105), and for each split
    the inner merge with [data[cols]] on the three ids, cleaned with
    [replace/select_dtypes/fillna] (Clean.v).  The
    Python [set] of [cols] has no fixed order; first appearance is used.
    The normalisation layer, the fit and its callbacks are not modelled. *)

From S2P Require Import Prelude Events Dataset Table Clean Merge Storage Features.
From stdpp Require Import strings.

Open Scope Z_scope.

(** [features_names] and [cols] (train_model.py lines 91-101, repeated as lines 94-105 of
    predict_model.py): the columns of the
    feature files of the selected groups ([FEATURE_DEFINITIONS[g]] raises
    a [KeyError] for an unknown group; groups that [FEATURE_DICT] does
    not know are skipped), without pandas' "__" index columns, in order
    of first appearance (the code's [set] has no fixed order); a
    missing file raises ([None]). *)
Definition feature_cols (groups : list string) (files : Files) : option (list string) :=
  names ← mapM (fun g => (fun fs => if decide (g ∈ FEATURE_DICT.*1) then fs else [])
                         <$> assoc_lookup g FEATURE_DEFINITIONS) groups;
  fcols ← mapM (fun f => cols <$> read_parquet files f) (mjoin names);
  Some (unique (filter (fun c => String.prefix "__" c = false) (mjoin fcols))).

(** A split without its label column, as a table on the three ids. *)
Definition split_table (rs : list SplitRow) : Table :=
  mkTable IDS ((fun r => [VInt (row_trackable_id r); VInt (row_user_id r);
                          VInt (row_tracker_created_at r)]) <$> rs).

(** [X.pop("has_been_opened")] *)
Definition split_labels (rs : list SplitRow) : list bool := row_has_been_opened <$> rs.

(** [.astype(int)] of a label cell: a boolean is 0 or 1, an integer
    itself, a float truncated toward zero; NaN, a string or a list
    raise ([None]). *)
Definition astype_int (v : Val) : option Z :=
  match v with
  | VBool b => Some (if b then 1 else 0)
  | VInt z => Some z
  | VNum q => Some (Z.quot (Qnum q) (Zpos (Qden q)))
  | _ => None
  end.

(** [train_model] up to the network (lines 83-116): the splits read
    back, their labels popped and cast to integers, the feature columns
    of the selected groups, and the train and validation matrices:
    the inner merge of each split with [data[cols]] on the three ids,
    cleaned.  [out] is the output directory (splits and
    features.parquet), [interim] the directory of the feature files. *)
Definition train_inputs (groups : list string) (out interim : Files)
  : option (Table * list Z * Table * list Z) :=
  '(tr, ev, _) ← load_datasets out;
  '(xtr, ytr) ← pop tr "has_been_opened";
  ytr ← mapM astype_int ytr;
  '(xev, yev) ← pop ev "has_been_opened";
  yev ← mapM astype_int yev;
  data ← load_features out;
  cs ← feature_cols groups interim;
  d ← project data cs;
  xtr ← inner_merge xtr d IDS;
  xev ← inner_merge xev d IDS;
  Some (clean xtr, ytr, clean xev, yev).

(** The feature columns of the four groups: the columns of the eight
    feature files, without repetition, in order of first appearance. *)
Definition FEATURE_COLS : list string :=
  unique (filter (fun c => String.prefix "__" c = false) (mjoin (file_cols <$> FILE_NAMES))).

(** ** Lemmas *)

Lemma assoc_lookup_elem k m v : assoc_lookup k m = Some v -> (k, v) ∈ m.
Proof.
  induction m as [|[k' v'] m IH]; simpl; [discriminate|].
  case_decide as Hk; [intros [= <-]; subst; by left|]. intros Hl. right. by apply IH.
Qed.

(** The files [feature_cols] reads are feature files. *)
Lemma feature_cols_reads (groups : list string) (names : list (list string)) (f : string) :
  mapM (fun g => (fun fs : list string => if decide (g ∈ FEATURE_DICT.*1) then fs else [])
                 <$> assoc_lookup g FEATURE_DEFINITIONS) groups = Some names ->
  f ∈ mjoin names -> f ∈ FILE_NAMES.
Proof.
  intros Hn%mapM_Some_1 (fs & Hf & Hfs)%list_elem_of_join.
  apply list_elem_of_lookup in Hfs as [i Hi]. destruct (Forall2_lookup_r _ _ _ _ _ Hn Hi) as (g & _ & Hg).
  apply fmap_Some in Hg as (v & Hv & Hfs). case_decide; subst; [|by apply elem_of_nil in Hf].
  rewrite <-FEATURE_DEFINITIONS_files. apply list_elem_of_join. exists v. split; [done|].
  apply list_elem_of_fmap. exists (g, v). split; [done|]. by apply assoc_lookup_elem.
Qed.

(** [feature_cols] only depends on the feature files it reads. *)
Lemma feature_cols_mono groups files files' cs :
  (forall n t, n ∈ FILE_NAMES -> read_parquet files n = Some t -> read_parquet files' n = Some t) ->
  feature_cols groups files = Some cs -> feature_cols groups files' = Some cs.
Proof.
  intros Hr. unfold feature_cols.
  destruct (mapM _ groups) as [names|] eqn:Hn; simpl; [|discriminate].
  destruct (mapM (fun f => cols <$> read_parquet files f) (mjoin names)) as [fc|] eqn:Hf; simpl; [|discriminate].
  rewrite (mapM_Some_mono (fun f => cols <$> read_parquet files f) (fun f => cols <$> read_parquet files' f) _ fc);
    [done| |done].
  intros f c Hin (t & Ht & ->)%fmap_Some. rewrite (Hr f t); [done| |done].
  exact (feature_cols_reads _ _ _ Hn Hin).
Qed.

(** [train_model] only depends on the splits, features.parquet and the
    feature files it reads. *)
Lemma train_inputs_mono groups out out' interim interim' r :
  (forall n t, n ∈ ["train"; "eval"; "test"; "features"]%string ->
               read_parquet out n = Some t -> read_parquet out' n = Some t) ->
  (forall n t, n ∈ FILE_NAMES -> read_parquet interim n = Some t -> read_parquet interim' n = Some t) ->
  train_inputs groups out interim = Some r -> train_inputs groups out' interim' = Some r.
Proof.
  intros Ho Hi. unfold train_inputs, load_datasets, load_features.
  destruct (read_parquet out "train") as [tr|] eqn:H1; simpl; [|discriminate].
  destruct (read_parquet out "eval") as [ev|] eqn:H2; simpl; [|discriminate].
  destruct (read_parquet out "test") as [te|] eqn:H3; simpl; [|discriminate].
  rewrite (Ho "train"%string tr), (Ho "eval"%string ev), (Ho "test"%string te); try done; try set_solver.
  simpl. destruct (pop tr _) as [[xtr ytr]|]; simpl; [|discriminate].
  destruct (mapM astype_int ytr) as [ytr'|]; simpl; [|discriminate].
  destruct (pop ev _) as [[xev yev]|]; simpl; [|discriminate].
  destruct (mapM astype_int yev) as [yev'|]; simpl; [|discriminate].
  destruct (read_parquet out "features") as [data|] eqn:H4; simpl; [|discriminate].
  rewrite (Ho "features"%string data); [|set_solver|done]. simpl.
  destruct (feature_cols groups interim) as [cs|] eqn:H5; simpl; [|discriminate].
  by rewrite (feature_cols_mono groups interim interim' cs Hi H5).
Qed.

(** With every feature file present, [cols] selects the columns of all
    the groups. *)
Lemma feature_cols_all files :
  (forall n, n ∈ FILE_NAMES -> exists t, read_parquet files n = Some t /\ cols t = file_cols n) ->
  feature_cols FEATURE_DICT.*1 files = Some FEATURE_COLS.
Proof.
  intros Hf. unfold feature_cols.
  transitivity (fcols ← mapM (fun f => cols <$> read_parquet files f) FILE_NAMES;
                Some (unique (filter (fun c => String.prefix "__" c = false) (mjoin fcols))));
    [reflexivity|].
  rewrite (mapM_Some_pointwise (fun f => cols <$> read_parquet files f) file_cols); [reflexivity|].
  intros n Hn. destruct (Hf n Hn) as (t & -> & <-). reflexivity.
Qed.

Lemma feature_cols_NoDup groups files cs : feature_cols groups files = Some cs -> NoDup cs.
Proof.
  unfold feature_cols. destruct (mapM _ groups); simpl; [|discriminate].
  destruct (mapM _ (mjoin _)); simpl; [|discriminate]. intros [= <-]. apply unique_NoDup.
Qed.

(** Popping the label of a stored split gives the split's id table and
    its labels. *)
Lemma pop_split_frame rs :
  pop (split_frame rs) "has_been_opened" = Some (split_table rs, VBool <$> split_labels rs).
Proof.
  unfold pop, split_frame, split_table, split_labels. simpl. do 3 f_equal.
  - rewrite <-list_fmap_compose. reflexivity.
  - rewrite <-!list_fmap_compose. reflexivity.
Qed.

(** The id cells of a split joined with features are integers. *)
Lemma split_merge_ids rs d X i :
  inner_merge (split_table rs) d IDS = Some X -> (i < 3)%nat ->
  Forall (fun r => exists z, r !! i = Some (VInt z)) (rows X).
Proof.
  intros HX Hi. apply inner_merge_rows in HX as [_ Hrows].
  eapply Forall_impl; [exact Hrows|]. intros r (lr & ext & Hlr & ->).
  unfold split_table in Hlr. cbn [rows] in Hlr. apply list_elem_of_fmap in Hlr as (sr & -> & _).
  destruct i as [|[|[|i]]]; [by eexists..|lia].
Qed.

(** [trackable_id] and [user_id] of the split survive the cleanup of a
    training matrix: they are integer columns whose names are not
    datetime names. *)
Lemma train_matrix_keeps_ids rs d X c :
  inner_merge (split_table rs) d IDS = Some X -> c ∈ ["trackable_id"; "user_id"]%string ->
  c ∈ cols (clean X).
Proof.
  intros HX Hc. apply clean_cols_iff.
  assert (Hi : exists i, IDS !! i = Some c /\ (i < 3)%nat).
  { apply elem_of_cons in Hc as [->|Hc]; [exists 0%nat; split; [reflexivity|lia]|].
    apply elem_of_cons in Hc as [->|Hc]; [exists 1%nat; split; [reflexivity|lia]|]. by apply elem_of_nil in Hc. }
  destruct Hi as (i & Hic & Hi). exists i. split_and!.
  - destruct (inner_merge_rows _ _ _ _ HX) as [-> _].
    apply merged_cols_key_lookup; [exact Hic|]. by eapply list_elem_of_lookup_2.
  - apply elem_of_cons in Hc as [->|Hc]; [done|].
    apply elem_of_cons in Hc as [->|Hc]; [done|]. by apply elem_of_nil in Hc.
  - eapply Forall_impl; [exact (split_merge_ids rs d X i HX Hi)|]. by intros r [z ->].
Qed.

Lemma astype_int_bools (bs : list bool) :
  mapM astype_int (VBool <$> bs) = Some ((fun b : bool => if b then 1 else 0) <$> bs).
Proof.
  apply mapM_Some_2, Forall2_fmap, Forall_Forall2_diag, Forall_forall. by intros [] _.
Qed.

(** After [make_dataset] and [merge_features] wrote the output
    directory, [train_model]'s matrix is the cleaned inner merge of the
    train split's ids with features, and [y_train] its labels as 0/1. *)
Lemma train_inputs_saved c df fs W interim groups X y Xv yv :
  train_inputs groups (to_parquet (save_splits c df fs) "features" W) interim = Some (X, y, Xv, yv) ->
  exists d X0, inner_merge (split_table (make_trainset c df)) d IDS = Some X0 /\ X = clean X0 /\
    y = (fun b : bool => if b then 1 else 0) <$> split_labels (make_trainset c df).
Proof.
  unfold train_inputs. rewrite load_datasets_saved.
  cbn -[pop split_frame split_table split_labels mapM load_features feature_cols project inner_merge clean].
  rewrite !pop_split_frame.
  cbn -[pop split_frame split_table split_labels mapM load_features feature_cols project inner_merge clean].
  rewrite !astype_int_bools.
  cbn -[pop split_frame split_table split_labels mapM load_features feature_cols project inner_merge clean].
  destruct (load_features _) as [data|]; simpl; [|discriminate].
  destruct (feature_cols groups interim) as [cs|]; simpl; [|discriminate].
  destruct (project data cs) as [d|]; simpl; [|discriminate].
  destruct (inner_merge (split_table (make_trainset c df)) d IDS) as [X0|] eqn:HX; simpl; [|discriminate].
  destruct (inner_merge (split_table (make_evalset c df)) d IDS); simpl; [|discriminate].
  intros [= <- <- _ _]. by exists d, X0.
Qed.

(** train_model's inputs exist once the splits, features.parquet with
    the columns of the wide table, and the feature files are written. *)
Lemma train_inputs_Some c df fs t interim :
  cols t = WIDE_COLS ->
  (forall n, n ∈ FILE_NAMES -> exists t', read_parquet interim n = Some t' /\ cols t' = file_cols n) ->
  is_Some (train_inputs FEATURE_DICT.*1 (to_parquet (save_splits c df fs) "features" t) interim).
Proof.
  intros Hct Hint. unfold train_inputs. rewrite load_datasets_saved.
  cbn -[pop split_frame split_table split_labels mapM load_features feature_cols project inner_merge clean FEATURE_DICT].
  rewrite !pop_split_frame.
  cbn -[pop split_frame split_table split_labels mapM load_features feature_cols project inner_merge clean FEATURE_DICT].
  rewrite !astype_int_bools.
  cbn -[pop split_frame split_table split_labels mapM load_features feature_cols project inner_merge clean FEATURE_DICT].
  unfold load_features. rewrite read_parquet_written. cbn -[feature_cols project inner_merge clean FEATURE_DICT].
  rewrite (feature_cols_all _ Hint). cbn -[project inner_merge clean FEATURE_COLS].
  destruct (project_is_Some t FEATURE_COLS) as [d Hd]; [rewrite Hct; listed|].
  rewrite Hd. cbn -[inner_merge clean]. pose proof (project_Some _ _ _ Hd) as (Hcd & _).
  assert (Hid : Forall (fun c => c ∈ cols d) IDS) by (rewrite Hcd; listed).
  destruct (inner_merge_is_Some (split_table (make_trainset c df)) d IDS) as [X HX]; [listed|done|].
  destruct (inner_merge_is_Some (split_table (make_evalset c df)) d IDS) as [Xv HXv]; [listed|done|].
  rewrite HX, HXv. simpl. by eexists.
Qed.

(** ** Properties *)

