(* ===== verification/Predict.v ===== *)
(** * Predictions: the binds, the cleaned test matrix and the ranks

    Models models/predict_model.py, [make_predictions] (lines 82-161):
    - the test frame read back with [load_datasets] and its labels
      popped ([y_test = X_test.pop("has_been_opened")]);
    - one bind ([bind_step]): [pd.merge_asof] (Asof.v) of the frame and
      of [data[cols]], both after [sort_values(by="tracker_created_at")];
      the three chained binds on user, post and (user, post) features
      ([bind_features]); [USER_POST_FEATURES], imported from a module
      that is not among the sources, is a parameter;
    - [X_test[cols]] with the three ids moved to the index and cleaned
      (Clean.v), the scores of the network (an input function [score],
      one per row), the ranks and the labels ([make_predictions]);
    - [groupby(["user_id", "tracker_created_at"]).predictions.rank(
      ascending=False)] ([ranks], [rank_desc]): pandas' default
      "average" rank, and the mean rank of the opened rows ([mean_rank]).
    The network itself is not modelled.  The last properties are about
    the whole pipeline after [make_dataset] and [merge_features] wrote
    their files: the matrices of [train_model] and [make_predictions]
    have different columns, and an opened test seed always ties with its
    unopened copy ([seed_rank_tied], from the row-structure lemmas of
    the binds, of [set_index] and of [clean]). *)

From S2P Require Import Prelude Events Dataset Table Clean Merge Storage Features Train Asof.
From stdpp Require Import strings.

Open Scope Z_scope.

(** One [pd.merge_asof(X.sort_values(...), data[cs].sort_values(...), ...)]. *)
Definition bind_step (x data : Table) (cs by_ : list string) : option Table :=
  xs ← sort_table x "tracker_created_at";
  d ← project data cs;
  ds ← sort_table d "tracker_created_at";
  merge_asof xs ds "tracker_created_at" by_.

(** The three binds: user, post, then (user, post) features; the last
    group's columns come from [wemoms_homework.features.USER_POST_FEATURES]. *)
Definition bind_features (x data : Table) (user_post_features : list string) : option Table :=
  x1 ← bind_step x data (["user_id"; "tracker_created_at"] ++ USER_FEATURES) ["user_id"];
  x2 ← bind_step x1 data (["trackable_id"; "tracker_created_at"] ++ POST_FEATURES) ["trackable_id"];
  bind_step x2 data (["user_id"; "trackable_id"; "tracker_created_at"] ++ user_post_features)
            ["user_id"; "trackable_id"].

(** [rank(ascending=False)], method "average", of score [p] in its group. *)
Definition rank_desc (ps : list Q) (p : Q) : Q :=
  inject_Z (Z.of_nat (count_if (fun q => Qle_bool q p = false) ps)) +
  (inject_Z (Z.of_nat (count_if (fun q => Qeq_bool p q = true) ps)) + 1) / 2.

(** [groupby(keys).predictions.rank(ascending=False)]: the rank of
    every row's score among the scores of the rows with the same group
    key. *)
Definition ranks {A K} `{EqDecision K} (gkey : A -> K) (xs : list A) (preds : list Q) : list Q :=
  let scored := zip xs preds in
  (fun '(x, p) => rank_desc ((fun xp => xp.2) <$> filter (fun xp => gkey xp.1 = gkey x) scored) p)
  <$> scored.

(** [make_predictions] (lines 82-158): the test frame read back and
    its labels popped, the feature columns [cols] of the selected
    groups, the three binds, [X_test[cols]] with the three ids moved to
    the index and cleaned ([set_index], [clean]), the network's scores
    ([score], one per row of the cleaned matrix), the ranks in each
    (user_id, tracker_created_at) group of the index, and the labels
    [y_test.values] assigned by position.  [out] is the output
    directory (splits and features.parquet), [interim] the directory of
    the feature files. *)
Definition make_predictions (out interim : Files) (groups upf : list string)
    (score : list Val -> Q) : option (Table * list (list Val) * list Q * list Q * list Val) :=
  '(_, _, xt) ← load_datasets out;
  '(x, y) ← pop xt "has_been_opened";
  data ← load_features out;
  cs ← feature_cols groups interim;
  x ← bind_features x data upf;
  x ← project x cs;
  '(xm, idx) ← set_index x ["user_id"; "trackable_id"; "tracker_created_at"]%string;
  let xm := clean xm in
  let preds := score <$> rows xm in
  Some (xm, idx, preds, ranks (pick [0%nat; 2%nat]) idx preds, y).

(** [X_test['has_been_opened'] == 1]: [True == 1] holds in Python. *)
Definition label_is_one (v : Val) : bool :=
  match v with
  | VBool b => b
  | VInt z => bool_decide (z = 1)
  | VNum q => Qeq_bool q 1
  | _ => false
  end.

(** [X_test.loc[X_test['has_been_opened'] == 1, ...]["rank"].mean()]
    (line 161): [None] is the NaN of an empty mean. *)
Definition mean_rank (rks : list Q) (labels : list Val) : option Q :=
  let pos := fst <$> filter (fun rl => label_is_one rl.2 = true) (zip rks labels) in
  match pos with
  | [] => None
  | _ => Some (foldr Qplus 0 pos / inject_Z (Z.of_nat (length pos)))%Q
  end.

Definition user_cols : list string := ["user_id"; "tracker_created_at"; "user_nb_views"]%string.

Lemma Qnat_le (a b : nat) : (a <= b)%nat -> (inject_Z (Z.of_nat a) <= inject_Z (Z.of_nat b))%Q.
Proof. intros H. rewrite <- Zle_Qle. lia. Qed.

Lemma Qnat_ge1 (n : nat) : (1 <= n)%nat -> (1 <= inject_Z (Z.of_nat n))%Q.
Proof. intros H. change 1%Q with (inject_Z 1). rewrite <- Zle_Qle. lia. Qed.

Lemma Qnat_nonneg (n : nat) : (0 <= inject_Z (Z.of_nat n))%Q.
Proof. change 0%Q with (inject_Z 0). rewrite <- Zle_Qle. lia. Qed.

Lemma Qnat_plus (a b : nat) :
  inject_Z (Z.of_nat (a + b)) = (inject_Z (Z.of_nat a) + inject_Z (Z.of_nat b))%Q.
Proof. by rewrite Nat2Z.inj_add, inject_Z_plus. Qed.

Lemma bind_step_length x data cs by_ y :
  bind_step x data cs by_ = Some y -> length (rows y) = length (rows x).
Proof.
  unfold bind_step. destruct (sort_table x _) as [xs|] eqn:Hx; simpl; [|discriminate].
  destruct (project data cs) as [d|]; simpl; [|discriminate].
  destruct (sort_table d _) as [ds|]; simpl; [|discriminate].
  intros H%merge_asof_length. rewrite H. exact (sort_table_length _ _ _ Hx).
Qed.

Lemma bind_features_length x data upf y :
  bind_features x data upf = Some y -> length (rows y) = length (rows x).
Proof.
  unfold bind_features.
  destruct (bind_step x _ _ _) as [x1|] eqn:H1; simpl; [|discriminate].
  destruct (bind_step x1 _ _ _) as [x2|] eqn:H2; simpl; [|discriminate].
  intros H3%bind_step_length. apply bind_step_length in H1, H2. lia.
Qed.

Lemma length_ranks {A K} `{EqDecision K} (gkey : A -> K) xs preds :
  length (ranks gkey xs preds) = min (length xs) (length preds).
Proof. unfold ranks. by rewrite length_fmap, length_zip_with. Qed.

(** re-sorting, spec's idempotence: binding a frame that is
    already sorted by time gives the same result as binding the
    unsorted frame; sorting before each [merge_asof] makes the bind
    independent of the input order's ties only through the stable sort. *)
(** A score that occurs twice in its group ranks at least 3/2. *)
Lemma rank_desc_ge_tied ps p :
  (2 <= count_if (fun q => Qeq_bool p q = true) ps)%nat -> (3 # 2 <= rank_desc ps p)%Q.
Proof.
  intros He. unfold rank_desc.
  assert (HeQ : (2 <= inject_Z (Z.of_nat (count_if (fun q => Qeq_bool p q = true) ps)))%Q).
  { change 2%Q with (inject_Z 2). rewrite <- Zle_Qle. lia. }
  pose proof (Qnat_nonneg (count_if (fun q => Qle_bool q p = false) ps)).
  unfold Qdiv. change (/ 2)%Q with (1#2)%Q. lra.
Qed.

(** The scores of a row's group count every copy of the row's (key,
    score) pair. *)
Lemma count_group_scores {K} `{EqDecision K} (gk : list Val -> K) (S : list (list Val * Q)) k p :
  (count_if (fun kp => kp = (k, p)) S <=
   count_if (fun q => Qeq_bool p q = true) ((fun xp => xp.2) <$> filter (fun xp => gk xp.1 = gk k) S))%nat.
Proof.
  rewrite count_if_fmap. unfold count_if at 2. rewrite list_filter_filter. fold (count_if (fun x => Qeq_bool p x.2 = true /\ gk x.1 = gk k) S).
  apply count_if_mono. intros kp ->. simpl. split; [|done]. apply Qeq_bool_refl.
Qed.

(** The frame's columns begin with the three ids. *)
Definition ids_first (cs : list string) : Prop := forall i c, IDS !! i = Some c -> cs !! i = Some c.

Lemma ids_first_merged lc rc keys :
  ids_first lc -> Forall (fun c => c ∈ keys \/ c ∉ rc) IDS -> ids_first (merged_cols lc rc keys).
Proof.
  intros H HF i c Hi. apply merged_cols_lookup_keep; [by apply H|].
  exact (Forall_lookup_1 _ _ _ _ HF Hi).
Qed.

(** A bind extends every row of the frame by a function of the row, up
    to the order of the rows, under the frame's columns first. *)
Lemma bind_step_rows x data cs by_ y :
  bind_step x data cs by_ = Some y ->
  cols y = merged_cols (cols x) cs ("tracker_created_at" :: by_) /\
  exists g, rows y ≡ₚ (fun row => row ++ g row) <$> rows x.
Proof.
  unfold bind_step. destruct (sort_table x _) as [xs|] eqn:Hx; simpl; [|discriminate].
  destruct (project data cs) as [d|] eqn:Hd; simpl; [|discriminate].
  destruct (sort_table d _) as [ds|] eqn:Hds; simpl; [|discriminate].
  intros [Hc [g Hg]]%merge_asof_rows.
  apply sort_table_rows in Hx as [Hxc Hxp]. apply sort_table_rows in Hds as [Hdc _].
  destruct (project_Some _ _ _ Hd) as (Hdcs & _).
  split; [by rewrite Hc, Hxc, Hdc, Hdcs|]. exists g. by rewrite Hg, Hxp.
Qed.

(** The three binds keep the ids first and extend every row by a
    function of the row, up to the order of the rows. *)
Lemma bind_features_rows x data upf y :
  ids_first (cols x) -> bind_features x data upf = Some y ->
  ids_first (cols y) /\ exists g, rows y ≡ₚ (fun row => row ++ g row) <$> rows x.
Proof.
  intros Hx. unfold bind_features.
  destruct (bind_step x _ _ _) as [x1|] eqn:H1; simpl; [|discriminate].
  destruct (bind_step x1 _ _ _) as [x2|] eqn:H2; simpl; [|discriminate]. intros H3.
  apply bind_step_rows in H1 as [C1 [g1 P1]], H2 as [C2 [g2 P2]], H3 as [C3 [g3 P3]].
  split.
  - rewrite C3. apply ids_first_merged; [rewrite C2; apply ids_first_merged; [rewrite C1; apply ids_first_merged|]|].
    + exact Hx.
    + apply (bool_decide_unpack _). vm_compute. reflexivity.
    + apply (bool_decide_unpack _). vm_compute. reflexivity.
    + repeat apply Forall_cons_2; try apply Forall_nil_2; left; compute_done.
  - exists (fun r => g1 r ++ g2 (r ++ g1 r) ++ g3 ((r ++ g1 r) ++ g2 (r ++ g1 r))).
    rewrite P3, P2, P1, <-!list_fmap_compose. apply reflexive_eq, list_fmap_ext.
    intros _ r _. unfold compose. by rewrite !app_assoc.
Qed.

(** A bind sorts the frame by [tracker_created_at] (its third
    column) and extends every row, in that order, by a function of the
    row. *)
Lemma bind_step_sorted x data cs by_ y :
  ids_first (cols x) -> bind_step x data cs by_ = Some y ->
  exists g, rows y = (fun r => r ++ g r) <$> sort_by (fun r => default 0 (time_at 2 r)) (rows x).
Proof.
  intros Hi. unfold bind_step.
  assert (Hc : col_index "tracker_created_at" (cols x) = Some 2%nat).
  { apply col_index_first; [by apply Hi|]. intros j c' Hj Hc'.
    destruct j as [|[|j]]; [rewrite (Hi 0%nat _ eq_refl) in Hc'|rewrite (Hi 1%nat _ eq_refl) in Hc'|lia];
      injection Hc' as <-; discriminate. }
  assert (Hx : sort_table x "tracker_created_at" =
                Some (mkTable (cols x) (sort_by (fun r => default 0 (time_at 2 r)) (rows x))))
    by (unfold sort_table; by rewrite Hc).
  rewrite Hx. simpl.
  destruct (project data cs) as [d|]; simpl; [|discriminate].
  destruct (sort_table d _) as [ds|]; simpl; [|discriminate].
  intros [_ [g Hg]]%merge_asof_rows. by exists g.
Qed.

(** After the three binds the rows are in time order. *)
Lemma bind_features_sorted x data upf y :
  ids_first (cols x) -> Forall (fun r => 3 <= length r)%nat (rows x) ->
  bind_features x data upf = Some y -> sorted_by (fun r => default 0 (time_at 2 r)) (rows y).
Proof.
  intros Hx Hlen. unfold bind_features.
  destruct (bind_step x _ _ _) as [x1|] eqn:H1; simpl; [|discriminate].
  destruct (bind_step x1 _ _ _) as [x2|] eqn:H2; simpl; [|discriminate]. intros H3.
  apply bind_step_rows in H1 as [C1 [g1 P1]], H2 as [C2 [g2 P2]].
  assert (Hi2 : ids_first (cols x2)).
  { rewrite C2. apply ids_first_merged; [rewrite C1; apply ids_first_merged|]; [exact Hx|..];
      apply (bool_decide_unpack _); vm_compute; reflexivity. }
  assert (Hl2 : Forall (fun r => 3 <= length r)%nat (rows x2)).
  { apply Forall_forall. intros r Hr. rewrite P2 in Hr.
    apply list_elem_of_fmap in Hr as (r1 & -> & Hr1). rewrite P1 in Hr1.
    apply list_elem_of_fmap in Hr1 as (r0 & -> & Hr0). rewrite !length_app.
    eapply Forall_forall in Hr0; [|exact Hlen]. cbn beta in Hr0. lia. }
  destruct (bind_step_sorted _ _ _ _ _ Hi2 H3) as [g ->].
  apply (sorted_by_fmap_key (fun r => default 0 (time_at 2 r))); [|apply sort_by_sorted].
  apply Forall_forall. intros r Hr. apply sort_by_elem in Hr.
  eapply Forall_forall in Hr; [|exact Hl2]. cbn beta in Hr. unfold time_at. by rewrite lookup_app_l by lia.
Qed.

(** The index [(user_id, trackable_id, tracker_created_at)] of a row
    whose first three cells are the ids. *)
Definition index_of (q : list Val) : list Val :=
  [default VNull (q !! 1%nat); default VNull (q !! 0%nat); default VNull (q !! 2%nat)].

Lemma ids_first_shape cs : ids_first cs -> exists rest, cs = IDS ++ rest.
Proof.
  intros H. pose proof (H 0%nat _ eq_refl) as H0. pose proof (H 1%nat _ eq_refl) as H1.
  pose proof (H 2%nat _ eq_refl) as H2.
  destruct cs as [|c0 [|c1 [|c2 rest]]]; simpl in *; try discriminate.
  injection H0 as ->. injection H1 as ->. injection H2 as ->. by exists rest.
Qed.

(** Picking a column of a projection reads the column of that name. *)
Lemma pick_col idxs cs cs3 q k c n :
  mapM (fun c => col_index c cs3) cs = Some idxs -> cs !! k = Some c -> col_index c cs3 = Some n ->
  default VNull (pick idxs q !! k) = default VNull (q !! n).
Proof.
  intros Hm Hk Hc. destruct (mapM_lookup _ _ _ _ _ Hm Hk) as (b & Hb & Hcb).
  rewrite Hc in Hcb. injection Hcb as <-. unfold pick. by rewrite list_lookup_fmap, Hb.
Qed.

(** The index of [X_test[cols].set_index(...)] is read from the first
    three cells of the bound rows. *)
Lemma index_cells x3 cs x' xm0 idx :
  ids_first (cols x3) -> project x3 cs = Some x' ->
  set_index x' ["user_id"; "trackable_id"; "tracker_created_at"]%string = Some (xm0, idx) ->
  idx = index_of <$> rows x3.
Proof.
  intros Hi Hp Hs. destruct (ids_first_shape _ Hi) as [rest Hr].
  destruct (project_rows _ _ _ Hp) as (idxs & Hm & ->).
  destruct (set_index_rows _ _ _ _ Hs) as (ki & rs & Hki & _ & ->). cbn [cols rows] in *.
  revert Hki. simpl.
  destruct (col_index "user_id" cs) as [ku|] eqn:Hu; simpl; [|discriminate].
  destruct (col_index "trackable_id" cs) as [kt|] eqn:Ht; simpl; [|discriminate].
  destruct (col_index "tracker_created_at" cs) as [kc|] eqn:Hc; simpl; [|discriminate].
  intros [= <-]. rewrite <-list_fmap_compose. apply list_fmap_ext. intros _ q _.
  unfold compose, index_of. unfold pick at 1. simpl.
  rewrite (pick_col _ _ _ q _ _ 1%nat Hm (col_index_Some _ _ _ Hu)) by (rewrite Hr; reflexivity).
  rewrite (pick_col _ _ _ q _ _ 0%nat Hm (col_index_Some _ _ _ Ht)) by (rewrite Hr; reflexivity).
  by rewrite (pick_col _ _ _ q _ _ 2%nat Hm (col_index_Some _ _ _ Hc)) by (rewrite Hr; reflexivity).
Qed.

(** Popping the label of the stored test frame leaves the id table of
    the test split. *)
Lemma pop_test_frame c df :
  pop (test_frame c df) "has_been_opened" =
    Some (split_table (make_testset c df),
          (fun r => if row_has_been_opened r then VBool true else VInt 0) <$> make_testset c df).
Proof.
  rewrite test_frame_eq. unfold pop, split_table. simpl. do 3 f_equal.
  - rewrite <-list_fmap_compose. apply list_fmap_ext. intros _ r _. unfold compose, test_cells. by destruct (row_has_been_opened r).
  - rewrite <-list_fmap_compose. apply list_fmap_ext. intros _ r _. unfold compose, test_cells. by destruct (row_has_been_opened r).
Qed.

(** The prediction matrix never has an id column: the three ids are
    in the index. *)
Lemma make_predictions_no_ids out interim groups upf score xm idx preds rks ys c :
  make_predictions out interim groups upf score = Some (xm, idx, preds, rks, ys) ->
  c ∈ ["user_id"; "trackable_id"; "tracker_created_at"]%string -> c ∉ cols xm.
Proof.
  unfold make_predictions.
  destruct (load_datasets out) as [[[? ?] te]|]; simpl; [|discriminate].
  destruct (pop te _) as [[x y]|]; simpl; [|discriminate].
  destruct (load_features out) as [data|]; simpl; [|discriminate].
  destruct (feature_cols groups interim) as [cs|] eqn:Hcs; simpl; [|discriminate].
  destruct (bind_features x data upf) as [x1|]; simpl; [|discriminate].
  destruct (project x1 cs) as [x2|] eqn:Hpr; simpl; [|discriminate].
  destruct (set_index x2 _) as [[xm0 idx0]|] eqn:Hs; simpl; [|discriminate].
  intros [= <- _ _ _ _] Hc Hin. apply clean_cols_not_date in Hin as [Hin _].
  destruct (project_Some _ _ _ Hpr) as (Hc2 & _).
  refine (set_index_removes x2 _ xm0 idx0 c _ Hs Hc Hin).
  rewrite Hc2. exact (feature_cols_NoDup _ _ _ Hcs).
Qed.

Theorem bind_step_resort x xs data cs by_ :
  sort_table x "tracker_created_at" = Some xs ->
  bind_step xs data cs by_ = bind_step x data cs by_.
Proof. intros H. unfold bind_step. by rewrite H, (sort_table_idem _ _ _ H). Qed.


(** rank bounds: the average descending rank of a score within its
    group is between 1 and the group's size. *)
Theorem rank_desc_bounds ps p :
  p ∈ ps -> (1 <= rank_desc ps p <= inject_Z (Z.of_nat (length ps)))%Q.
Proof.
  intros Hp. unfold rank_desc.
  set (g := count_if (fun q => Qle_bool q p = false) ps).
  set (e := count_if (fun q => Qeq_bool p q = true) ps).
  assert (He : (1 <= e)%nat).
  { apply (count_if_pos _ _ p); [done|]. apply Qeq_bool_iff. reflexivity. }
  assert (Hge : (g + e <= length ps)%nat).
  { apply count_if_disjoint. intros q Hg Heq. apply Qeq_bool_iff in Heq.
    assert (q <= p)%Q by (rewrite Heq; apply Qle_refl).
    apply Qle_bool_iff in H. congruence. }
  pose proof (Qnat_ge1 _ He) as HeQ. pose proof (Qnat_le _ _ Hge) as HgeQ.
  pose proof (Qnat_nonneg g) as Hg0. rewrite Qnat_plus in HgeQ.
  unfold Qdiv. change (/ 2)%Q with (1#2)%Q. split; lra.
Qed.


(** Rank order: within a group, a strictly higher score has a
    strictly smaller (better) average descending rank. *)
Theorem rank_desc_strict_mono ps p p' :
  p ∈ ps -> p' ∈ ps -> (p < p')%Q -> (rank_desc ps p' < rank_desc ps p)%Q.
Proof.
  intros Hp Hp' Hlt. unfold rank_desc.
  assert (He' : (1 <= count_if (fun q => Qeq_bool p' q = true) ps)%nat).
  { apply (count_if_pos _ _ p'); [done|]. apply Qeq_bool_iff. reflexivity. }
  assert (He : (1 <= count_if (fun q => Qeq_bool p q = true) ps)%nat).
  { apply (count_if_pos _ _ p); [done|]. apply Qeq_bool_iff. reflexivity. }
  assert (Hg : (count_if (fun q => Qle_bool q p' = false) ps +
                count_if (fun q => Qeq_bool p' q = true) ps <=
                count_if (fun q => Qle_bool q p = false) ps)%nat).
  { rewrite <- count_if_or.
    - apply count_if_mono. intros q Hq. apply not_true_iff_false. rewrite Qle_bool_iff.
      destruct Hq as [Hq|Hq%Qeq_bool_iff].
      + apply not_true_iff_false in Hq. rewrite Qle_bool_iff in Hq. lra.
      + lra.
    - intros q Hq Heq%Qeq_bool_iff. apply not_true_iff_false in Hq. rewrite Qle_bool_iff in Hq. lra. }
  pose proof (Qnat_le _ _ Hg) as HgQ. rewrite Qnat_plus in HgQ.
  pose proof (Qnat_ge1 _ He) as HeQ. pose proof (Qnat_ge1 _ He') as HeQ'.
  unfold Qdiv. change (/ 2)%Q with (1#2)%Q. lra.
Qed.

(** Error, unsorted [on] column: [pd.merge_asof] on a left frame
    that is not sorted by time raises (ValueError), while the same bind
    through [sort_values] succeeds and binds each row to the latest
    feature row of its user at or before its time (NaN for user 2, whose
    only feature row is later). *)
Example merge_asof_requires_sorted :
  merge_asof x_asof d_asof "tracker_created_at" ["user_id"]%string = None /\
  bind_step x_asof d_asof user_cols ["user_id"]%string =
    Some (mkTable ["trackable_id"; "user_id"; "tracker_created_at"; "user_nb_views"]%string
            [[VInt 8; VInt 2; VInt 5; VNull]; [VInt 9; VInt 1; VInt 10; VInt 3];
             [VInt 7; VInt 1; VInt 30; VInt 4]]).
Proof. split; vm_compute; reflexivity. Qed.


(** One score, one rank and one label per test row: when
    [make_predictions] succeeds, the cleaned matrix has one row per row
    of test.parquet, with as many scores and ranks, and the labels are
    the file's [has_been_opened] column in its stored order (whereas the
    rows are in time order after the binds, see
    [make_predictions_label_order]). *)
Theorem make_predictions_lengths out interim groups upf score tr ev te xm idx preds rks ys :
  load_datasets out = Some (tr, ev, te) ->
  make_predictions out interim groups upf score = Some (xm, idx, preds, rks, ys) ->
  length (rows xm) = length (rows te) /\ length idx = length (rows te) /\
  length preds = length (rows te) /\
  length rks = length (rows te) /\
  exists i, cols te !! i = Some "has_been_opened"%string /\
            ys = (fun r => default VNull (r !! i)) <$> rows te.
Proof.
  intros Hl. unfold make_predictions. rewrite Hl. simpl.
  destruct (pop te _) as [[x y]|] eqn:Hp; simpl; [|discriminate].
  destruct (load_features out) as [data|]; simpl; [|discriminate].
  destruct (feature_cols groups interim) as [cs|]; simpl; [|discriminate].
  destruct (bind_features x data upf) as [x1|] eqn:Hx; simpl; [|discriminate].
  destruct (project x1 cs) as [x2|] eqn:Hpr; simpl; [|discriminate].
  destruct (set_index x2 _) as [[xm0 idx0]|] eqn:Hs; simpl; [|discriminate].
  intros [= <- <- <- <- <-].
  apply pop_Some in Hp as [Hpl Hy]. apply bind_features_length in Hx.
  destruct (project_Some _ _ _ Hpr) as (_ & Hpl2 & _). apply set_index_length in Hs as [Hs1 Hs2].
  rewrite length_ranks, !length_fmap, length_clean_rows. split_and!; [lia|lia|lia|lia|done].
Qed.

(** C18 (finding, the network is trained and run on different
    columns): after [make_dataset] and [merge_features] wrote the
    output directory, the training matrix of [train_model] keeps
    [trackable_id] and [user_id] as numeric input columns (only the
    datetime [tracker_created_at] is dropped), while [make_predictions]
    moves the three ids to the index: the prediction matrix never has
    them, so the network fitted on the first is applied to a matrix
    with two columns fewer. *)
Theorem train_predict_columns_differ c df fs W interim groups upf score X y Xv yv xm idx preds rks ys :
  train_inputs groups (to_parquet (save_splits c df fs) "features" W) interim = Some (X, y, Xv, yv) ->
  make_predictions (to_parquet (save_splits c df fs) "features" W) interim groups upf score =
    Some (xm, idx, preds, rks, ys) ->
  ("trackable_id"%string) ∈ cols X /\ ("user_id"%string) ∈ cols X /\
  ("trackable_id"%string ∉ cols xm) /\ ("user_id"%string ∉ cols xm).
Proof.
  intros Ht Hp. apply train_inputs_saved in Ht as (d & X0 & HX0 & -> & _).
  split_and!.
  - apply (train_matrix_keeps_ids _ _ _ _ HX0). by left.
  - apply (train_matrix_keeps_ids _ _ _ _ HX0). right. by left.
  - apply (make_predictions_no_ids _ _ _ _ _ _ _ _ _ _ _ Hp). right. by left.
  - apply (make_predictions_no_ids _ _ _ _ _ _ _ _ _ _ _ Hp). by left.
Qed.

#[local] Opaque clean.

(** C15 (finding, an opened seed never ranks first on its own): after
    [make_dataset] and [merge_features] wrote the output directory,
    every opened view of a post from the day before, at or after
    TEST_START_DATE, has its (user, post, time) in the index of
    [make_predictions]' matrix, and every row with that index is ranked
    at least 3/2 in its (user, time) group, whatever the network's
    scores: the seed and its unopened copy ([make_testset_seed_duplicated]) are the same row for
    the binds and the network, so they always tie. *)
Theorem seed_rank_tied c df fs W interim groups upf score e xm idx preds rks ys :
  e ∈ pos_testset (test_window c df) -> test_start_date c <= tracker_created_at e ->
  make_predictions (to_parquet (save_splits c df fs) "features" W) interim groups upf score =
    Some (xm, idx, preds, rks, ys) ->
  [VInt (user_id e); VInt (trackable_id e); VInt (tracker_created_at e)] ∈ idx /\
  forall i rk, idx !! i = Some [VInt (user_id e); VInt (trackable_id e); VInt (tracker_created_at e)] ->
    rks !! i = Some rk -> (3 # 2 <= rk)%Q.
Proof.
  intros He Ht.
  set (T := make_testset c df).
  set (h := fun r : SplitRow =>
              [VInt (row_trackable_id r); VInt (row_user_id r); VInt (row_tracker_created_at r)]).
  set (Re := h (keep_cols e)).
  assert (H2 : (2 <= count_if (fun r => r = Re) (h <$> T))%nat).
  { destruct (seed_and_copy c df e He Ht) as [Hs Hn]. rewrite count_if_fmap.
    apply (count_if_two _ _ _ _ Hs Hn); [|done|done].
    apply list_elem_of_filter in He as [[Ho _] _]. unfold keep_cols. rewrite Ho. discriminate. }
  unfold make_predictions. rewrite load_datasets_saved.
  cbn -[pop test_frame load_features feature_cols bind_features project set_index clean ranks].
  rewrite pop_test_frame.
  cbn -[pop test_frame load_features feature_cols bind_features project set_index clean ranks split_table].
  destruct (load_features _) as [data|]; cbn -[feature_cols bind_features project set_index clean ranks];
    [|discriminate].
  destruct (feature_cols groups interim) as [cs|]; cbn -[bind_features project set_index clean ranks];
    [|discriminate].
  destruct (bind_features _ data upf) as [x3|] eqn:Hb; cbn -[project set_index clean ranks]; [|discriminate].
  destruct (project x3 cs) as [x'|] eqn:Hp; cbn -[set_index clean ranks]; [|discriminate].
  destruct (set_index x' _) as [[xm0 idx0]|] eqn:Hs; cbn -[clean ranks]; [|discriminate].
  intros [= <- <- <- <- <-].
  destruct (bind_features_rows (split_table T) _ _ _ (fun i c' H => H) Hb) as [Hids [g Hperm]].
  pose proof (index_cells _ _ _ _ _ Hids Hp Hs) as Hidx.
  destruct (project_rows _ _ _ Hp) as (idxs & _ & ->).
  destruct (set_index_rows _ _ _ _ Hs) as (ki & rest & _ & Hxm0 & _).
  destruct (clean_rows xm0) as [G HG].
  set (F := fun q => score (G (pick rest (pick idxs q)))).
  set (B := fun row : list Val => row ++ g row).
  assert (HS : zip idx0 (score <$> rows (clean xm0)) = (fun q => (index_of q, F q)) <$> rows x3).
  { rewrite Hidx, HG, Hxm0. cbn [rows]. rewrite <-!list_fmap_compose. apply zip_fmap_same. }
  fold T in Hperm. change (rows (split_table T)) with (h <$> T) in Hperm.
  assert (HRe : Re ∈ h <$> T).
  { apply list_elem_of_fmap_2. exact (proj1 (seed_and_copy c df e He Ht)). }
  split.
  - rewrite Hidx. change [VInt (user_id e); VInt (trackable_id e); VInt (tracker_created_at e)]
      with (index_of (B Re)).
    apply list_elem_of_fmap_2. rewrite Hperm. by apply list_elem_of_fmap_2.
  - intros i rk Hi Hrk. rewrite Hidx, list_lookup_fmap in Hi.
    destruct (rows x3 !! i) as [q|] eqn:Hq; [|discriminate]. simpl in Hi. apply (inj Some) in Hi as Hqk.
    (* the row is the seed's bound row *)
    assert (HqB : q = B Re).
    { apply list_elem_of_lookup_2 in Hq. rewrite Hperm in Hq.
      apply list_elem_of_fmap in Hq as (r & -> & (sr & -> & _)%list_elem_of_fmap).
      unfold index_of, B, h in Hqk. simpl in Hqk. injection Hqk as Hu Hp' Ht'.
      unfold Re, keep_cols, h, B. simpl. by rewrite Hu, Hp', Ht'. }
    subst q. unfold ranks in Hrk. cbv zeta in Hrk. rewrite HS, list_lookup_fmap, list_lookup_fmap, Hq in Hrk.
    simpl in Hrk. injection Hrk as <-. apply rank_desc_ge_tied.
    etrans; [|apply (count_group_scores (pick [0%nat; 2%nat]) _ (index_of (B Re)) (F (B Re)))].
    rewrite <-HS, HS, count_if_fmap, (count_if_perm _ _ _ Hperm), count_if_fmap.
    etrans; [exact H2|]. apply count_if_mono. by intros r ->.
Qed.

(** C16 (finding, labels and rows in different orders): after
    [make_dataset] and [merge_features] wrote the output directory, the
    labels [make_predictions] writes are test.parquet's
    [has_been_opened] column in its stored order (the opened seeds first,
    then the synthesized negatives), while the index of the matrix,
    which [X_test["has_been_opened"] = y_test.values] pairs with them
    by position, holds the same (user, post, time) rows in time order
    after the merge_asof binds.  So whenever the test split is not in
    time order, some row of raw_predictions.parquet carries the label
    of another test row. *)
Theorem make_predictions_label_order c df fs W interim groups upf score xm idx preds rks ys :
  make_predictions (to_parquet (save_splits c df fs) "features" W) interim groups upf score =
    Some (xm, idx, preds, rks, ys) ->
  ys = (fun r => if row_has_been_opened r then VBool true else VInt 0) <$> make_testset c df /\
  idx ≡ₚ (fun r => [VInt (row_user_id r); VInt (row_trackable_id r); VInt (row_tracker_created_at r)])
           <$> make_testset c df /\
  sorted_by (fun q => default 0 (time_at 2 q)) idx /\
  (~ sorted_by row_tracker_created_at (make_testset c df) ->
   idx <> (fun r => [VInt (row_user_id r); VInt (row_trackable_id r); VInt (row_tracker_created_at r)])
            <$> make_testset c df).
Proof.
  set (T := make_testset c df).
  unfold make_predictions. rewrite load_datasets_saved.
  cbn -[pop test_frame load_features feature_cols bind_features project set_index clean ranks].
  rewrite pop_test_frame.
  cbn -[pop test_frame load_features feature_cols bind_features project set_index clean ranks split_table].
  destruct (load_features _) as [data|]; cbn -[feature_cols bind_features project set_index clean ranks];
    [|discriminate].
  destruct (feature_cols groups interim) as [cs|]; cbn -[bind_features project set_index clean ranks];
    [|discriminate].
  destruct (bind_features _ data upf) as [x3|] eqn:Hb; cbn -[project set_index clean ranks]; [|discriminate].
  destruct (project x3 cs) as [x'|] eqn:Hp; cbn -[set_index clean ranks]; [|discriminate].
  destruct (set_index x' _) as [[xm0 idx0]|] eqn:Hs; cbn -[clean ranks]; [|discriminate].
  intros [= <- <- <- <- <-].
  destruct (bind_features_rows (split_table T) _ _ _ (fun i c' H => H) Hb) as [Hids [g Hperm]].
  pose proof (index_cells _ _ _ _ _ Hids Hp Hs) as Hidx.
  assert (Hsorted : sorted_by (fun r => default 0 (time_at 2 r)) (rows x3)).
  { apply (bind_features_sorted (split_table T) data upf); [by intros ? ? ?| |exact Hb].
    apply Forall_fmap, Forall_forall. intros r _. simpl. lia. }
  assert (Hsi : sorted_by (fun q => default 0 (time_at 2 q)) idx0).
  { rewrite Hidx. apply (sorted_by_fmap_key (fun r => default 0 (time_at 2 r))); [|exact Hsorted].
    apply Forall_forall. intros q _. unfold index_of, time_at. simpl. by destruct (q !! 2%nat) as [[]|]. }
  split_and!; [done| |exact Hsi|].
  - rewrite Hidx, Hperm. unfold split_table. cbn [rows]. rewrite <-!list_fmap_compose.
    apply reflexive_eq, list_fmap_ext. by intros _ r _.
  - intros Hns Heq. apply Hns.
    rewrite Heq in Hsi. exact (sorted_by_fmap_inv _ _ _ Hsi).
Qed.

#[local] Transparent clean.

Lemma bind_step_resort_witness :
  sort_table x_asof "tracker_created_at" =
    Some (mkTable (cols x_asof) [[VInt 8; VInt 2; VInt 5]; [VInt 9; VInt 1; VInt 10];
                                 [VInt 7; VInt 1; VInt 30]]) /\
  bind_step (mkTable (cols x_asof) [[VInt 8; VInt 2; VInt 5]; [VInt 9; VInt 1; VInt 10];
                                    [VInt 7; VInt 1; VInt 30]]) d_asof user_cols ["user_id"]%string =
  bind_step x_asof d_asof user_cols ["user_id"]%string.
Proof.
  split; [vm_compute; reflexivity|]. apply bind_step_resort. vm_compute. reflexivity.
Defined.


Lemma rank_desc_bounds_witness :
  (2 : Q) ∈ [1; 2; 2; 3]%Q /\
  (1 <= rank_desc [1; 2; 2; 3]%Q 2 <= inject_Z (Z.of_nat (length [1; 2; 2; 3]%Q)))%Q.
Proof.
  split; [elem_at 1%nat|]. apply rank_desc_bounds. elem_at 1%nat.
Defined.

Lemma rank_desc_strict_mono_witness :
  (1 : Q) ∈ [1; 2; 2; 3]%Q /\ (3 : Q) ∈ [1; 2; 2; 3]%Q /\ (1 < 3)%Q /\
  (rank_desc [1; 2; 2; 3]%Q 3 < rank_desc [1; 2; 2; 3]%Q 1)%Q.
Proof.
  assert (H1 : (1 : Q) ∈ [1; 2; 2; 3]%Q) by elem_at 0%nat.
  assert (H3 : (3 : Q) ∈ [1; 2; 2; 3]%Q) by elem_at 3%nat.
  assert (Hlt : (1 < 3)%Q) by (vm_compute; reflexivity).
  split_and!; [exact H1|exact H3|exact Hlt|]. exact (rank_desc_strict_mono _ _ _ H1 H3 Hlt).
Defined.


(** The output directory after [make_dataset] on the sample log and
    [merge_features], and the feature files of [build_features]. *)
Definition out0 : Files :=
  to_parquet (save_splits cfg0 df0 []) "features" (default empty_table (wide_table (frame_of df0))).

Definition interim0 : Files := default [] (build_features (frame_of df0)).

Lemma make_predictions_lengths_witness :
  let run := make_predictions out0 interim0 ["base_features"]%string [] (fun _ => 0%Q) in
  let te := test_frame cfg0 df0 in
  load_datasets out0 = Some (split_frame (make_trainset cfg0 df0), split_frame (make_evalset cfg0 df0), te) /\
  match run with
  | Some (xm, idx, preds, rks, ys) =>
      run = Some (xm, idx, preds, rks, ys) /\
      length (rows xm) = length (rows te) /\ length idx = length (rows te) /\
      length preds = length (rows te) /\
      length rks = length (rows te) /\
      exists i, cols te !! i = Some "has_been_opened"%string /\
                ys = (fun r => default VNull (r !! i)) <$> rows te
  | None => False
  end.
Proof.
  intros run te. assert (Hl : load_datasets out0 = Some (split_frame (make_trainset cfg0 df0),
                                split_frame (make_evalset cfg0 df0), te)) by (vm_compute; reflexivity).
  split; [exact Hl|]. destruct run as [[[[[xm idx] preds] rks] ys]|] eqn:H.
  - split; [reflexivity|]. exact (make_predictions_lengths _ _ _ _ _ _ _ _ _ _ _ _ _ Hl H).
  - vm_compute in H. discriminate.
Defined.

Lemma train_predict_columns_differ_witness :
  match train_inputs ["base_features"]%string out0 interim0,
        make_predictions out0 interim0 ["base_features"]%string [] (fun _ => 0%Q) with
  | Some (X, y, Xv, yv), Some (xm, idx, preds, rks, ys) =>
      train_inputs ["base_features"]%string out0 interim0 = Some (X, y, Xv, yv) /\
      make_predictions out0 interim0 ["base_features"]%string [] (fun _ => 0%Q) =
        Some (xm, idx, preds, rks, ys) /\
      ("trackable_id"%string) ∈ cols X /\ ("user_id"%string) ∈ cols X /\
      ("trackable_id"%string ∉ cols xm) /\ ("user_id"%string ∉ cols xm)
  | _, _ => False
  end.
Proof.
  destruct (train_inputs _ out0 interim0) as [[[[X y] Xv] yv]|] eqn:Ht;
    [|vm_compute in Ht; discriminate].
  destruct (make_predictions out0 interim0 _ _ _) as [[[[[xm idx] preds] rks] ys]|] eqn:Hp;
    [|vm_compute in Hp; discriminate].
  pose proof (train_predict_columns_differ _ _ _ _ _ _ _ _ _ _ _ _ _ _ _ _ _ Ht Hp) as Hd.
  split; [reflexivity|]. split; [reflexivity|]. exact Hd.
Defined.

Lemma seed_rank_tied_witness :
  let e := view_aged 3 100 (midnight 22 + 100) true 1440 in
  e ∈ pos_testset (test_window cfg0 df0) /\ test_start_date cfg0 <= tracker_created_at e /\
  match make_predictions out0 interim0 ["base_features"]%string [] (fun _ => 0%Q) with
  | Some (xm, idx, preds, rks, ys) =>
      make_predictions out0 interim0 ["base_features"]%string [] (fun _ => 0%Q) =
        Some (xm, idx, preds, rks, ys) /\
      [VInt (user_id e); VInt (trackable_id e); VInt (tracker_created_at e)] ∈ idx /\
      forall i rk, idx !! i = Some [VInt (user_id e); VInt (trackable_id e); VInt (tracker_created_at e)] ->
        rks !! i = Some rk -> (3 # 2 <= rk)%Q
  | None => False
  end.
Proof.
  intros e. assert (He : e ∈ pos_testset (test_window cfg0 df0)) by elem_at 0%nat.
  assert (Ht : test_start_date cfg0 <= tracker_created_at e) by (vm_compute; discriminate).
  split; [exact He|]. split; [exact Ht|].
  destruct (make_predictions out0 interim0 _ _ _) as [[[[[xm idx] preds] rks] ys]|] eqn:Hp;
    [|vm_compute in Hp; discriminate].
  split; [reflexivity|]. exact (seed_rank_tied cfg0 df0 [] _ _ _ _ _ e _ _ _ _ _ He Ht Hp).
Defined.

(** A log with two test seeds of user 100 on consecutive days: the
    stored test split lists both seeds before their negatives, so it is
    not in time order. *)
Definition df_two_seeds : list Event :=
  df0 ++ [view_aged 9 100 (midnight 23 + 100) true 1440].

Definition out2 : Files :=
  to_parquet (save_splits cfg0 df_two_seeds []) "features"
             (default empty_table (wide_table (frame_of df_two_seeds))).

Definition interim2 : Files := default [] (build_features (frame_of df_two_seeds)).

Lemma make_predictions_label_order_witness :
  ~ sorted_by row_tracker_created_at (make_testset cfg0 df_two_seeds) /\
  match make_predictions out2 interim2 ["base_features"]%string [] (fun _ => 0%Q) with
  | Some (xm, idx, preds, rks, ys) =>
      make_predictions out2 interim2 ["base_features"]%string [] (fun _ => 0%Q) =
        Some (xm, idx, preds, rks, ys) /\
      ys = (fun r => if row_has_been_opened r then VBool true else VInt 0) <$> make_testset cfg0 df_two_seeds /\
      idx ≡ₚ (fun r => [VInt (row_user_id r); VInt (row_trackable_id r); VInt (row_tracker_created_at r)])
               <$> make_testset cfg0 df_two_seeds /\
      sorted_by (fun q => default 0 (time_at 2 q)) idx /\
      (~ sorted_by row_tracker_created_at (make_testset cfg0 df_two_seeds) ->
       idx <> (fun r => [VInt (row_user_id r); VInt (row_trackable_id r); VInt (row_tracker_created_at r)])
                <$> make_testset cfg0 df_two_seeds)
  | None => False
  end.
Proof.
  split; [apply (bool_decide_unpack _); vm_compute; exact I|].
  destruct (make_predictions out2 interim2 _ _ _) as [[[[[xm idx] preds] rks] ys]|] eqn:Hp;
    [|vm_compute in Hp; discriminate].
  split; [reflexivity|].
  exact (make_predictions_label_order cfg0 df_two_seeds [] (default empty_table (wide_table (frame_of df_two_seeds)))
           _ _ _ _ _ _ _ _ _ Hp).
Defined.
