(* ===== verification/Config.v ===== *)
(** * Configuration: config.yml and the constants read at import time

    config.py's [load_config] opens "config.yml" in the working
    directory and parses it with [yaml.safe_load]; every module of the
    package calls it at import time and reads its constants with
    [CONF[section][key]].  This file models
    - the parsed YAML document ([Yaml]: scalars, lists and mappings,
      the last binding of a repeated key winning as in PyYAML's
      constructor) and subscripting it ([getitem], [getpath]): a
      missing key raises [KeyError], subscripting a scalar, a list or
      [None] raises [TypeError];
    - the exceptions of the configuration and of the commands as
      values of [Exc], threaded by the result monad [result] (stdpp's
      [MBind]/[MRet] classes, so [x ← m; k] reads like the code);
    - [load_config] (config.py, lines 4-10), including its
      [except yaml.YAMLError] branch, which prints the error and then
      returns the unassigned [data] ([UnboundLocalError]);
    - the module-level constants of utils.py, make_dataset.py, the four
      feature modules, build_features.py, merge_features.py,
      train_model.py and predict_model.py, one record per module, and
      [startup]: the module bodies the imports of __main__.py (lines
      1-6) run, in the order Python runs them when every import
      resolves.  That is the package completed with the two modules
      the sources import but do not contain (features/__init__.py and
      features/feature.py): Imports.v proves this order from a model of
      the import system on the completed tree, and that on the sources
      as given the imports raise [ModuleNotFoundError] before any
      configuration key is read.
    The parser itself ([yaml.safe_load] on the file's text) is a
    library call: it is a parameter of the section. *)

From S2P Require Import Prelude.
From stdpp Require Import strings.

(** ** YAML documents and exceptions *)

Inductive Yaml :=
| YNull
| YBool (b : bool)
| YInt (z : Z)
| YStr (s : string)
| YDate (d : Z)
| YList (l : list Yaml)
| YMap (m : list (string * Yaml)).

(** The exceptions the model raises.  [PandasError] stands for the
    exceptions of the pandas calls of a command ([KeyError] on a
    missing column, [FileNotFoundError] on a missing parquet file,
    [ValueError] of merge_asof), which the table model reports as
    [None]; [OSError] is Keras' [load_model] on a missing model.
    [ModuleNotFoundError] and [ImportError] are raised by the import
    system (Imports.v). *)
Inductive Exc :=
| FileNotFoundError
| UnboundLocalError
| KeyError (k : string)
| TypeError
| OSError
| PandasError
| ModuleNotFoundError (name : string)
| ImportError (name : string) (from : string).

#[export] Instance Exc_eq_dec : EqDecision Exc.
Proof. solve_decision. Defined.

Inductive result (A : Type) :=
| Ok (a : A)
| Err (e : Exc).
Arguments Ok {A} a.
Arguments Err {A} e.

#[export] Instance result_ret : MRet result := fun A a => Ok a.
#[export] Instance result_bind : MBind result :=
  fun A B f r => match r with Ok a => f a | Err e => Err e end.

(** [dict[k]] of a mapping built by PyYAML: the last binding of [k]. *)
Fixpoint ylookup (k : string) (m : list (string * Yaml)) : option Yaml :=
  match m with
  | [] => None
  | (k', v) :: m' =>
      match ylookup k m' with
      | Some v' => Some v'
      | None => if decide (k = k') then Some v else None
      end
  end.

(** [d[k]] with a string key. *)
Definition getitem (d : Yaml) (k : string) : result Yaml :=
  match d with
  | YMap m => match ylookup k m with Some v => Ok v | None => Err (KeyError k) end
  | _ => Err TypeError
  end.

(** [CONF[k1][k2]...] *)
Fixpoint getpath (d : Yaml) (ks : list string) : result Yaml :=
  match ks with
  | [] => Ok d
  | k :: ks' => v ← getitem d k; getpath v ks'
  end.

(** ** load_config *)

(** The working directory: the text of each file by name. *)
Definition Cwd := string -> option string.

Section Load.
(** [yaml.safe_load] on a text: the document, or [None] for a
    [yaml.YAMLError]. *)
Context (safe_load : string -> option Yaml).

(** [load_config()]: [open("config.yml")] raises [FileNotFoundError]
    on a missing file; a YAMLError is printed and [return data] then
    raises [UnboundLocalError]. *)
Definition load_config (cwd : Cwd) : result Yaml :=
  match cwd "config.yml"%string with
  | None => Err FileNotFoundError
  | Some text =>
      match safe_load text with
      | Some data => Ok data
      | None => Err UnboundLocalError
      end
  end.

(** ** The constants of each module *)

(** utils.py, lines 6-8. *)
Record UtilsMod := mkUtilsMod { utils_DATA_PATH : Yaml; utils_OUPUT_ROOT : Yaml }.

Definition utils_init (CONF : Yaml) : result UtilsMod :=
  DATA_PATH ← getpath CONF ["path"; "input_data_path"];
  OUPUT_ROOT ← getpath CONF ["path"; "output_data_root"];
  mret (mkUtilsMod DATA_PATH OUPUT_ROOT).

(** data/make_dataset.py, lines 10-21. *)
Record DatasetMod := mkDatasetMod {
  dataset_DATA_PATH : Yaml; dataset_OUPUT_ROOT : Yaml;
  TRAIN_START_DATE : Yaml; TRAIN_END_DATE : Yaml;
  EVAL_START_DATE : Yaml; EVAL_END_DATE : Yaml;
  TEST_START_DATE : Yaml; TEST_END_DATE : Yaml
}.

Definition make_dataset_init (CONF : Yaml) : result DatasetMod :=
  DATA_PATH ← getpath CONF ["path"; "input_data_path"];
  OUPUT_ROOT ← getpath CONF ["path"; "output_data_root"];
  tsd ← getpath CONF ["dataset"; "train_start_date"];
  ted ← getpath CONF ["dataset"; "train_end_date"];
  esd ← getpath CONF ["dataset"; "eval_start_date"];
  eed ← getpath CONF ["dataset"; "eval_end_date"];
  ssd ← getpath CONF ["dataset"; "test_start_date"];
  sed ← getpath CONF ["dataset"; "test_end_date"];
  mret (mkDatasetMod DATA_PATH OUPUT_ROOT tsd ted esd eed ssd sed).

(** base_features.py (lines 52-54), extra_features.py (14-16),
    post_popularity.py and user_post_popularity.py (8-10): the input
    path and the interim directory they write to. *)
Record FeatureMod := mkFeatureMod { feature_DATA_PATH : Yaml; feature_OUTPUT_ROOT : Yaml }.

Definition feature_init (CONF : Yaml) : result FeatureMod :=
  DATA_PATH ← getpath CONF ["path"; "input_data_path"];
  OUTPUT_ROOT ← getpath CONF ["path"; "interim_data_root"];
  mret (mkFeatureMod DATA_PATH OUTPUT_ROOT).

(** build_features.py, lines 15-17. *)
Definition build_init (CONF : Yaml) : result FeatureMod :=
  DATA_PATH ← getpath CONF ["path"; "input_data_path"];
  OUTPUT_ROOT ← getpath CONF ["path"; "output_data_root"];
  mret (mkFeatureMod DATA_PATH OUTPUT_ROOT).

(** merge_features.py, lines 14-27. *)
Record MergeMod := mkMergeMod {
  merge_DATA_PATH : Yaml; merge_OUTPUT_ROOT : Yaml; merge_INTERIM_ROOT : Yaml;
  merge_FEATURE_DEFINITIONS : Yaml; merge_FEATURES : Yaml
}.

Definition merge_init (CONF : Yaml) : result MergeMod :=
  DATA_PATH ← getpath CONF ["path"; "input_data_path"];
  OUTPUT_ROOT ← getpath CONF ["path"; "output_data_root"];
  INTERIM_ROOT ← getpath CONF ["path"; "interim_data_root"];
  FEATURE_DEFINITIONS ← getpath CONF ["feature_definitions"];
  FEATURES ← getpath CONF ["features"];
  mret (mkMergeMod DATA_PATH OUTPUT_ROOT INTERIM_ROOT FEATURE_DEFINITIONS FEATURES).

(** The path constants of train_model.py (lines 21-26) and
    predict_model.py (lines 25-30). *)
Record ModelPaths := mkModelPaths {
  model_DATA_PATH : Yaml; model_MODELS_ROOT : Yaml; model_LOGS_ROOT : Yaml;
  model_INTERIM_ROOT : Yaml; model_OUTPUT_ROOT : Yaml
}.

Definition model_paths_init (CONF : Yaml) : result ModelPaths :=
  DATA_PATH ← getpath CONF ["path"; "input_data_path"];
  MODELS_ROOT ← getpath CONF ["path"; "models_root"];
  LOGS_ROOT ← getpath CONF ["path"; "logs_root"];
  INTERIM_ROOT ← getpath CONF ["path"; "interim_data_root"];
  OUTPUT_ROOT ← getpath CONF ["path"; "output_data_root"];
  mret (mkModelPaths DATA_PATH MODELS_ROOT LOGS_ROOT INTERIM_ROOT OUTPUT_ROOT).

(** train_model.py, lines 21-38. *)
Record TrainMod := mkTrainMod {
  train_paths : ModelPaths; train_FEATURE_DEFINITIONS : Yaml; EPOCH : Yaml; PATIENCE : Yaml
}.

Definition train_init (CONF : Yaml) : result TrainMod :=
  ps ← model_paths_init CONF;
  FEATURE_DEFINITIONS ← getpath CONF ["feature_definitions"];
  EPOCH ← getpath CONF ["model"; "epoch"];
  PATIENCE ← getpath CONF ["model"; "early_stopping_patience"];
  mret (mkTrainMod ps FEATURE_DEFINITIONS EPOCH PATIENCE).

(** predict_model.py, lines 25-40. *)
Record PredictMod := mkPredictMod {
  predict_paths : ModelPaths; predict_FEATURE_DEFINITIONS : Yaml; predict_FEATURES : Yaml
}.

Definition predict_init (CONF : Yaml) : result PredictMod :=
  ps ← model_paths_init CONF;
  FEATURE_DEFINITIONS ← getpath CONF ["feature_definitions"];
  FEATURES ← getpath CONF ["features"];
  mret (mkPredictMod ps FEATURE_DEFINITIONS FEATURES).

(** A module body: [CONF = load_config()] then its constants. *)
Definition module_init {A} (body : Yaml -> result A) (cwd : Cwd) : result A :=
  CONF ← load_config cwd; body CONF.

Record Modules := mkModules {
  mod_utils : UtilsMod; mod_make_dataset : DatasetMod;
  mod_base_features : FeatureMod; mod_extra_features : FeatureMod;
  mod_post_popularity : FeatureMod; mod_user_post_popularity : FeatureMod;
  mod_build_features : FeatureMod; mod_merge_features : MergeMod;
  mod_train_model : TrainMod; mod_predict_model : PredictMod
}.

(** The imports of __main__.py: make_dataset imports utils first; then
    build_features imports the four feature modules; then
    merge_features, train_model and predict_model.  A module imported
    again is not run again. *)
Definition startup (cwd : Cwd) : result Modules :=
  u ← module_init utils_init cwd;
  md ← module_init make_dataset_init cwd;
  bf ← module_init feature_init cwd;
  ef ← module_init feature_init cwd;
  pp ← module_init feature_init cwd;
  upp ← module_init feature_init cwd;
  b ← module_init build_init cwd;
  m ← module_init merge_init cwd;
  t ← module_init train_init cwd;
  p ← module_init predict_init cwd;
  mret (mkModules u md bf ef pp upp b m t p).

End Load.

(** A config.yml whose [model] section lacks [epoch]. *)
Definition sample_config : Yaml :=
  YMap [("path", YMap [("input_data_path", YStr "data/raw/log.json.gz");
                       ("output_data_root", YStr "data/processed");
                       ("interim_data_root", YStr "data/interim");
                       ("models_root", YStr "models"); ("logs_root", YStr "logs")]);
        ("dataset", YMap [("train_start_date", YDate 0); ("train_end_date", YDate 10);
                          ("eval_start_date", YDate 11); ("eval_end_date", YDate 20);
                          ("test_start_date", YDate 21); ("test_end_date", YDate 30)]);
        ("feature_definitions", YMap []); ("features", YMap []);
        ("model", YMap [("early_stopping_patience", YInt 3)])]%string.

(** A working directory holding config.yml. *)
Definition sample_cwd : Cwd := fun f => if String.eqb f "config.yml" then Some ""%string else None.

(** ** Example *)

(** With [sample_config], the module bodies of the completed package
    stop at the first missing key, model.epoch, read by
    train_model.py. *)
Example startup_sample_config :
  startup (fun _ => Some sample_config) sample_cwd = Err (KeyError "epoch").
Proof. vm_compute. reflexivity. Qed.
