(* ===== verification/Pipeline.v ===== *)
(** * The command line: the five commands of __main__.py over the disk

    __main__.py collects the click groups of make_dataset.py,
    build_features.py, merge_features.py, predict_model.py and
    train_model.py into one command line; each invocation runs the
    module bodies ([Config.startup]) and then one command, which reads
    and writes files.  The stages communicate only through those files,
    and each command reads them from the directories config.yml names,
    whatever options it was given.  This file models
    - the disk ([Disk]): the JSON logs by path, the parquet directories
      by path (each a [Storage.Files]) and the saved Keras models by
      directory;
    - the options of each command with their click defaults
      ([DatasetOpts], [PathOpts], [TrainOpts], [PredictOpts]) and the
      commands ([Cmd]);
    - one function per command, from the disk to the disk after the
      command and the exception it raised, if any ([exec]): the effects
      made before an exception stay on the disk; make_dataset's
      [TypeError] on an empty lookback frame (make_dataset.py line 158)
      comes after train.parquet and eval.parquet are written;
    - a sequence of invocations on one disk ([run]).
    The network (a fallible [fit], whose exception train_model raises
    before saving, and [predict]) and [USER_POST_FEATURES] (a module not
    in the sources) are parameters of the section; the module bodies run
    before a command are Imports.v's [run_python]. *)

From S2P Require Import Prelude Events Dataset Table Clean Merge Storage Features Train Predict Config.
From stdpp Require Import gmap strings.

Open Scope Z_scope.

(** ** Configuration and options *)

(** The [path] section of config.yml, as strings. *)
Record Roots := mkRoots {
  input_data_path : string;
  output_data_root : string;
  interim_data_root : string;
  models_root : string;
  logs_root : string
}.

Definition ystr (v : Yaml) : option string :=
  match v with YStr s => Some s | _ => None end.

(** The paths the modules read at startup, when they are strings. *)
Definition roots_of (ms : Modules) : option Roots :=
  let ps := train_paths (mod_train_model ms) in
  d ← ystr (model_DATA_PATH ps);
  o ← ystr (model_OUTPUT_ROOT ps);
  i ← ystr (model_INTERIM_ROOT ps);
  m ← ystr (model_MODELS_ROOT ps);
  l ← ystr (model_LOGS_ROOT ps);
  Some (mkRoots d o i m l).

(** [os.path.join(a, b)] for a relative [b]. *)
Definition path_join (a b : string) : string :=
  if String.eqb a "" then b
  else if ends_with "/" a then (a +:+ b)%string else (a +:+ "/" +:+ b)%string.

(** The options of [make_dataset] (make_dataset.py, lines 27-100). *)
Record DatasetOpts := mkDatasetOpts {
  dataset_data_path : string;
  dataset_output_root : string;
  opt_train_start_date : Z;
  opt_train_end_date : Z;
  opt_eval_start_date : Z;
  opt_eval_end_date : Z;
  opt_test_start_date : Z;
  opt_test_end_date : Z
}.

(** The options of [build_features] and [merge_features]
    (build_features.py, lines 31-48; merge_features.py, lines 34-51). *)
Record PathOpts := mkPathOpts { opt_data_path : string; opt_output_root : string }.

(** The options of [train_model] (train_model.py, lines 46-80). *)
Record TrainOpts := mkTrainOpts {
  train_output_root : string;
  train_models_root : string;
  train_logs_root : string;
  train_features : list string
}.

(** The options of [make_predictions] (predict_model.py, lines 48-82). *)
Record PredictOpts := mkPredictOpts {
  testset_path : string;
  predict_models_root : string;
  predict_output_root : string;
  predict_features : list string
}.

Inductive Cmd :=
| MakeDataset (o : DatasetOpts)
| BuildFeatures (o : PathOpts)
| MergeFeatures (o : PathOpts)
| TrainModel (o : TrainOpts)
| MakePredictions (o : PredictOpts).

(** The click defaults: the module constants. *)
Definition dataset_defaults (R : Roots) (c : Config) : DatasetOpts :=
  mkDatasetOpts (input_data_path R) (output_data_root R)
    (train_start_date c) (train_end_date c) (eval_start_date c) (eval_end_date c)
    (test_start_date c) (test_end_date c).

Definition build_defaults (R : Roots) : PathOpts := mkPathOpts (input_data_path R) (output_data_root R).

Definition merge_defaults (R : Roots) : PathOpts := mkPathOpts (input_data_path R) (output_data_root R).

Definition train_defaults (R : Roots) : TrainOpts :=
  mkTrainOpts (output_data_root R) (models_root R) (logs_root R) FEATURE_DICT.*1.

Definition predict_defaults (R : Roots) : PredictOpts :=
  mkPredictOpts (path_join (output_data_root R) "test.csv") (models_root R) (output_data_root R)
    FEATURE_DICT.*1.

(** [load_data()] (utils.py, lines 11-20) on the cells and the typed
    events of the log: [drop_duplicates] on the three ids keeps the
    first row of each key, with all its cells. *)
Definition load_frame (fr : Frame) : Frame :=
  let kept := dedup_by (event_key ∘ fst) (zip (events fr) (rows (frame fr))) in
  mkFrame (fst <$> kept) (mkTable (cols (frame fr)) (snd <$> kept)).

(** The rows [X_test] has when it is written to raw_predictions.parquet
    (predict_model.py, lines 146-169): its index (the three ids), its
    columns, the prediction, the rank and the label; [y_test.values]
    of another length raises [ValueError]. *)
Definition raw_predictions (xm : Table) (idx : list (list Val)) (preds rks : list Q) (y : list Val)
  : option Table :=
  if decide (length y = length (rows xm)) then
    Some (mkTable (["user_id"; "trackable_id"; "tracker_created_at"]%string ++ cols xm ++
                   ["predictions"; "rank"; "has_been_opened"]%string)
                  (zip_with (fun ir pky => ir.1 ++ ir.2 ++ [VNum pky.1.1; VNum pky.1.2; pky.2])
                            (zip idx (rows xm)) (zip (zip preds rks) y)))
  else None.

(** ** The disk and the commands *)

Section Commands.
(** The Keras model: the model [fit] trains on the train and validation
    matrices and labels and saves as final_model (train_model.py, lines
    118-184), or the exception Keras raises (matrices and labels of
    different lengths, a non-numeric cell), and its score of one row of
    [X_test]. *)
Context {Model : Type}.
Context (fit : Table -> list Z -> Table -> list Z -> result Model).
Context (predict : Model -> list Val -> Q).
(** [USER_POST_FEATURES] of wemoms_homework.features. *)
Context (USER_POST_FEATURES : list string).
(** The six dates of config.yml as timestamps, and its paths. *)
Context (cfg : Config) (R : Roots).

Record Disk := mkDisk {
  logs : gmap string Frame;
  dirs : gmap string Files;
  saved_models : gmap string Model
}.

(** The files of a directory; a missing directory has none. *)
Definition dir_files (d : Disk) (root : string) : Files :=
  match dirs d !! root with Some fs => fs | None => [] end.

Definition set_dir (d : Disk) (root : string) (fs : Files) : Disk :=
  mkDisk (logs d) (<[root := fs]> (dirs d)) (saved_models d).

(** [os.makedirs(root, exist_ok=True)] *)
Definition makedirs (root : string) (d : Disk) : Disk :=
  match dirs d !! root with Some _ => d | None => set_dir d root [] end.

(** [df = load_data()]: the log at the configured [input_data_path]. *)
Definition read_log (d : Disk) : result Frame :=
  match logs d !! input_data_path R with
  | Some fr => Ok (load_frame fr)
  | None => Err FileNotFoundError
  end.

(** [make_dataset] (make_dataset.py, lines 93-204): the train and eval
    splits of the loaded log written to [--output-root] (a missing
    directory raises at the first [to_parquet]); then the test split,
    whose line 158 raises [TypeError] on an empty lookback frame
    (see [Dataset.make_dataset]) after the first two files are
    written; then test.parquet and the sanity check.  The date options
    are not read. *)
Definition make_dataset_cmd (o : DatasetOpts) (d : Disk) : Disk * option Exc :=
  match read_log d with
  | Err e => (d, Some e)
  | Ok df =>
      match dirs d !! dataset_output_root o with
      | None => (d, Some FileNotFoundError)
      | Some fs =>
          let fs1 := save_train_eval cfg (events df) fs in
          match test_window cfg (events df) with
          | [] => (set_dir d (dataset_output_root o) fs1, Some TypeError)
          | _ :: _ =>
              let fs' := to_parquet fs1 "test" (test_frame cfg (events df)) in
              (set_dir d (dataset_output_root o) fs',
               match sanity_check fs' with Some _ => None | None => Some PandasError end)
          end
      end
  end.

(** [build_features] (build_features.py, lines 48-54): the four
    extractors write to the interim directory, which the first one
    creates before it selects its columns. *)
Definition build_features_cmd (o : PathOpts) (d : Disk) : Disk * option Exc :=
  match read_log d with
  | Err e => (d, Some e)
  | Ok df =>
      let d := makedirs (interim_data_root R) d in
      match build_features df with
      | None => (d, Some PandasError)
      | Some new => (set_dir d (interim_data_root R) (dir_files d (interim_data_root R) ++ new), None)
      end
  end.

(** [merge_features] (merge_features.py, lines 51-72): every feature
    file of FEATURE_DEFINITIONS is read from the interim directory (a
    missing one raises before anything is written), merged, and the
    result written to the configured output directory. *)
Definition merge_features_cmd (o : PathOpts) (d : Disk) : Disk * option Exc :=
  let ifs := dir_files d (interim_data_root R) in
  match mapM (read_parquet ifs) (mjoin (FEATURE_DEFINITIONS.*2)) with
  | None => (d, Some PandasError)
  | Some _ =>
      match merge_features FEATURE_DEFINITIONS FEATURES (read_file ifs) with
      | None => (d, Some PandasError)
      | Some t =>
          match dirs d !! output_data_root R with
          | None => (d, Some FileNotFoundError)
          | Some fs => (set_dir d (output_data_root R) (to_parquet fs "features" t), None)
          end
      end
  end.

(** [train_model] (train_model.py, lines 80-184): the matrices from
    the configured directories, then the two [os.makedirs], the fit,
    and the model saved under [--models-root]; an exception of the fit
    leaves the two directories made and saves nothing. *)
Definition train_model_cmd (o : TrainOpts) (d : Disk) : Disk * option Exc :=
  match train_inputs (train_features o) (dir_files d (output_data_root R))
                     (dir_files d (interim_data_root R)) with
  | None => (d, Some PandasError)
  | Some (xtr, ytr, xev, yev) =>
      let d := makedirs (train_logs_root o) (makedirs (train_models_root o) d) in
      match fit xtr ytr xev yev with
      | Err e => (d, Some e)
      | Ok m => (mkDisk (logs d) (dirs d) (<[train_models_root o := m]> (saved_models d)), None)
      end
  end.

(** [make_predictions] (predict_model.py, lines 82-169): the matrix is
    built first, then the model is loaded from [--models-root], and
    X_test with its predictions, ranks and labels is written to the
    configured output directory. *)
Definition make_predictions_cmd (o : PredictOpts) (d : Disk) : Disk * option Exc :=
  let out := dir_files d (output_data_root R) in
  let interim := dir_files d (interim_data_root R) in
  match saved_models d !! predict_models_root o with
  | None =>
      (d, Some (match make_predictions out interim (predict_features o) USER_POST_FEATURES (fun _ => 0%Q) with
                | Some _ => OSError
                | None => PandasError
                end))
  | Some m =>
      match make_predictions out interim (predict_features o) USER_POST_FEATURES (predict m) with
      | None => (d, Some PandasError)
      | Some (xm, idx, preds, rks, y) =>
          match raw_predictions xm idx preds rks y with
          | None => (d, Some PandasError)
          | Some t =>
              match dirs d !! output_data_root R with
              | None => (d, Some FileNotFoundError)
              | Some fs => (set_dir d (output_data_root R) (to_parquet fs "raw_predictions" t), None)
              end
          end
      end
  end.

Definition exec (c : Cmd) (d : Disk) : Disk * option Exc :=
  match c with
  | MakeDataset o => make_dataset_cmd o d
  | BuildFeatures o => build_features_cmd o d
  | MergeFeatures o => merge_features_cmd o d
  | TrainModel o => train_model_cmd o d
  | MakePredictions o => make_predictions_cmd o d
  end.

(** Invocations one after the other: the final disk and what each
    raised. *)
Fixpoint run (cs : list Cmd) (d : Disk) : Disk * list (option Exc) :=
  match cs with
  | [] => (d, [])
  | c :: cs' => let '(d1, r) := exec c d in let '(d2, rs) := run cs' d1 in (d2, r :: rs)
  end.


(** A name that is not one of the feature files. *)
Ltac not_listed := let H := fresh in
  intros H; unfold FILE_NAMES in H;
  repeat (apply elem_of_cons in H as [H|H]; [discriminate H|]); by apply elem_of_nil in H.

(** ** The directories each command writes *)

Lemma dir_files_set_dir d root fs x :
  dir_files (set_dir d root fs) x = if decide (root = x) then fs else dir_files d x.
Proof.
  unfold dir_files, set_dir. simpl. case_decide as H.
  - subst. by rewrite lookup_insert_eq.
  - by rewrite lookup_insert_ne.
Qed.

Lemma dir_files_makedirs d root x : dir_files (makedirs root d) x = dir_files d x.
Proof.
  unfold makedirs. destruct (dirs d !! root) eqn:Hr; [done|].
  rewrite dir_files_set_dir. case_decide as H; [|done]. rewrite <-H. unfold dir_files. by rewrite Hr.
Qed.

Lemma dir_files_lookup d root fs : dirs d !! root = Some fs -> dir_files d root = fs.
Proof. unfold dir_files. by intros ->. Qed.

(** No command but [make_dataset] writes a file named train. *)
Lemma exec_keeps_no_train c d root :
  read_parquet (dir_files d root) "train" = None ->
  (forall o, c = MakeDataset o -> dataset_output_root o <> root) ->
  read_parquet (dir_files (exec c d).1 root) "train" = None.
Proof.
  intros Hn Hc. destruct c as [o|o|o|o|o]; simpl.
  - unfold make_dataset_cmd. destruct (read_log d); [|done].
    destruct (dirs d !! dataset_output_root o); [|done].
    destruct (test_window _ _); simpl;
      rewrite dir_files_set_dir; (case_decide; [|done]); by destruct (Hc o eq_refl).
  - unfold build_features_cmd. destruct (read_log d) as [df|]; [|done].
    destruct (build_features df) as [new|] eqn:Hb; simpl; [|by rewrite dir_files_makedirs].
    rewrite dir_files_set_dir. case_decide as Hr; [subst|by rewrite dir_files_makedirs].
    rewrite read_parquet_app_other, dir_files_makedirs; [done|].
    rewrite (build_features_names _ _ Hb). not_listed.
  - unfold merge_features_cmd. destruct (mapM _ _); [|done]. destruct (merge_features _ _ _); [|done].
    destruct (dirs d !! output_data_root R) eqn:Hfs; simpl; [|done].
    rewrite dir_files_set_dir. case_decide; [subst|done].
    rewrite read_parquet_other by discriminate. by rewrite (dir_files_lookup _ _ _ Hfs) in Hn.
  - unfold train_model_cmd. destruct (train_inputs _ _ _) as [[[[? ?] ?] ?]|]; simpl; [|done].
    destruct (fit _ _ _ _); simpl; [|by rewrite !dir_files_makedirs].
    change (dir_files (makedirs (train_logs_root o) (makedirs (train_models_root o) d)) root) with
      (dir_files (makedirs (train_logs_root o) (makedirs (train_models_root o) d)) root).
    unfold dir_files. simpl. fold (dir_files (makedirs (train_logs_root o) (makedirs (train_models_root o) d)) root).
    by rewrite !dir_files_makedirs.
  - unfold make_predictions_cmd. destruct (saved_models d !! _); [|done].
    destruct (make_predictions _ _ _ _ _) as [[[[[? ?] ?] ?] ?]|]; [|done].
    destruct (raw_predictions _ _ _ _ _); [|done].
    destruct (dirs d !! output_data_root R) eqn:Hfs; simpl; [|done].
    rewrite dir_files_set_dir. case_decide; [subst|done].
    rewrite read_parquet_other by discriminate. by rewrite (dir_files_lookup _ _ _ Hfs) in Hn.
Qed.

Lemma run_keeps_no_train cs d root :
  read_parquet (dir_files d root) "train" = None ->
  Forall (fun c => forall o, c = MakeDataset o -> dataset_output_root o <> root) cs ->
  read_parquet (dir_files (run cs d).1 root) "train" = None.
Proof.
  intros Hn Hcs. revert d Hn. induction Hcs as [|c cs Hc _ IH]; intros d Hn; simpl; [done|].
  pose proof (exec_keeps_no_train c d root Hn Hc) as H1.
  destruct (exec c d) as [d1 r]. specialize (IH d1 H1). by destruct (run cs d1).
Qed.


Lemma saved_models_makedirs root d : saved_models (makedirs root d) = saved_models d.
Proof. unfold makedirs. by destruct (dirs d !! root). Qed.

(** No command but [train_model] saves a model. *)
Lemma exec_keeps_no_model c d root :
  saved_models d !! root = None ->
  (forall o, c = TrainModel o -> train_models_root o <> root) ->
  saved_models (exec c d).1 !! root = None.
Proof.
  intros Hn Hc. destruct c as [o|o|o|o|o]; simpl.
  - unfold make_dataset_cmd. destruct (read_log d); [|done].
    destruct (dirs d !! dataset_output_root o); [|done]. by destruct (test_window _ _).
  - unfold build_features_cmd. destruct (read_log d); [|done].
    destruct (build_features _); simpl; by rewrite saved_models_makedirs.
  - unfold merge_features_cmd. destruct (mapM _ _); [|done]. destruct (merge_features _ _ _); [|done].
    by destruct (dirs d !! output_data_root R).
  - unfold train_model_cmd. destruct (train_inputs _ _ _) as [[[[? ?] ?] ?]|]; simpl; [|done].
    destruct (fit _ _ _ _); simpl; [|by rewrite !saved_models_makedirs].
    rewrite lookup_insert_ne by exact (Hc o eq_refl).
    by rewrite !saved_models_makedirs.
  - unfold make_predictions_cmd. destruct (saved_models d !! predict_models_root o); simpl; [|done].
    destruct (make_predictions _ _ _ _ _) as [[[[[? ?] ?] ?] ?]|]; [|done].
    destruct (raw_predictions _ _ _ _ _); [|done]. by destruct (dirs d !! output_data_root R).
Qed.

Lemma run_keeps_no_model cs d root :
  saved_models d !! root = None ->
  Forall (fun c => forall o, c = TrainModel o -> train_models_root o <> root) cs ->
  saved_models (run cs d).1 !! root = None.
Proof.
  intros Hn Hcs. revert d Hn. induction Hcs as [|c cs Hc _ IH]; intros d Hn; simpl; [done|].
  pose proof (exec_keeps_no_model c d root Hn Hc) as H1.
  destruct (exec c d) as [d1 r]. specialize (IH d1 H1). by destruct (run cs d1).
Qed.


Lemma train_inputs_no_train groups out interim :
  read_parquet out "train" = None -> train_inputs groups out interim = None.
Proof. intros H. unfold train_inputs, load_datasets. by rewrite H. Qed.

(** ** Properties of the command line *)

(** The options a command reads: [--output-root] of make_dataset,
    [--models-root], [--logs-root] and [--features] of train_model,
    [--models-root] and [--features] of make_predictions. *)
Definition same_options (c1 c2 : Cmd) : Prop :=
  match c1, c2 with
  | MakeDataset o1, MakeDataset o2 => dataset_output_root o1 = dataset_output_root o2
  | BuildFeatures _, BuildFeatures _ => True
  | MergeFeatures _, MergeFeatures _ => True
  | TrainModel o1, TrainModel o2 =>
      train_models_root o1 = train_models_root o2 /\ train_logs_root o1 = train_logs_root o2 /\
      train_features o1 = train_features o2
  | MakePredictions o1, MakePredictions o2 =>
      predict_models_root o1 = predict_models_root o2 /\ predict_features o1 = predict_features o2
  | _, _ => False
  end.

(** C20 (options ignored): two invocations of the same command that
    differ only in the other options have the same effect on every
    disk and raise the same exception: [--data-path] of make_dataset,
    build_features and merge_features, the six date options of
    make_dataset, [--output-root] of build_features, merge_features,
    train_model and make_predictions, and [--testset-path] of
    make_predictions are never read. *)
Theorem options_ignored c1 c2 d : same_options c1 c2 -> exec c1 d = exec c2 d.
Proof.
  destruct c1 as [o1|o1|o1|o1|o1], c2 as [o2|o2|o2|o2|o2]; simpl; try done.
  - unfold make_dataset_cmd. by intros ->.
  - unfold train_model_cmd. by intros (-> & -> & ->).
  - unfold make_predictions_cmd. by intros (-> & ->).
Qed.

(** C21 (finding, make_dataset's --output-root is not where training
    reads): [load_datasets] reads the configured [output_data_root],
    whatever make_dataset was told.  From a disk whose configured
    output directory has no train.parquet, after any invocations none
    of which is a make_dataset writing to that directory (for instance
    make_dataset with another [--output-root], then build_features and
    merge_features), train_model raises and saves no model. *)
Theorem train_ignores_dataset_output_root cs d ot :
  read_parquet (dir_files d (output_data_root R)) "train" = None ->
  Forall (fun c => forall o, c = MakeDataset o -> dataset_output_root o <> output_data_root R) cs ->
  exec (TrainModel ot) (run cs d).1 = ((run cs d).1, Some PandasError).
Proof.
  intros Hn Hcs. pose proof (run_keeps_no_train cs d _ Hn Hcs) as H.
  simpl. unfold train_model_cmd. by rewrite train_inputs_no_train.
Qed.

(** C22 (ordering, no prediction before training): from a disk with no
    model saved under [--models-root], after any invocations none of
    which is a train_model saving there, make_predictions raises
    ([OSError] from load_model, or earlier from pandas) and leaves the
    disk as it is. *)
Theorem predict_needs_trained_model cs d op :
  saved_models d !! predict_models_root op = None ->
  Forall (fun c => forall o, c = TrainModel o -> train_models_root o <> predict_models_root op) cs ->
  exists e, exec (MakePredictions op) (run cs d).1 = ((run cs d).1, Some e).
Proof.
  intros Hn Hcs. pose proof (run_keeps_no_model cs d _ Hn Hcs) as H.
  simpl. unfold make_predictions_cmd. rewrite H. by eexists.
Qed.


End Commands.

(** ** Witnesses *)

(** A model that is the unit value, the configured paths of
    [sample_config], and a disk holding the log [df0] of Dataset.v with
    three empty directories. *)
Definition fit0 (_ : Table) (_ : list Z) (_ : Table) (_ : list Z) : result unit := Ok tt.
Definition predict0 (_ : unit) (_ : list Val) : Q := 0.
Definition R0 : Roots := mkRoots "data/raw/log.json.gz" "data/processed" "data/interim" "models" "logs".
Definition disk0 : @Disk unit :=
  mkDisk {[ "data/raw/log.json.gz"%string := frame_of df0 ]}
         {[ "data/processed"%string := []; "data/interim"%string := []; "data/elsewhere"%string := [] ]} ∅.
Definition pipeline0 : list Cmd :=
  [MakeDataset (dataset_defaults R0 cfg0); BuildFeatures (build_defaults R0); MergeFeatures (merge_defaults R0)].
Definition elsewhere0 : list Cmd :=
  [MakeDataset (mkDatasetOpts "data/raw/log.json.gz" "data/elsewhere" 0 0 0 0 0 0);
   BuildFeatures (build_defaults R0); MergeFeatures (merge_defaults R0)].

Lemma options_ignored_witness :
  same_options (MakeDataset (mkDatasetOpts "other.json.gz" "data/processed" 5 6 7 8 9 10))
               (MakeDataset (dataset_defaults R0 cfg0)) /\
  exec fit0 predict0 [] cfg0 R0 (MakeDataset (mkDatasetOpts "other.json.gz" "data/processed" 5 6 7 8 9 10)) disk0 =
  exec fit0 predict0 [] cfg0 R0 (MakeDataset (dataset_defaults R0 cfg0)) disk0.
Proof.
  assert (H : same_options (MakeDataset (mkDatasetOpts "other.json.gz" "data/processed" 5 6 7 8 9 10))
                           (MakeDataset (dataset_defaults R0 cfg0))) by reflexivity.
  split; [exact H|]. exact (options_ignored fit0 predict0 [] cfg0 R0 _ _ disk0 H).
Defined.

Lemma train_ignores_dataset_output_root_witness :
  read_parquet (dir_files disk0 (output_data_root R0)) "train" = None /\
  Forall (fun c => forall o, c = MakeDataset o -> dataset_output_root o <> output_data_root R0) elsewhere0 /\
  exec fit0 predict0 [] cfg0 R0 (TrainModel (train_defaults R0)) (run fit0 predict0 [] cfg0 R0 elsewhere0 disk0).1 =
    ((run fit0 predict0 [] cfg0 R0 elsewhere0 disk0).1, Some PandasError).
Proof.
  assert (Hn : read_parquet (dir_files disk0 (output_data_root R0)) "train" = None) by reflexivity.
  assert (Hcs : Forall (fun c => forall o, c = MakeDataset o -> dataset_output_root o <> output_data_root R0)
                       elsewhere0).
  { repeat apply Forall_cons_2; try apply Forall_nil_2; intros o Ho; simplify_eq; discriminate. }
  split_and!; [exact Hn|exact Hcs|]. exact (train_ignores_dataset_output_root fit0 predict0 [] cfg0 R0 _ _ _ Hn Hcs).
Defined.

Lemma predict_needs_trained_model_witness :
  saved_models disk0 !! predict_models_root (predict_defaults R0) = None /\
  Forall (fun c => forall o, c = TrainModel o -> train_models_root o <> predict_models_root (predict_defaults R0))
         pipeline0 /\
  exists e, exec fit0 predict0 [] cfg0 R0 (MakePredictions (predict_defaults R0)) (run fit0 predict0 [] cfg0 R0 pipeline0 disk0).1 =
              ((run fit0 predict0 [] cfg0 R0 pipeline0 disk0).1, Some e).
Proof.
  assert (Hn : saved_models disk0 !! predict_models_root (predict_defaults R0) = None) by reflexivity.
  assert (Hcs : Forall (fun c => forall o, c = TrainModel o -> train_models_root o <> predict_models_root (predict_defaults R0))
                       pipeline0).
  { repeat apply Forall_cons_2; try apply Forall_nil_2; intros o Ho; discriminate Ho. }
  split_and!; [exact Hn|exact Hcs|]. exact (predict_needs_trained_model fit0 predict0 [] cfg0 R0 _ _ _ Hn Hcs).
Defined.


