(* ===== verification/Imports.v ===== *)
(** * Imports: Python's import system over the package's source tree

    Which module bodies run when [python -m wemoms_homework] starts, and
    in which order, is decided by the import statements at the top of
    every file and by Python's import system (importlib._bootstrap,
    runpy).  This file models
    - the module-level statements of each file ([Stmt]): imports of the
      package's modules ([Import], [FromImport]), imports of installed
      libraries ([ImportLib]), definitions ([Def]), library calls run for
      their effect ([Effect], in __init__.py) and the
      [CONF = load_config()] line with the constants read from it
      ([Conf], evaluated by the module records of Config.v);
    - the source tree as its files ([Tree]) and [find_spec]: a directory
      with an __init__.py is a regular package, a .py file a module, a
      directory without __init__.py a namespace package;
    - [_find_and_load] as [import_module]: a module in [sys.modules] is
      not loaded again; the parent package is imported first; the module
      is entered in [sys.modules] before its body runs; a missing module
      raises [ModuleNotFoundError]; after loading, the module becomes an
      attribute of its parent;
    - [from m import x]: [_handle_fromlist] tries a missing name of a
      package as a submodule, and the [IMPORT_FROM] of each name raises
      [ImportError] when the name is still missing;
    - [run_main]: runpy imports the package (its __init__.py) and then
      runs __main__.py in the [__main__] module.
    The recursion of [import_module] is on a fuel: the call graph of
    imports is not structural.  [import_fuel] is the depth of the
    deepest imported name times one more than the number of names of
    the tree: each nested call consumes one unit, and a module is
    entered in [sys.modules] before its body runs, so no chain of
    imports loads a module twice.  On the package's two trees it is
    enough: [imports_refine_startup] and [src_tree_commands_fail]
    evaluate the imports to a result (never [None], the out-of-fuel
    value) for every configuration.

    [python -m wemoms_homework] on the sources as given fails at the
    imports ([src_tree_commands_fail]); [complete_tree] adds the two
    modules the sources import but do not contain, and on it the
    imports run exactly [Config.startup] ([imports_refine_startup]). *)

From S2P Require Import Prelude Events Table Config Pipeline.
From stdpp Require Import strings.

(** ** Module names, statements and source trees *)

(** A dotted module name as the list of its components. *)
Definition ModName := list string.

Definition dotted (n : ModName) : string := String.concat "." n.

(** The module bodies that read config.yml, by module record. *)
Inductive ConfBody := CUtils | CMakeDataset | CFeature | CBuild | CMerge | CTrain | CPredict.

Inductive Stmt :=
| Import (m : ModName)                       (* import a.b *)
| FromImport (m : ModName) (xs : list string) (* from a.b import x, y *)
| ImportLib (m : string) (xs : list string)  (* an installed library, binding xs *)
| Def (xs : list string)                     (* def, class, or an assignment *)
| Effect (e : string)                        (* a library call run for its effect *)
| Conf (k : ConfBody) (xs : list string).    (* CONF = load_config() and the constants *)

(** The .py files of the tree by path without the suffix:
    [["wemoms_homework"; "features"; "base_features"]] is
    wemoms_homework/features/base_features.py and [[..; "__init__"]] a
    package's __init__.py. *)
Definition Tree := list (ModName * list Stmt).

Inductive Spec :=
| RegularPackage (body : list Stmt)
| SourceModule (body : list Stmt)
| NamespacePackage.

Definition spec_body (sp : Spec) : list Stmt :=
  match sp with RegularPackage b | SourceModule b => b | NamespacePackage => [] end.

Definition spec_pkg (sp : Spec) : bool :=
  match sp with SourceModule _ => false | _ => true end.

(** The first binding of a name in an association list. *)
Fixpoint assoc {A} (n : ModName) (l : list (ModName * A)) : option A :=
  match l with
  | [] => None
  | (k, v) :: l' => if decide (k = n) then Some v else assoc n l'
  end.

(** [d[n] = v] on an insertion-ordered dict. *)
Fixpoint assoc_set {A} (n : ModName) (v : A) (l : list (ModName * A)) : list (ModName * A) :=
  match l with
  | [] => [(n, v)]
  | (k, w) :: l' => if decide (k = n) then (k, v) :: l' else (k, w) :: assoc_set n v l'
  end.

(** FileFinder.find_spec: an __init__.py first, then a .py file, then a
    directory (some file lies strictly below the name). *)
Definition find_spec (tree : Tree) (n : ModName) : option Spec :=
  match assoc (n ++ ["__init__"]) tree with
  | Some b => Some (RegularPackage b)
  | None =>
      match assoc n tree with
      | Some b => Some (SourceModule b)
      | None =>
          if bool_decide (Exists (λ p, n `prefix_of` p ∧ n ≠ p) tree.*1)
          then Some NamespacePackage else None
      end
  end.

(** [name.rpartition('.')[0]] when not empty, and the last component. *)
Definition parent (n : ModName) : option ModName :=
  match rev n with
  | _ :: ((_ :: _) as r) => Some (rev r)
  | _ => None
  end.

Definition child (n : ModName) : string :=
  match rev n with x :: _ => x | [] => "" end.

(** ** sys.modules *)

Inductive ModVal :=
| VUtils (m : UtilsMod)
| VDataset (m : DatasetMod)
| VFeature (m : FeatureMod)
| VMerge (m : MergeMod)
| VTrain (m : TrainMod)
| VPredict (m : PredictMod).

(** A module object: whether it is a package, the names bound in its
    namespace, and the constants its [CONF] line read. *)
Record Entry := mkEntry { ent_pkg : bool; ent_ns : list string; ent_val : option ModVal }.

(** The trace: a module body starting, a library call's effect. *)
Inductive Event := Exec (n : ModName) | Did (e : string).

Record Sys := mkSys { sys_modules : list (ModName * Entry); sys_trace : list Event }.

Definition in_sys (n : ModName) (s : Sys) : bool := bool_decide (n ∈ (sys_modules s).*1).

Definition update_entry (n : ModName) (f : Entry -> Entry) (s : Sys) : Sys :=
  match assoc n (sys_modules s) with
  | Some e => mkSys (assoc_set n (f e) (sys_modules s)) (sys_trace s)
  | None => s
  end.

Definition bind_names (me : ModName) (xs : list string) : Sys -> Sys :=
  update_entry me (λ e, mkEntry (ent_pkg e) (ent_ns e ++ xs) (ent_val e)).

Definition set_val (me : ModName) (v : ModVal) : Sys -> Sys :=
  update_entry me (λ e, mkEntry (ent_pkg e) (ent_ns e) (Some v)).

Definition add_event (ev : Event) (s : Sys) : Sys := mkSys (sys_modules s) (sys_trace s ++ [ev]).

(** [_load_unlocked]: [sys.modules[name] = module] before the body runs. *)
Definition add_module (n : ModName) (sp : Spec) (s : Sys) : Sys :=
  let s' := mkSys (assoc_set n (mkEntry (spec_pkg sp) [] None) (sys_modules s)) (sys_trace s) in
  match sp with NamespacePackage => s' | _ => add_event (Exec n) s' end.

(** [setattr(parent_module, child, module)]. *)
Definition setattr_parent (n : ModName) (s : Sys) : Sys :=
  match parent n with Some p => bind_names p [child n] s | None => s end.

Definition parent_is_pkg (n : ModName) (s : Sys) : bool :=
  match parent n with
  | Some p => match assoc p (sys_modules s) with Some e => ent_pkg e | None => false end
  | None => true
  end.

(** ** The import machine *)

(** An import either runs out of fuel ([None]) or returns a state or
    the exception it raised. *)
Definition Imp (A : Type) := option (result A).

Definition ibind {A B} (m : Imp A) (k : A -> Imp B) : Imp B :=
  match m with
  | Some (Ok a) => k a
  | Some (Err e) => Some (Err e)
  | None => None
  end.

Local Notation "'let?' x := m 'in' k" := (ibind m (λ x, k))
  (at level 10, x name, m at level 200, k at level 200).

Definition conf_body (k : ConfBody) (CONF : Yaml) : result ModVal :=
  match k with
  | CUtils => m ← utils_init CONF; mret (VUtils m)
  | CMakeDataset => m ← make_dataset_init CONF; mret (VDataset m)
  | CFeature => m ← feature_init CONF; mret (VFeature m)
  | CBuild => m ← build_init CONF; mret (VFeature m)
  | CMerge => m ← merge_init CONF; mret (VMerge m)
  | CTrain => m ← train_init CONF; mret (VTrain m)
  | CPredict => m ← predict_init CONF; mret (VPredict m)
  end.

(** A module's [CONF = load_config()] line and the constants it reads:
    each module reads config.yml again. *)
Definition run_conf (safe_load : string -> option Yaml) (cwd : Cwd) (k : ConfBody) : result ModVal :=
  CONF ← load_config safe_load cwd; conf_body k CONF.

Section Body.
(** The [Conf] lines ([run_conf]) and the import of a module by name
    ([_gcd_import]). *)
Variable conf : ConfBody -> result ModVal.
Variable imp : ModName -> Sys -> Imp Sys.

(** [_handle_fromlist] on a package: a name it does not have is
    imported as a submodule; a [ModuleNotFoundError] of exactly that
    submodule is ignored.  That error is raised before any state
    changes (the package is in [sys.modules], so the submodule's spec is
    looked up at once), so the loop goes on from the same state. *)
Fixpoint handle_fromlist (m : ModName) (xs : list string) (s : Sys) : Imp Sys :=
  match xs with
  | [] => Some (Ok s)
  | x :: xs' =>
      match assoc m (sys_modules s) with
      | Some e =>
          if bool_decide (x ∈ ent_ns e) || negb (ent_pkg e) then handle_fromlist m xs' s
          else match imp (m ++ [x]) s with
               | Some (Ok s') => handle_fromlist m xs' s'
               | Some (Err (ModuleNotFoundError nm)) =>
                   if String.eqb nm (dotted (m ++ [x])) then handle_fromlist m xs' s
                   else Some (Err (ModuleNotFoundError nm))
               | r => r
               end
      | None => handle_fromlist m xs' s
      end
  end.

(** [IMPORT_FROM] of each name: [ImportError] on the first missing one. *)
Definition import_from (m : ModName) (xs : list string) (s : Sys) : Imp Sys :=
  match assoc m (sys_modules s) with
  | Some e =>
      match list_find (λ x, x ∉ ent_ns e) xs with
      | Some (_, x) => Some (Err (ImportError x (dotted m)))
      | None => Some (Ok s)
      end
  | None => Some (Err (ModuleNotFoundError (dotted m)))
  end.

Definition exec_stmt (me : ModName) (st : Stmt) (s : Sys) : Imp Sys :=
  match st with
  | Import m => let? s1 := imp m s in Some (Ok (bind_names me (take 1 m) s1))
  | FromImport m xs =>
      let? s1 := imp m s in
      let? s2 := handle_fromlist m xs s1 in
      let? s3 := import_from m xs s2 in
      Some (Ok (bind_names me xs s3))
  | ImportLib _ xs | Def xs => Some (Ok (bind_names me xs s))
  | Effect e => Some (Ok (add_event (Did e) s))
  | Conf k xs =>
      match conf k with
      | Ok v => Some (Ok (bind_names me xs (set_val me v s)))
      | Err e => Some (Err e)
      end
  end.

Fixpoint exec_body (me : ModName) (ss : list Stmt) (s : Sys) : Imp Sys :=
  match ss with
  | [] => Some (Ok s)
  | st :: ss' => let? s1 := exec_stmt me st s in exec_body me ss' s1
  end.

(** The parent package first, unless it is in [sys.modules]. *)
Definition import_parent (n : ModName) (s : Sys) : Imp Sys :=
  match parent n with
  | Some p => if in_sys p s then Some (Ok s) else imp p s
  | None => Some (Ok s)
  end.

End Body.

Section Loader.
Context (conf : ConfBody -> result ModVal) (tree : Tree).

(** [_find_and_load]. *)
Fixpoint import_module (fuel : nat) (n : ModName) (s : Sys) {struct fuel} : Imp Sys :=
  match fuel with
  | O => None
  | S f =>
      if in_sys n s then Some (Ok s) else
      let? s1 := import_parent (import_module f) n s in
      if in_sys n s1 then Some (Ok s1) else
      if negb (parent_is_pkg n s1) then Some (Err (ModuleNotFoundError (dotted n))) else
      match find_spec tree n with
      | None => Some (Err (ModuleNotFoundError (dotted n)))
      | Some sp =>
          let? s3 := exec_body conf (import_module f) n (spec_body sp) (add_module n sp s1) in
          Some (Ok (setattr_parent n s3))
      end
  end.

End Loader.

(** [python -m wemoms_homework]: runpy imports the package, then runs
    the code of wemoms_homework/__main__.py in the [__main__] module,
    which the interpreter has from the start. *)
Definition sys0 : Sys := mkSys [(["__main__"], mkEntry false [] None)] [].

Definition run_main (conf : ConfBody -> result ModVal) (tree : Tree) (fuel : nat) : Imp Sys :=
  let? s1 := import_module conf tree fuel ["wemoms_homework"] sys0 in
  match find_spec tree ["wemoms_homework"; "__main__"] with
  | Some (SourceModule body) =>
      exec_body conf (import_module conf tree fuel) ["__main__"] body s1
  | _ => Some (Err (ModuleNotFoundError "wemoms_homework.__main__"))
  end.

(** ** The fuel bound *)

(** Every name [find_spec] can find is a prefix of a file's path. *)
Definition prefixes (p : ModName) : list ModName := (λ i, take i p) <$> seq 0 (S (length p)).
Definition names (tree : Tree) : list ModName := tree.*1 ≫= prefixes.

(** The names an import statement may load. *)
Definition stmt_targets (st : Stmt) : list ModName :=
  match st with
  | Import m => [m]
  | FromImport m xs => m :: ((λ x, m ++ [x]) <$> xs)
  | _ => []
  end.

Definition targets (tree : Tree) : list ModName := tree.*2 ≫= (λ b, b ≫= stmt_targets).

Definition depth (tree : Tree) : nat := S (foldr Nat.max 1%nat (length <$> targets tree)).

Definition import_fuel (tree : Tree) : nat := (depth tree * S (length (names tree)))%nat.

Definition python_imports (safe_load : string -> option Yaml) (cwd : Cwd) (tree : Tree) : Imp Sys :=
  run_main (run_conf safe_load cwd) tree (import_fuel tree).

(** ** The package's files *)

(** __init__.py, lines 1-15. *)
Definition init_py : list Stmt :=
  [ImportLib "os" ["os"]; ImportLib "logging" ["logging"];
   ImportLib "coloredlogs" ["coloredlogs"]; ImportLib "absl.logging" ["absl"];
   Effect "os.environ['TF_CPP_MIN_LOG_LEVEL'] = '2'";
   Effect "absl.logging.set_verbosity(absl.logging.ERROR)";
   Effect "logging.basicConfig(level=logging.INFO)";
   Effect "coloredlogs.install(level='INFO')"].

(** __main__.py, lines 1-14 (the [cli()] call of lines 16-17 is
    [run_python]). *)
Definition main_py : list Stmt :=
  [ImportLib "click" ["click"];
   FromImport ["wemoms_homework"; "data"; "make_dataset"] ["dataset"];
   FromImport ["wemoms_homework"; "features"; "build_features"] ["build"];
   FromImport ["wemoms_homework"; "features"; "merge_features"] ["merge"];
   FromImport ["wemoms_homework"; "models"; "train_model"] ["train"];
   FromImport ["wemoms_homework"; "models"; "predict_model"] ["predict"];
   Def ["cli"]].

(** config.py, lines 1-4. *)
Definition config_py : list Stmt := [ImportLib "yaml" ["yaml"]; Def ["load_config"]].

Definition from_config : Stmt := FromImport ["wemoms_homework"; "config"] ["load_config"].
Definition from_feature : Stmt := FromImport ["wemoms_homework"; "features"; "feature"] ["Feature"].
Definition feature_imports : list Stmt :=
  [FromImport ["wemoms_homework"; "features"; "base_features"] ["BaseFeatures"];
   FromImport ["wemoms_homework"; "features"; "extra_features"] ["ExtraFeatures"];
   FromImport ["wemoms_homework"; "features"; "post_popularity"] ["PostPopularity"];
   FromImport ["wemoms_homework"; "features"; "user_post_popularity"] ["UserPostPopularity"]].

(** utils.py, lines 1-8, and its three functions. *)
Definition utils_py : list Stmt :=
  [ImportLib "os" ["os"]; ImportLib "pandas" ["pd"]; from_config;
   Conf CUtils ["CONF"; "DATA_PATH"; "OUPUT_ROOT"];
   Def ["load_data"]; Def ["load_features"]; Def ["load_datasets"]].

(** data/make_dataset.py, lines 1-24, and the command. *)
Definition make_dataset_py : list Stmt :=
  [ImportLib "click" ["click"]; ImportLib "json" ["json"]; ImportLib "logging" ["logging"];
   ImportLib "os" ["os"]; ImportLib "pandas" ["pd"]; from_config;
   FromImport ["wemoms_homework"; "utils"] ["load_data"];
   Conf CMakeDataset ["CONF"; "DATA_PATH"; "OUPUT_ROOT"; "TRAIN_START_DATE"; "TRAIN_END_DATE";
                      "EVAL_START_DATE"; "EVAL_END_DATE"; "TEST_START_DATE"; "TEST_END_DATE"];
   Def ["dataset"]; Def ["make_dataset"]].

(** The four extractor modules: base_features.py (lines 1-54),
    extra_features.py (1-16), post_popularity.py and
    user_post_popularity.py (1-10), then their class. *)
Definition extractor_py (before : list string) (cls : string) : list Stmt :=
  [ImportLib "logging" ["logging"]; ImportLib "os" ["os"]; ImportLib "pandas" ["pd"];
   from_config; from_feature] ++ map (λ x, Def [x]) before ++
  [Conf CFeature ["CONF"; "DATA_PATH"; "OUTPUT_ROOT"]; Def [cls]].

Definition base_features_py : list Stmt :=
  extractor_py ["IDS"; "USER_FEATURES"; "POST_FEATURES"; "LABEL"] "BaseFeatures".
Definition extra_features_py : list Stmt := extractor_py ["IDS"] "ExtraFeatures".
Definition post_popularity_py : list Stmt := extractor_py [] "PostPopularity".
Definition user_post_popularity_py : list Stmt := extractor_py [] "UserPostPopularity".

(** features/build_features.py, lines 1-28, and the command. *)
Definition build_features_py : list Stmt :=
  [ImportLib "click" ["click"]; ImportLib "functools" ["ft"]; ImportLib "json" ["json"];
   ImportLib "logging" ["logging"]; ImportLib "os" ["os"]; ImportLib "pandas" ["pd"];
   from_config; FromImport ["wemoms_homework"; "utils"] ["load_data"]] ++ feature_imports ++
  [Conf CBuild ["CONF"; "DATA_PATH"; "OUTPUT_ROOT"];
   Def ["FEATURE_DICT"]; Def ["build"]; Def ["build_features"]].

(** features/merge_features.py, lines 1-31, and the command; the
    FEATURE_DICT assignment (lines 19-24) between the constants reads
    no configuration and is listed after them. *)
Definition merge_features_py : list Stmt :=
  [ImportLib "click" ["click"]; ImportLib "functools" ["ft"]; ImportLib "json" ["json"];
   ImportLib "logging" ["logging"]; ImportLib "os" ["os"]; ImportLib "pandas" ["pd"];
   from_config] ++ feature_imports ++
  [Conf CMerge ["CONF"; "DATA_PATH"; "OUTPUT_ROOT"; "INTERIM_ROOT"; "FEATURE_DEFINITIONS"; "FEATURES"];
   Def ["FEATURE_DICT"]; Def ["merge"]; Def ["merge_features"]].

(** models/train_model.py, lines 1-43, and the command (FEATURE_DICT
    as in merge_features.py). *)
Definition train_model_py : list Stmt :=
  [ImportLib "click" ["click"]; ImportLib "fastparquet" ["fastparquet"]; ImportLib "json" ["json"];
   ImportLib "logging" ["logging"]; ImportLib "os" ["os"]; ImportLib "pandas" ["pd"];
   ImportLib "tensorflow" ["tf"]; ImportLib "tensorflow" ["keras"];
   ImportLib "tensorflow.keras" ["layers"]; from_config;
   FromImport ["wemoms_homework"; "utils"] ["load_datasets"];
   FromImport ["wemoms_homework"; "utils"] ["load_features"]] ++ feature_imports ++
  [Conf CTrain ["CONF"; "DATA_PATH"; "MODELS_ROOT"; "LOGS_ROOT"; "INTERIM_ROOT"; "OUTPUT_ROOT";
                "FEATURE_DEFINITIONS"; "EPOCH"; "PATIENCE"];
   Def ["FEATURE_DICT"]; Def ["train"]; Def ["train_model"]].

(** models/predict_model.py, lines 1-45, and the command. *)
Definition predict_model_py : list Stmt :=
  [ImportLib "click" ["click"]; ImportLib "fastparquet" ["fastparquet"];
   ImportLib "functools" ["ft"]; ImportLib "json" ["json"]; ImportLib "logging" ["logging"];
   ImportLib "os" ["os"]; ImportLib "pandas" ["pd"];
   ImportLib "tensorflow.keras.models" ["load_model"];
   FromImport ["wemoms_homework"; "features"] ["USER_FEATURES"];
   FromImport ["wemoms_homework"; "features"] ["POST_FEATURES"];
   FromImport ["wemoms_homework"; "features"] ["USER_POST_FEATURES"];
   from_config;
   FromImport ["wemoms_homework"; "utils"] ["load_data"];
   FromImport ["wemoms_homework"; "utils"] ["load_datasets"];
   FromImport ["wemoms_homework"; "utils"] ["load_features"]] ++ feature_imports ++
  [Conf CPredict ["CONF"; "DATA_PATH"; "MODELS_ROOT"; "LOGS_ROOT"; "INTERIM_ROOT"; "OUTPUT_ROOT";
                  "FEATURE_DEFINITIONS"; "FEATURES"];
   Def ["FEATURE_DICT"]; Def ["predict"]; Def ["make_predictions"]].

(** The files under src/ as they are: data/, features/ and models/
    have no __init__.py, and features/feature.py is missing. *)
Definition src_tree : Tree :=
  [(["wemoms_homework"; "__init__"], init_py);
   (["wemoms_homework"; "__main__"], main_py);
   (["wemoms_homework"; "config"], config_py);
   (["wemoms_homework"; "utils"], utils_py);
   (["wemoms_homework"; "data"; "make_dataset"], make_dataset_py);
   (["wemoms_homework"; "features"; "base_features"], base_features_py);
   (["wemoms_homework"; "features"; "build_features"], build_features_py);
   (["wemoms_homework"; "features"; "extra_features"], extra_features_py);
   (["wemoms_homework"; "features"; "merge_features"], merge_features_py);
   (["wemoms_homework"; "features"; "post_popularity"], post_popularity_py);
   (["wemoms_homework"; "features"; "user_post_popularity"], user_post_popularity_py);
   (["wemoms_homework"; "models"; "predict_model"], predict_model_py);
   (["wemoms_homework"; "models"; "train_model"], train_model_py)].

(** The tree completed by the two files the imports need: a
    features/__init__.py defining the three column lists
    predict_model.py imports, and a features/feature.py defining the
    [Feature] base class, neither importing the package. *)
Definition complete_tree : Tree :=
  src_tree ++
  [(["wemoms_homework"; "features"; "__init__"],
    [Def ["USER_FEATURES"]; Def ["POST_FEATURES"]; Def ["USER_POST_FEATURES"]]);
   (["wemoms_homework"; "features"; "feature"], [Def ["Feature"]])].

(** ** The modules' constants after the imports *)

Definition mod_val (n : ModName) (s : Sys) : option ModVal := e ← assoc n (sys_modules s); ent_val e.

Definition as_utils v := match v with VUtils m => Some m | _ => None end.
Definition as_dataset v := match v with VDataset m => Some m | _ => None end.
Definition as_feature v := match v with VFeature m => Some m | _ => None end.
Definition as_merge v := match v with VMerge m => Some m | _ => None end.
Definition as_train v := match v with VTrain m => Some m | _ => None end.
Definition as_predict v := match v with VPredict m => Some m | _ => None end.

Definition get_mod {A} (n : list string) (f : ModVal -> option A) (s : Sys) : option A :=
  mod_val ("wemoms_homework" :: n) s ≫= f.

Definition collect (s : Sys) : option Modules :=
  u ← get_mod ["utils"] as_utils s;
  md ← get_mod ["data"; "make_dataset"] as_dataset s;
  bf ← get_mod ["features"; "base_features"] as_feature s;
  ef ← get_mod ["features"; "extra_features"] as_feature s;
  pp ← get_mod ["features"; "post_popularity"] as_feature s;
  upp ← get_mod ["features"; "user_post_popularity"] as_feature s;
  b ← get_mod ["features"; "build_features"] as_feature s;
  m ← get_mod ["features"; "merge_features"] as_merge s;
  t ← get_mod ["models"; "train_model"] as_train s;
  p ← get_mod ["models"; "predict_model"] as_predict s;
  Some (mkModules u md bf ef pp upp b m t p).

Definition rmap {A B} (f : A -> B) (r : result A) : result B :=
  match r with Ok a => Ok (f a) | Err e => Err e end.

(** The process: the imports, then [cli()] (__main__.py, lines 16-17)
    dispatching to the command, which reads the paths of its module. *)
Definition run_python {Model} (fit : Table -> list Z -> Table -> list Z -> result Model)
    (predict : Model -> list Val -> Q) (USER_POST_FEATURES : list string) (cfg : Config)
    (safe_load : string -> option Yaml) (cwd : Cwd) (tree : Tree) (argv : Roots -> Cmd)
    (d : Disk) : option (Disk * option Exc) :=
  match python_imports safe_load cwd tree with
  | None => None
  | Some (Err e) => Some (d, Some e)
  | Some (Ok s) =>
      match collect s ≫= roots_of with
      | Some R => Some (exec fit predict USER_POST_FEATURES cfg R (argv R) d)
      | None => Some (d, Some TypeError)
      end
  end.

(** The results of the seven module bodies as a [conf]. *)
Definition conf_of (ru : result UtilsMod) (rd : result DatasetMod) (rf rb : result FeatureMod)
    (rm : result MergeMod) (rt : result TrainMod) (rp : result PredictMod) (k : ConfBody)
  : result ModVal :=
  match k with
  | CUtils => rmap VUtils ru
  | CMakeDataset => rmap VDataset rd
  | CFeature => rmap VFeature rf
  | CBuild => rmap VFeature rb
  | CMerge => rmap VMerge rm
  | CTrain => rmap VTrain rt
  | CPredict => rmap VPredict rp
  end.

(** ** Lemmas *)

(** *** The monad *)


Lemma ibind_sim {A B} (m1 m2 : Imp A) (k1 k2 : A -> Imp B) r :
  (∀ r1, m1 = Some r1 -> m2 = Some r1) -> (∀ a r, k1 a = Some r -> k2 a = Some r) ->
  ibind m1 k1 = Some r -> ibind m2 k2 = Some r.
Proof. intros Hm Hk. destruct m1 as [[a|e]|]; simpl; [..|done]; rewrite (Hm _ eq_refl); simpl; auto. Qed.


(** *** Simulation: a larger fuel or an equal configuration gives the
    same result *)

Definition isim (i1 i2 : ModName -> Sys -> Imp Sys) : Prop :=
  ∀ x s r, i1 x s = Some r -> i2 x s = Some r.

Section Sim.
Context (c1 c2 : ConfBody -> result ModVal) (Hc : ∀ k, c1 k = c2 k).
Context (i1 i2 : ModName -> Sys -> Imp Sys) (Hi : isim i1 i2).

Lemma handle_fromlist_sim m xs s r :
  handle_fromlist i1 m xs s = Some r -> handle_fromlist i2 m xs s = Some r.
Proof.
  revert s. induction xs as [|x xs IH]; intros s; simpl; [done|].
  destruct (assoc m (sys_modules s)) as [e|]; [|apply IH]. case_match; [apply IH|].
  destruct (i1 (m ++ [x]) s) as [r1|] eqn:E; [|done]. rewrite (Hi _ _ _ E).
  destruct r1 as [s'|[]]; try done; [apply IH|]. case_match; [apply IH|done].
Qed.

Lemma exec_stmt_sim me st s r : exec_stmt c1 i1 me st s = Some r -> exec_stmt c2 i2 me st s = Some r.
Proof.
  destruct st; simpl; rewrite ?Hc; try done.
  - apply ibind_sim; [apply Hi|done].
  - apply ibind_sim; [apply Hi|]. intros s1 r1. apply ibind_sim; [apply handle_fromlist_sim|done].
Qed.

Lemma exec_body_sim me ss s r : exec_body c1 i1 me ss s = Some r -> exec_body c2 i2 me ss s = Some r.
Proof.
  revert s r. induction ss as [|st ss IH]; intros s r; simpl; [done|].
  apply ibind_sim; [apply exec_stmt_sim|apply IH].
Qed.

Lemma import_parent_sim n s r : import_parent i1 n s = Some r -> import_parent i2 n s = Some r.
Proof. unfold import_parent. repeat case_match; auto. Qed.

End Sim.

Lemma import_module_sim c1 c2 tree f f' n s r :
  (∀ k, c1 k = c2 k) -> (f <= f')%nat ->
  import_module c1 tree f n s = Some r -> import_module c2 tree f' n s = Some r.
Proof.
  intros Hc. revert f' n s r. induction f as [|f IH]; intros [|f'] n s r Hf; simpl; try done; [lia|].
  assert (Hi : isim (import_module c1 tree f) (import_module c2 tree f')) by (intros ???; apply IH; lia).
  case_match; [done|]. apply ibind_sim; [by apply import_parent_sim|]. intros s1 r1.
  repeat case_match; try done. apply ibind_sim; [by apply exec_body_sim|done].
Qed.

Lemma run_main_sim c1 c2 tree f f' r :
  (∀ k, c1 k = c2 k) -> (f <= f')%nat -> run_main c1 tree f = Some r -> run_main c2 tree f' = Some r.
Proof.
  intros Hc Hf. unfold run_main. apply ibind_sim; [intros ?; by apply import_module_sim|]. intros s1 r1.
  repeat case_match; try done. apply exec_body_sim; [done|]. intros ???. by apply import_module_sim.
Qed.

Lemma run_main_conf_ext c1 c2 tree f :
  (∀ k, c1 k = c2 k) -> run_main c1 tree f = run_main c2 tree f.
Proof.
  intros Hc. destruct (run_main c1 tree f) as [r|] eqn:E.
  - symmetry. by eapply run_main_sim.
  - destruct (run_main c2 tree f) as [r|] eqn:E2; [|done].
    rewrite <- E. apply (run_main_sim c2 c1 tree f f); [done|lia|exact E2].
Qed.

Lemma run_conf_of safe_load cwd k :
  run_conf safe_load cwd k =
  conf_of (module_init safe_load utils_init cwd) (module_init safe_load make_dataset_init cwd)
    (module_init safe_load feature_init cwd) (module_init safe_load build_init cwd)
    (module_init safe_load merge_init cwd) (module_init safe_load train_init cwd)
    (module_init safe_load predict_init cwd) k.
Proof.
  unfold run_conf, module_init. destruct (load_config safe_load cwd) as [CONF|]; [|by destruct k].
  destruct k; [destruct (utils_init CONF)|destruct (make_dataset_init CONF)|destruct (feature_init CONF)
  |destruct (build_init CONF)|destruct (merge_init CONF)|destruct (train_init CONF)
  |destruct (predict_init CONF)]; done.
Qed.

(** *** Evaluating the package's imports *)

(** The imports with the seven module bodies' results abstract: each
    case is decided by evaluation once the results before it are known. *)
Ltac eval_results ru rd rf rb rm rt rp :=
  destruct ru; [|vm_compute; reflexivity]; destruct rd; [|vm_compute; reflexivity];
  destruct rf; [|vm_compute; reflexivity]; destruct rb; [|vm_compute; reflexivity];
  destruct rm; [|vm_compute; reflexivity]; destruct rt; [|vm_compute; reflexivity];
  destruct rp; [|vm_compute; reflexivity]; vm_compute; reflexivity.

Lemma imports_startup safe_load cwd :
  option_map (rmap collect) (python_imports safe_load cwd complete_tree) =
  Some (rmap Some (startup safe_load cwd)).
Proof.
  unfold python_imports. rewrite (run_main_conf_ext _ _ _ _ (run_conf_of safe_load cwd)).
  unfold startup.
  generalize (module_init safe_load predict_init cwd) (module_init safe_load train_init cwd)
    (module_init safe_load merge_init cwd) (module_init safe_load build_init cwd)
    (module_init safe_load feature_init cwd) (module_init safe_load make_dataset_init cwd)
    (module_init safe_load utils_init cwd).
  intros rp rt rm rb rf rd ru. eval_results ru rd rf rb rm rt rp.
Qed.

(** ** Properties *)

(** C25 (refinement, the imports run [startup]): on the source tree
    completed by features/__init__.py and features/feature.py, the
    imports of [python -m wemoms_homework] raise exactly the exception
    of [Config.startup], and when they succeed the constants in
    [sys.modules] are [startup]'s modules: the ten module bodies read
    config.yml in [startup]'s order. *)
Theorem imports_refine_startup safe_load cwd :
  option_map (rmap collect) (python_imports safe_load cwd complete_tree) =
  Some (rmap Some (startup safe_load cwd)).
Proof. apply imports_startup. Qed.

(** C23 (error, the sources as given cannot run): with the files under
    src/, every invocation of every command raises before the command
    runs and leaves the disk as it was: the exception of utils.py's or
    make_dataset.py's configuration constants, and otherwise
    [ModuleNotFoundError] for wemoms_homework.features.feature, which
    base_features.py imports and the sources do not have. *)
Theorem src_tree_commands_fail {Model} (fit : Table -> list Z -> Table -> list Z -> result Model) predict
    upf cfg safe_load cwd argv (d : Disk) :
  run_python fit predict upf cfg safe_load cwd src_tree argv d =
  Some (d, Some (match module_init safe_load utils_init cwd, module_init safe_load make_dataset_init cwd with
                 | Err e, _ | Ok _, Err e => e
                 | Ok _, Ok _ => ModuleNotFoundError "wemoms_homework.features.feature"
                 end)).
Proof.
  unfold run_python, python_imports. rewrite (run_main_conf_ext _ _ _ _ (run_conf_of safe_load cwd)).
  generalize (module_init safe_load predict_init cwd) (module_init safe_load train_init cwd)
    (module_init safe_load merge_init cwd) (module_init safe_load build_init cwd)
    (module_init safe_load feature_init cwd) (module_init safe_load make_dataset_init cwd)
    (module_init safe_load utils_init cwd).
  intros rp rt rm rb rf rd ru. eval_results ru rd rf rb rm rt rp.
Qed.
