(* ===== verification/Setup.v ===== *)
(** * Packaging: setup.py

    The [setup(...)] call (lines 11-19) is [setup_args]: its packages
    are setuptools' [find_packages('src')] over the source tree of
    Imports.v, which yields only directories with an __init__.py and
    does not enter the others, and a regular install copies the
    modules of those packages ([installed]).

    setup.py (lines 4-9) reads requirements.txt and passes its lines to
    [setup(install_requires=...)]: every line stripped of surrounding
    whitespace ([str.strip]), keeping the non-empty lines that do not
    start with "--" (pip options).  The file is a list of lines, each
    with its end of line; a string is a list of ASCII characters, and
    [str.strip] removes the ASCII whitespace of [str.isspace] (tab to
    carriage return, the four separators 28-31 and space).
    The path, [Path('__file__').parent / "requirements.txt"], names a
    file relative to the working directory, not to setup.py ('__file__'
    is a string literal); the model starts from the lines read. *)

From S2P Require Import Prelude Events Table Config Pipeline Imports.
From Stdlib Require Import Ascii.
From stdpp Require Import strings.

(** [c.isspace()] on an ASCII character. *)
Definition is_space (a : ascii) : bool :=
  let n := nat_of_ascii a in ((9 <=? n) && (n <=? 13)) || ((28 <=? n) && (n <=? 32)).

(** Leading whitespace removed. *)
Fixpoint lstrip_chars (l : list ascii) : list ascii :=
  match l with
  | [] => []
  | a :: l' => if is_space a then lstrip_chars l' else l
  end.

(** [s.strip()] *)
Definition strip (s : string) : string :=
  String.string_of_list_ascii (rev (lstrip_chars (rev (lstrip_chars (String.list_ascii_of_string s))))).

(** [line.strip() and not line.strip().startswith("--")] *)
Definition requirement_line (line : string) : bool :=
  negb (String.eqb (strip line) "") && negb (String.prefix "--" (strip line)).

(** [load_requirements()] on the lines of requirements.txt. *)
Definition load_requirements (lines : list string) : list string :=
  strip <$> filter (fun line => requirement_line line = true) lines.

(** ** setup() and find_packages *)

(** The directories of a source tree: the proper prefixes of its
    files' paths. *)
Definition dirs (tree : Tree) : list ModName :=
  tree.*1 ≫= (λ p, (λ i, take i p) <$> seq 1 (length p - 1)).

Definition has_init (tree : Tree) (d : ModName) : bool :=
  bool_decide ((d ++ ["__init__"]) ∈ tree.*1).

(** setuptools' [find_packages(where)]: the walk of [where] yields a
    directory that has an __init__.py and enters only such directories,
    so a package is a directory every directory of whose path, itself
    included, has an __init__.py. *)
Definition find_packages (tree : Tree) : list ModName :=
  remove_dups (filter (λ d, forallb (λ i, has_init tree (take i d)) (seq 1 (length d)) = true)
                      (dirs tree)).

(** The files a regular (non-editable) install copies: the modules of
    the packages listed, those directly in a package's directory. *)
Definition installed (packages : list ModName) (tree : Tree) : Tree :=
  filter (λ f, take (length f.1 - 1) f.1 ∈ packages) tree.

Record SetupArgs := mkSetupArgs {
  setup_name : string; setup_packages : list ModName; setup_package_dir : list (string * string);
  setup_python_requires : string; setup_install_requires : list string;
  setup_version : string; setup_description : string
}.

(** The [setup(...)] call of setup.py, lines 11-19, on the tree under
    src/ and the lines of requirements.txt. *)
Definition setup_args (tree : Tree) (requirements : list string) : SetupArgs :=
  mkSetupArgs "wemoms_homework" (find_packages tree) [(""%string, "src"%string)] "==3.10.*"
    (load_requirements requirements) "0.1.0" "Standalone version of wemoms homework".

(** [s.rstrip()] on characters. *)
Definition rstrip_chars (l : list ascii) : list ascii := rev (lstrip_chars (rev l)).

(** ** Lemmas *)

Lemma lstrip_chars_idem l : lstrip_chars (lstrip_chars l) = lstrip_chars l.
Proof.
  induction l as [|a l IH]; [done|]. simpl. destruct (is_space a) eqn:Ha; [done|]. simpl. by rewrite Ha.
Qed.

Lemma lstrip_chars_snoc l a : is_space a = false -> lstrip_chars (l ++ [a]) = lstrip_chars l ++ [a].
Proof.
  intros Ha. induction l as [|b l IH]; simpl; [by rewrite Ha|]. by destruct (is_space b).
Qed.

(** Stripping the end keeps a first character that is not a space. *)
Lemma rstrip_chars_cons a l : is_space a = false -> rstrip_chars (a :: l) = a :: rstrip_chars l.
Proof.
  intros Ha. unfold rstrip_chars. simpl. rewrite lstrip_chars_snoc by done.
  by rewrite rev_app_distr.
Qed.

Lemma rstrip_chars_idem l : rstrip_chars (rstrip_chars l) = rstrip_chars l.
Proof. unfold rstrip_chars. by rewrite rev_involutive, lstrip_chars_idem. Qed.

(** A left-stripped list stays left-stripped when its end is stripped. *)
Lemma lstrip_rstrip l : lstrip_chars (rstrip_chars (lstrip_chars l)) = rstrip_chars (lstrip_chars l).
Proof.
  induction l as [|a l IH]; [done|]. simpl. destruct (is_space a) eqn:Ha; [done|].
  rewrite rstrip_chars_cons by done. simpl. by rewrite Ha.
Qed.

Lemma strip_chars s : String.list_ascii_of_string (strip s) =
  rstrip_chars (lstrip_chars (String.list_ascii_of_string s)).
Proof. unfold strip. by rewrite String.list_ascii_of_string_of_list_ascii. Qed.

Lemma strip_idem s : strip (strip s) = strip s.
Proof.
  unfold strip at 1. rewrite strip_chars.
  change (rev (lstrip_chars (rev ?l))) with (rstrip_chars l).
  rewrite lstrip_rstrip, rstrip_chars_idem.
  unfold strip. reflexivity.
Qed.

Lemma requirement_line_strip line : requirement_line (strip line) = requirement_line line.
Proof. unfold requirement_line. by rewrite strip_idem. Qed.

(** ** Properties *)

(** C19 (install requirements): every requirement setup.py passes on
    is its own [strip()], is not empty and does not start with "--";
    and reading the requirements back from that list gives the same
    list. *)
Theorem load_requirements_spec lines :
  Forall (fun r => strip r = r /\ r <> ""%string /\ String.prefix "--" r = false)
         (load_requirements lines) /\
  load_requirements (load_requirements lines) = load_requirements lines.
Proof.
  split.
  - apply Forall_fmap, Forall_forall. intros line (Hl & _)%list_elem_of_filter. unfold compose.
    unfold requirement_line in Hl. apply andb_prop in Hl as [H1 H2].
    apply negb_true_iff in H1, H2. split_and!; [apply strip_idem| |done].
    intros He. by rewrite He in H1.
  - unfold load_requirements. rewrite filter_fmap_comm.
    rewrite (filter_all_true (fun x => requirement_line (strip x) = true)).
    + rewrite <-list_fmap_compose. apply list_fmap_ext. intros _ x _. apply strip_idem.
    + apply Forall_forall. intros x (Hx & _)%list_elem_of_filter. by rewrite requirement_line_strip.
Qed.

(** A comment line of requirements.txt is passed on as a requirement:
    only pip options ("--") are skipped. *)
Example load_requirements_keeps_comments :
  let nl := String (ascii_of_nat 10) EmptyString in
  load_requirements ["# pinned for python 3.10" ++ nl; "pandas" ++ nl;
                     "--extra-index-url https://example.org" ++ nl; "  " ++ nl]%string =
    ["# pinned for python 3.10"; "pandas"]%string.
Proof. vm_compute. reflexivity. Qed.

(** C24 (error, a regular install cannot run): [find_packages('src')]
    finds only wemoms_homework, because data/, features/ and models/
    have no __init__.py.  A regular install of the package therefore
    lacks the commands' modules: even with features/__init__.py and
    features/feature.py added, every invocation of
    [python -m wemoms_homework] raises [ModuleNotFoundError] for
    wemoms_homework.data before reading config.yml, whatever the
    configuration, and leaves the disk as it was. *)
Theorem installed_package_fails {Model} (fit : Table -> list Z -> Table -> list Z -> result Model)
    predict upf cfg safe_load cwd argv (d : Disk) requirements :
  setup_packages (setup_args src_tree requirements) = [["wemoms_homework"]]%string ∧
  run_python fit predict upf cfg safe_load cwd
    (installed (setup_packages (setup_args complete_tree requirements)) complete_tree) argv d =
  Some (d, Some (ModuleNotFoundError "wemoms_homework.data")).
Proof. split; [vm_compute; reflexivity|]. vm_compute. reflexivity. Qed.
